(** * CatClient HDRV0 launcher core: a shallow embedding of [Cat4k.py]

    The launcher is one Tk application class, [CatClientHDRV0].  Its methods
    read and write the instance fields, a [configparser.ConfigParser], a few
    Tk widgets, the file system, the network and the process table.  The
    embedding threads one explicit [State] (instance fields, widget values and
    the outside world) through a small state-and-exception monad [Py]; every
    externally visible action is appended to a chronological event log.

    Modelling conventions:
    - values decoded by [json.loads] and values held in the instance fields
      are [value]s; JSON numbers are integers (floats are outside the model);
    - the reply of one [urlopen(...)] + [read().decode()] + [json.loads] chain
      is supplied by the environment as an [outcome value];
    - [ConfigParser] keeps a DEFAULT map and named sections; option values are
      returned verbatim (interpolation is not modelled);
    - the settings file is rewritten (lines 58, 186 and 244) only after a
      start that read it or created it, and these rewrites succeed; its
      creation on a first run (line 52) needs the game directory, which no
      code creates; [os.makedirs] succeeds and makes the missing ancestors
      of its argument too;
    - [os.urandom] reads from a byte stream of the outside world;
    - of the widgets only the texts the methods read back are kept; the
      layout, the theme and the modpack placeholder are left out. *)

From Stdlib Require Import ZArith String Ascii List Lia.
From Stdlib Require Strings.Byte.
From stdpp Require Import base option strings gmap sets list.

Set Warnings "-register-all".

Open Scope string_scope.
Open Scope Z_scope.

(** ** Python values and exceptions *)

Inductive value : Type :=
| JNull
| JBool (b : bool)
| JNum (n : Z)
| JStr (s : string)
| JArr (items : list value)
| JObj (fields : list (string * value)).

(** Every constructor is a subclass of Python's [Exception].  An
    [HTTPError] carries the text [e.read().decode()] gives for its body, or
    [None] when the body is not valid UTF-8 and that call raises
    [UnicodeDecodeError]. *)
Inductive exn : Type :=
| KeyError (key : string)
| TypeError
| IndexError
| HTTPError (code : Z) (reason : string) (body : option string)
| UnicodeDecodeError
| FileNotFoundError (path : string)
| OtherError (what : string).

Inductive outcome (A : Type) : Type :=
| Returned (a : A)
| Raised (e : exn).
Arguments Returned {A} a.
Arguments Raised {A} e.

Fixpoint assoc {A : Type} (k : string) (kv : list (string * A)) : option A :=
  match kv with
  | [] => None
  | (k', v) :: rest => if String.eqb k k' then Some v else assoc k rest
  end.

(** [v[k]] for a string subscript [k]. *)
Definition getitem (v : value) (k : string) : outcome value :=
  match v with
  | JObj fields =>
      match assoc k fields with
      | Some x => Returned x
      | None => Raised (KeyError k)
      end
  | _ => Raised TypeError
  end.

(** [for x in v]: the items a Python loop over [v] visits. *)
Definition iter (v : value) : outcome (list value) :=
  match v with
  | JArr items => Returned items
  | JObj fields => Returned (map (fun p => JStr (fst p)) fields)
  | JStr s => Returned (map (fun c => JStr (String c EmptyString)) (list_ascii_of_string s))
  | _ => Raised TypeError
  end.

(** *** Python dicts keyed by decoded values *)

Definition hashable (v : value) : bool :=
  match v with
  | JArr _ | JObj _ => false
  | _ => true
  end.

(** Key equality of hashable values: [True == 1] and [False == 0]. *)
Definition key_eqb (a b : value) : bool :=
  match a, b with
  | JNull, JNull => true
  | JStr s, JStr t => String.eqb s t
  | JBool x, JBool y => Bool.eqb x y
  | JNum x, JNum y => Z.eqb x y
  | JBool x, JNum y | JNum y, JBool x => Z.eqb (if x then 1 else 0) y
  | _, _ => false
  end.

Definition dict : Type := list (value * value).

Fixpoint dict_get (k : value) (d : dict) : option value :=
  match d with
  | [] => None
  | (k', v) :: rest => if key_eqb k k' then Some v else dict_get k rest
  end.

(** [d[k] = v]: an existing key keeps its position and its first spelling. *)
Fixpoint dict_set (k v : value) (d : dict) : dict :=
  match d with
  | [] => [(k, v)]
  | (k', v') :: rest =>
      if key_eqb k k' then (k', v) :: rest else (k', v') :: dict_set k v rest
  end.

(** ** configparser.ConfigParser *)

Record ConfigParser : Type := {
  defaults : gmap string string;
  sections : gmap string (gmap string string)
}.

Definition empty_parser : ConfigParser :=
  {| defaults := ∅; sections := ∅ |}.

Definition has_option (c : ConfigParser) (sec opt : string) : bool :=
  match sections c !! sec with
  | None => false
  | Some m => bool_decide (is_Some (m !! opt)) || bool_decide (is_Some (defaults c !! opt))
  end.

(** [opt in c[sec]] *)
Definition cfg_contains (c : ConfigParser) (sec opt : string) : outcome bool :=
  match sections c !! sec with
  | None => Raised (KeyError sec)
  | Some _ => Returned (has_option c sec opt)
  end.

(** [c[sec][opt]] *)
Definition cfg_get (c : ConfigParser) (sec opt : string) : outcome string :=
  match sections c !! sec with
  | None => Raised (KeyError sec)
  | Some m =>
      match m !! opt with
      | Some v => Returned v
      | None =>
          match defaults c !! opt with
          | Some v => Returned v
          | None => Raised (KeyError opt)
          end
      end
  end.

(** [c[sec][opt] = v] *)
Definition cfg_set (c : ConfigParser) (sec opt v : string) : outcome ConfigParser :=
  match sections c !! sec with
  | None => Raised (KeyError sec)
  | Some m =>
      Returned {| defaults := defaults c;
                  sections := <[sec := <[opt := v]> m]> (sections c) |}
  end.

(** [c[sec] = d] *)
Definition cfg_set_section (c : ConfigParser) (sec : string) (d : gmap string string)
  : ConfigParser :=
  {| defaults := defaults c; sections := <[sec := d]> (sections c) |}.

(** [c.read(f)]: the document on disk is merged over what [c] holds. *)
Definition cfg_read (c file : ConfigParser) : ConfigParser :=
  {| defaults := defaults file ∪ defaults c;
     sections := union_with (fun new old => Some (new ∪ old)) (sections file) (sections c) |}.

(** ** Events, messages and the state *)

Inductive message : Type :=
| Text (s : string)
| TextExn (prefix : string) (e : exn)
| TextValue (prefix : string) (v : value)
| TextHttp (prefix : string) (code : Z) (reason details : string)
| Repr (v : value).

Inductive event : Type :=
| EvUrlOpen (url : string) (headers : list (string * string)) (body : option value)
| EvShowInfo (title : string) (m : message)
| EvShowError (title : string) (m : message)
| EvPrint (m : message)
| EvWriteFile (path : string) (doc : ConfigParser)
| EvMakeDirs (path : string)
| EvPopen (argv : list value) (cwd : string).

(** The instance fields of [CatClientHDRV0]. *)
Record App : Type := {
  config : ConfigParser;
  logged_in : bool;
  access_token : value;
  username : value;
  uuid : value;
  versions : dict
}.

(** What the widgets hold: combobox and entry texts, and whether the login
    fields are packed. *)
Record Widgets : Type := {
  version_combo : string;
  mode_combo : string;
  auth_entry : string;
  password_entry : string;
  auth_fields_packed : bool
}.

(** The outside world. *)
Record World : Type := {
  home : string;                        (* what "~" expands to *)
  system : string;                      (* platform.system() *)
  config_on_disk : option ConfigParser; (* catclient_config.ini, [None] when absent *)
  paths : gset string;                  (* the other paths that exist *)
  entropy : nat -> Byte.byte;            (* the bytes os.urandom hands out *)
  entropy_pos : nat;                    (* how many of them were consumed *)
  spawn_error : option exn;             (* what creating a process runs into *)
  log : list event
}.

Record State : Type := {
  app : App;
  ui : Widgets;
  world : World
}.

(** *** Field updates *)

Definition with_app (f : App -> App) (s : State) : State :=
  {| app := f (app s); ui := ui s; world := world s |}.
Definition with_ui (f : Widgets -> Widgets) (s : State) : State :=
  {| app := app s; ui := f (ui s); world := world s |}.
Definition with_world (f : World -> World) (s : State) : State :=
  {| app := app s; ui := ui s; world := f (world s) |}.

Definition set_config (c : ConfigParser) (a : App) : App :=
  {| config := c; logged_in := logged_in a; access_token := access_token a;
     username := username a; uuid := uuid a; versions := versions a |}.
Definition set_logged_in (b : bool) (a : App) : App :=
  {| config := config a; logged_in := b; access_token := access_token a;
     username := username a; uuid := uuid a; versions := versions a |}.
Definition set_access_token (v : value) (a : App) : App :=
  {| config := config a; logged_in := logged_in a; access_token := v;
     username := username a; uuid := uuid a; versions := versions a |}.
Definition set_username (v : value) (a : App) : App :=
  {| config := config a; logged_in := logged_in a; access_token := access_token a;
     username := v; uuid := uuid a; versions := versions a |}.
Definition set_uuid (v : value) (a : App) : App :=
  {| config := config a; logged_in := logged_in a; access_token := access_token a;
     username := username a; uuid := v; versions := versions a |}.
Definition set_versions (d : dict) (a : App) : App :=
  {| config := config a; logged_in := logged_in a; access_token := access_token a;
     username := username a; uuid := uuid a; versions := d |}.

Definition set_version_combo (v : string) (w : Widgets) : Widgets :=
  {| version_combo := v; mode_combo := mode_combo w; auth_entry := auth_entry w;
     password_entry := password_entry w; auth_fields_packed := auth_fields_packed w |}.
Definition set_mode_combo (v : string) (w : Widgets) : Widgets :=
  {| version_combo := version_combo w; mode_combo := v; auth_entry := auth_entry w;
     password_entry := password_entry w; auth_fields_packed := auth_fields_packed w |}.
Definition set_auth_entry (v : string) (w : Widgets) : Widgets :=
  {| version_combo := version_combo w; mode_combo := mode_combo w; auth_entry := v;
     password_entry := password_entry w; auth_fields_packed := auth_fields_packed w |}.
Definition set_password_entry (v : string) (w : Widgets) : Widgets :=
  {| version_combo := version_combo w; mode_combo := mode_combo w;
     auth_entry := auth_entry w; password_entry := v;
     auth_fields_packed := auth_fields_packed w |}.
Definition set_auth_fields_packed (b : bool) (w : Widgets) : Widgets :=
  {| version_combo := version_combo w; mode_combo := mode_combo w;
     auth_entry := auth_entry w; password_entry := password_entry w;
     auth_fields_packed := b |}.

Definition set_config_on_disk (c : option ConfigParser) (w : World) : World :=
  {| home := home w; system := system w; config_on_disk := c; paths := paths w;
     entropy := entropy w; entropy_pos := entropy_pos w;
     spawn_error := spawn_error w; log := log w |}.
Definition set_paths (p : gset string) (w : World) : World :=
  {| home := home w; system := system w; config_on_disk := config_on_disk w;
     paths := p; entropy := entropy w; entropy_pos := entropy_pos w;
     spawn_error := spawn_error w; log := log w |}.
Definition set_entropy_pos (n : nat) (w : World) : World :=
  {| home := home w; system := system w; config_on_disk := config_on_disk w;
     paths := paths w; entropy := entropy w; entropy_pos := n;
     spawn_error := spawn_error w; log := log w |}.
Definition set_log (l : list event) (w : World) : World :=
  {| home := home w; system := system w; config_on_disk := config_on_disk w;
     paths := paths w; entropy := entropy w; entropy_pos := entropy_pos w;
     spawn_error := spawn_error w; log := l |}.

(** ** The state-and-exception monad *)

Definition Py (A : Type) : Type := State -> outcome A * State.

Definition ret {A : Type} (a : A) : Py A := fun s => (Returned a, s).
Definition raise {A : Type} (e : exn) : Py A := fun s => (Raised e, s).
Definition bind {A B : Type} (m : Py A) (k : A -> Py B) : Py B :=
  fun s =>
    match m s with
    | (Returned a, s') => k a s'
    | (Raised e, s') => (Raised e, s')
    end.

Declare Scope py_scope.
Delimit Scope py_scope with py.
Notation "x <- m ;; k" := (bind m (fun x => k))
  (at level 100, m at next level, right associativity) : py_scope.
Notation "m ;; k" := (bind m (fun _ => k))
  (at level 100, right associativity) : py_scope.
Open Scope py_scope.

(** [try: body except Exception as e: handler e]; what [body] did to the
    state before raising stays done. *)
Definition try_except {A : Type} (body : Py A) (handler : exn -> Py A) : Py A :=
  fun s =>
    match body s with
    | (Returned a, s') => (Returned a, s')
    | (Raised e, s') => handler e s'
    end.

Definition lift {A : Type} (o : outcome A) : Py A := fun s => (o, s).
Definition gets {A : Type} (f : State -> A) : Py A := fun s => (Returned (f s), s).
Definition modify (f : State -> State) : Py unit := fun s => (Returned tt, f s).

Definition emit (e : event) : Py unit :=
  modify (with_world (fun w => set_log (log w ++ [e]) w)).

Definition showinfo (title : string) (m : message) : Py unit := emit (EvShowInfo title m).
Definition showerror (title : string) (m : message) : Py unit := emit (EvShowError title m).
Definition print (m : message) : Py unit := emit (EvPrint m).

(** ** Module constants and operating-system primitives *)

Definition sep (w : World) : string :=
  if String.eqb (system w) "Windows" then "\" else "/".

(** [os.path.join a b] for a directory [a] without trailing separator and a
    relative name [b], the only way the launcher uses it. *)
Definition path_join (w : World) (a b : string) : string := a ++ sep w ++ b.

Definition MINECRAFT_DIR (w : World) : string := home w ++ "/.minecraft".
Definition VERSIONS_DIR (w : World) : string := path_join w (MINECRAFT_DIR w) "versions".
Definition JAVA_DIR (w : World) : string := home w ++ "/.catclient/java".
Definition VERSION_MANIFEST_URL : string :=
  "https://launchermeta.mojang.com/mc/game/version_manifest.json".
Definition TLAUNCHER_AUTH_URL : string := "https://auth.tlauncher.org/authenticate".

Definition config_file (w : World) : string :=
  path_join w (MINECRAFT_DIR w) "catclient_config.ini".

Definition path_exists (p : string) : Py bool :=
  gets (fun s => bool_decide (p ∈ paths (world s))).

(** [c] separates path components: "/" everywhere, and "\" on Windows. *)
Definition is_sep (w : World) (c : ascii) : bool :=
  Ascii.eqb c "/" || (String.eqb (system w) "Windows" && Ascii.eqb c "\").

(** The directories above the path [seen ++ rest] that end inside [rest],
    outermost first, for a path with single separators; drive letters are
    not treated specially. *)
Fixpoint ancestors_from (w : World) (seen rest : string) : list string :=
  match rest with
  | EmptyString => []
  | String c rest' =>
      ((if is_sep w c then [if String.eqb seen "" then String c "" else seen] else [])
       ++ ancestors_from w (seen ++ String c "") rest')%list
  end.

(** What [os.path.dirname], iterated, gives for [p]. *)
Definition ancestors (w : World) (p : string) : list string := ancestors_from w "" p.

(** The ancestors [os.makedirs] has to make: from the nearest one upwards,
    until one exists. *)
Fixpoint missing_dirs (present : gset string) (nearest_first : list string) : list string :=
  match nearest_first with
  | [] => []
  | q :: above =>
      if bool_decide (q ∈ present) then [] else q :: missing_dirs present above
  end.

(** The directories a call [os.makedirs(p)] brings into being. *)
Definition made (w : World) (p : string) : gset string :=
  {[p]} ∪ list_to_set (missing_dirs (paths w) (rev (ancestors w p))).

(** [os.makedirs(p)] for a [p] that does not exist. *)
Definition makedirs (p : string) : Py unit :=
  modify (with_world (fun w => set_paths (made w p ∪ paths w) w));;
  emit (EvMakeDirs p).

(** [os.urandom n] *)
Definition urandom (n : nat) : Py (list Byte.byte) :=
  fun s =>
    let w := world s in
    (Returned (map (entropy w) (seq (entropy_pos w) n)),
     with_world (set_entropy_pos (entropy_pos w + n)%nat) s).

(** [int.from_bytes bs] (big endian) *)
Definition from_bytes (bs : list Byte.byte) : Z :=
  fold_left (fun acc b => acc * 256 + Z.of_N (Byte.to_N b)) bs 0.

(** The version and variant bits [uuid.UUID(int=r, version=4)] forces. *)
Definition uuid4_int (r : Z) : Z :=
  let i := Z.land r (Z.lnot (Z.shiftl 0xc000 48)) in
  let i := Z.lor i (Z.shiftl 0x8000 48) in
  let i := Z.land i (Z.lnot (Z.shiftl 0xf000 64)) in
  Z.lor i (Z.shiftl 4 76).

Definition uuid4 : Py Z :=
  bs <- urandom 16;;
  ret (uuid4_int (from_bytes bs)).

Definition hexdigit (d : Z) : ascii :=
  nth (Z.to_nat d) (list_ascii_of_string "0123456789abcdef") "0"%char.

(** The [k] low hexadecimal digits of [n], most significant first: what
    ['%032x' % n] prints for [k = 32] and [0 <= n < 2^128]. *)
Fixpoint hex_width (k : nat) (n : Z) : list ascii :=
  match k with
  | O => []
  | S k' => hex_width k' (n / 16) ++ [hexdigit (n mod 16)]
  end.

(** ['%s-%s-%s-%s-%s' % (hex[:8], hex[8:12], hex[12:16], hex[16:20], hex[20:])] *)
Definition hyphenate (hex : list ascii) : list ascii :=
  let dash := ["-"%char] in
  take 8 hex ++ dash ++ take 4 (drop 8 hex) ++ dash ++ take 4 (drop 12 hex)
    ++ dash ++ take 4 (drop 16 hex) ++ dash ++ drop 20 hex.

(** [str(u)] for a UUID with integer [i]. *)
Definition uuid_str (i : Z) : string :=
  string_of_list_ascii (hyphenate (hex_width 32 i)).

(** The UUID the next call of [uuid.uuid4()] returns in [s], and the one a
    call returns once [skip] more bytes of entropy are gone. *)
Definition uuid_after (skip : nat) (s : State) : Z :=
  uuid4_int (from_bytes (map (entropy (world s)) (seq (entropy_pos (world s) + skip) 16))).
Definition next_uuid (s : State) : Z := uuid_after 0 s.

(** [s.split(c)] for a one-character separator. *)
Fixpoint split_on (c : ascii) (s : string) : list string :=
  match s with
  | EmptyString => [EmptyString]
  | String a rest =>
      if Ascii.eqb a c then EmptyString :: split_on c rest
      else match split_on c rest with
           | piece :: pieces => String a piece :: pieces
           | [] => [String a EmptyString]
           end
  end.

(** [l[i]] *)
Definition index {A : Type} (l : list A) (i : nat) : outcome A :=
  match l !! i with
  | Some x => Returned x
  | None => Raised IndexError
  end.

Definition is_str (v : value) : bool :=
  match v with JStr _ => true | _ => false end.

(** [subprocess.Popen(argv, cwd=cwd)] *)
Definition Popen (argv : list value) (cwd : string) : Py unit :=
  emit (EvPopen argv cwd);;
  if forallb is_str argv then
    err <- gets (fun s => spawn_error (world s));;
    match err with
    | Some e => raise e
    | None => ret tt
    end
  else raise TypeError.

(** ** The methods of [CatClientHDRV0] *)

(** [with open(self.config_file, 'w') as f: self.config.write(f)] on lines
    58, 186 and 244: the rewrite of the settings file.  In every run of the
    program it follows a start that read the file or created it, so that
    the file and its directory exist. *)
Definition write_config : Py unit :=
  c <- gets (fun s => config (app s));;
  modify (with_world (set_config_on_disk (Some c)));;
  path <- gets (fun s => config_file (world s));;
  emit (EvWriteFile path c).

(** The same statement on line 52, reached when the settings file does not
    exist: [open] creates the file, and raises [FileNotFoundError] when
    the directory it is to be in does not exist; nothing in the program
    creates that directory. *)
Definition create_config : Py unit :=
  w <- gets world;;
  if bool_decide (MINECRAFT_DIR w ∈ paths w) then write_config
  else raise (FileNotFoundError (config_file w)).

Definition default_settings (token : string) : gmap string string :=
  {[ "mode" := "offline"; "java_path" := ""; "client_token" := token ]}.

(** Lines 38 and 47-59 of [__init__]: load or initialize the settings. *)
Definition load_config : Py unit :=
  modify (with_app (set_config empty_parser));;
  disk <- gets (fun s => config_on_disk (world s));;
  match disk with
  | Some doc => modify (with_app (fun a => set_config (cfg_read (config a) doc) a))
  | None =>
      u <- uuid4;;
      modify (with_app (fun a =>
        set_config (cfg_set_section (config a) "settings" (default_settings (uuid_str u))) a));;
      create_config
  end;;
  c <- gets (fun s => config (app s));;
  present <- lift (cfg_contains c "settings" "client_token");;
  if negb present then
    u <- uuid4;;
    c <- gets (fun s => config (app s));;
    c' <- lift (cfg_set c "settings" "client_token" (uuid_str u));;
    modify (with_app (set_config c'));;
    write_config
  else ret tt.

(** The dict comprehension [{v["id"]: v["url"] for v in items}]. *)
Fixpoint index_versions (items : list value) (acc : dict) : outcome dict :=
  match items with
  | [] => Returned acc
  | v :: rest =>
      match getitem v "id" with
      | Raised e => Raised e
      | Returned k =>
          match getitem v "url" with
          | Raised e => Raised e
          | Returned u =>
              if hashable k then index_versions rest (dict_set k u acc)
              else Raised TypeError
          end
      end
  end.

(** What the [try] block of [fetch_versions] computes from the decoded
    manifest. *)
Definition manifest_versions (data : value) : outcome dict :=
  match getitem data "versions" with
  | Raised e => Raised e
  | Returned vs =>
      match iter vs with
      | Raised e => Raised e
      | Returned items => index_versions items []
      end
  end.

Definition fetch_versions (reply : outcome value) : Py unit :=
  try_except
    (emit (EvUrlOpen VERSION_MANIFEST_URL [] None);;
     data <- lift reply;;
     d <- lift (manifest_versions data);;
     modify (with_app (set_versions d)))
    (fun e =>
       showerror "Error" (TextExn "Failed to fetch versions: " e);;
       modify (with_app (set_versions []))).

Definition update_mode : Py unit :=
  mode <- gets (fun s => mode_combo (ui s));;
  c <- gets (fun s => config (app s));;
  c' <- lift (cfg_set c "settings" "mode" mode);;
  modify (with_app (set_config c'));;
  write_config;;
  if String.eqb mode "Offline Mode" then modify (with_ui (set_auth_fields_packed false))
  else if String.eqb mode "TLauncher Mode" then modify (with_ui (set_auth_fields_packed true))
  else ret tt.

Definition create_home_page : Py unit :=
  modify (with_ui (set_version_combo "1.20.1")).

Definition create_settings_page : Py unit :=
  c <- gets (fun s => config (app s));;
  mode <- lift (cfg_get c "settings" "mode");;
  modify (with_ui (set_mode_combo mode));;
  modify (with_ui (fun w => set_auth_entry "" (set_password_entry "" w)));;
  modify (with_ui (set_auth_fields_packed false));;
  update_mode.

Definition init_ui : Py unit :=
  create_home_page;;
  create_settings_page.

Definition fresh_app : App :=
  {| config := empty_parser; logged_in := false; access_token := JNull;
     username := JNull; uuid := JNull; versions := [] |}.

Definition __init__ (manifest_reply : outcome value) : Py unit :=
  modify (with_app (fun _ => fresh_app));;
  load_config;;
  fetch_versions manifest_reply;;
  init_ui.

Definition auth_payload (auth_input password client_token : string) : value :=
  JObj [("username", JStr auth_input); ("password", JStr password);
        ("clientToken", JStr client_token); ("requestUser", JBool true)].

Definition auth_headers : list (string * string) :=
  [("Content-Type", "application/json");
   ("User-Agent", "TLauncher/2.0 (Java; Windows 10)")].

Definition login (reply : outcome value) : Py unit :=
  auth_input <- gets (fun s => auth_entry (ui s));;
  password <- gets (fun s => password_entry (ui s));;
  c <- gets (fun s => config (app s));;
  client_token <- lift (cfg_get c "settings" "client_token");;
  try_except
    (emit (EvUrlOpen TLAUNCHER_AUTH_URL auth_headers
             (Some (auth_payload auth_input password client_token)));;
     data <- lift reply;;
     print (Repr data);;
     token <- lift (getitem data "accessToken");;
     modify (with_app (set_access_token token));;
     profile <- lift (getitem data "selectedProfile");;
     id <- lift (getitem profile "id");;
     modify (with_app (set_uuid id));;
     profile <- lift (getitem data "selectedProfile");;
     name <- lift (getitem profile "name");;
     modify (with_app (set_username name));;
     modify (with_app (set_logged_in true));;
     name <- gets (fun s => username (app s));;
     showinfo "Success" (TextValue "Logged in as " name))
    (fun e =>
       match e with
       | HTTPError code reason body =>
           error_message <- lift (match body with
                                  | Some text => Returned text
                                  | None => Raised UnicodeDecodeError
                                  end);;
           print (Text ("Error response: " ++ error_message));;
           showerror "Error" (TextHttp "Authentication failed: " code reason error_message);;
           modify (with_app (set_logged_in false))
       | _ =>
           showerror "Error" (TextExn "Authentication failed: " e);;
           modify (with_app (set_logged_in false))
       end).

Definition java_executable (w : World) : string :=
  path_join w (path_join w (JAVA_DIR w) "bin")
    (if String.eqb (system w) "Windows" then "java.exe" else "java").

Definition install_java_if_needed : Py string :=
  w <- gets world;;
  present <- path_exists (JAVA_DIR w);;
  (if negb present then
     makedirs (JAVA_DIR w);;
     showinfo "Java" (Text "Installing Zulu OpenJDK (placeholder)...")
   else ret tt);;
  let java_path := java_executable w in
  c <- gets (fun s => config (app s));;
  c' <- lift (cfg_set c "settings" "java_path" java_path);;
  modify (with_app (set_config c'));;
  write_config;;
  ret java_path.

Definition launch_cmd (w : World) (java_path : string) (name : value)
    (version asset_index : string) (id token : value) : list value :=
  [JStr java_path;
   JStr ("-Djava.library.path=" ++ VERSIONS_DIR w);
   JStr "-cp"; JStr (MINECRAFT_DIR w);
   JStr "net.minecraft.client.main.Main";
   JStr "--username"; name;
   JStr "--version"; JStr version;
   JStr "--gameDir"; JStr (MINECRAFT_DIR w);
   JStr "--assetsDir"; JStr (path_join w (MINECRAFT_DIR w) "assets");
   JStr "--assetIndex"; JStr asset_index;
   JStr "--uuid"; id;
   JStr "--accessToken"; token].

Definition prepare_and_launch : Py unit :=
  c <- gets (fun s => config (app s));;
  mode <- lift (cfg_get c "settings" "mode");;
  logged <- gets (fun s => logged_in (app s));;
  if String.eqb mode "TLauncher Mode" && negb logged then
    showerror "Error" (Text "Please log in with TLauncher first.")
  else
    version <- gets (fun s => version_combo (ui s));;
    if String.eqb version "" then
      showerror "Error" (Text "Please select a version.")
    else
      java_path <- install_java_if_needed;;
      w <- gets world;;
      name <- gets (fun s => if logged_in (app s) then username (app s) else JStr "Player");;
      asset_index <- lift (index (split_on "."%char version) 1);;
      logged <- gets (fun s => logged_in (app s));;
      id <- (if logged then gets (fun s => uuid (app s))
             else u <- uuid4;; ret (JStr (uuid_str u)));;
      token <- gets (fun s => if logged_in (app s) then access_token (app s) else JStr "0");;
      try_except
        (Popen (launch_cmd w java_path name version asset_index id token) (MINECRAFT_DIR w);;
         showinfo "Success" (Text "Minecraft is launching..."))
        (fun e => showerror "Error" (TextExn "Failed to launch: " e)).

(** ** Reading the event log *)

Definition is_network (e : event) : bool :=
  match e with EvUrlOpen _ _ _ => true | _ => false end.
Definition is_provisioning (e : event) : bool :=
  match e with EvMakeDirs _ => true | _ => false end.
Definition is_spawn (e : event) : bool :=
  match e with EvPopen _ _ => true | _ => false end.

(** The state [s] with [evs] appended to its log. *)
Definition logged (evs : list event) (s : State) : State :=
  with_world (fun w => set_log (log w ++ evs) w) s.

(** A first-run machine: the home directory and the game directory are
    there, but no settings file and nothing of [~/.catclient]. *)
Definition blank_world (bytes : nat -> Byte.byte) : World :=
  {| home := "/home/cat"; system := "Linux"; config_on_disk := None;
     paths := {[ "/"; "/home"; "/home/cat"; "/home/cat/.minecraft" ]};
     entropy := bytes; entropy_pos := 0; spawn_error := None; log := [] |}.

Definition blank_ui : Widgets :=
  {| version_combo := ""; mode_combo := ""; auth_entry := ""; password_entry := "";
     auth_fields_packed := false |}.

Definition blank_state (bytes : nat -> Byte.byte) : State :=
  {| app := fresh_app; ui := blank_ui; world := blank_world bytes |}.

Definition counting_bytes (i : nat) : Byte.byte :=
  match Byte.of_N (N.of_nat i mod 256) with
  | Some b => b
  | None => Byte.x00
  end.

(** The events a run from [s] to [s'] appended. *)
Definition new_events (s s' : State) : list event :=
  drop (length (log (world s))) (log (world s')).

(** No directory was created and no process was spawned. *)
Definition quiet (evs : list event) : bool :=
  forallb (fun e => negb (is_provisioning e || is_spawn e)) evs.

(** The process creations among [evs]. *)
Definition spawns (evs : list event) : list (list value * string) :=
  omap (fun e => match e with EvPopen argv cwd => Some (argv, cwd) | _ => None end) evs.

Fixpoint contains (c : ascii) (s : string) : bool :=
  match s with
  | EmptyString => false
  | String a rest => Ascii.eqb a c || contains c rest
  end.

(** The user picks [mode] in the mode combobox; Tk then runs the bound
    handler [update_mode]. *)
Definition select_mode (mode : string) (s : State) : State :=
  snd (update_mode (with_ui (set_mode_combo mode) s)).

(** *** Concrete states *)

(** The launcher right after a first start during which the manifest could
    not be fetched. *)
Definition started_state : State :=
  snd (__init__ (Raised (OtherError "URLError")) (blank_state counting_bytes)).

Definition tlauncher_state : State := select_mode "TLauncher Mode" started_state.

Definition sample_manifest : value :=
  JObj [("versions",
         JArr [JObj [("id", JStr "1.20.1"); ("url", JStr "http://x")];
               JObj [("id", JStr "1.19.4"); ("url", JStr "http://y")]])].

(** The launcher after one successful refresh of the catalog. *)
Definition catalog_state : State :=
  snd (fetch_versions (Returned sample_manifest) started_state).

Definition sample_auth_reply : value :=
  JObj [("accessToken", JStr "t0k3n");
        ("selectedProfile", JObj [("id", JStr "0123456789abcdef0123456789abcdef");
                                  ("name", JStr "Cat")])].

Definition signed_in_state : State :=
  snd (login (Returned sample_auth_reply) tlauncher_state).

(** *** The claims that the code does not meet, as predicates *)

(** Launch refuses a version id that is empty or that the catalog does not
    resolve, without provisioning or spawning. *)
Definition unknown_version_rejected (s : State) : Prop :=
  version_combo (ui s) = ""
  \/ dict_get (JStr (version_combo (ui s))) (versions (app s)) = None ->
  quiet (new_events s (snd (prepare_and_launch s))) = true.

(** A failed refresh leaves the catalog as it was. *)
Definition failed_refresh_keeps_catalog (s : State) (e : exn) : Prop :=
  versions (app (snd (fetch_versions (Raised e) s))) = versions (app s).

(** The in-memory identity is absent. *)
Definition identity_cleared (a : App) : Prop :=
  logged_in a = false /\ access_token a = JNull /\ uuid a = JNull /\ username a = JNull.

(** The decoded authentication response carries an access token and a
    profile with an id and a name. *)
Definition complete_auth_response (data : value) : bool :=
  match data with
  | JObj fields =>
      match assoc "accessToken" fields, assoc "selectedProfile" fields with
      | Some _, Some (JObj profile) =>
          match assoc "id" profile, assoc "name" profile with
          | Some _, Some _ => true
          | _, _ => false
          end
      | _, _ => false
      end
  | _ => false
  end.

(** A started launcher on a machine whose runtime directory and runtime
    executable are in place. *)
Definition provisioned_state : State :=
  with_world (fun w => set_paths {[JAVA_DIR w; java_executable w]} w) started_state.

(** With the runtime in place, [install_java_if_needed] touches neither the
    network nor the launcher's fields nor the settings file. *)
Definition ensure_is_pure (s : State) : Prop :=
  JAVA_DIR (world s) ∈ paths (world s) ->
  let s' := snd (install_java_if_needed s) in
  existsb is_network (new_events s s') = false
  /\ app s' = app s
  /\ config_on_disk (world s') = config_on_disk (world s).



(** The reply is an HTTP error whose body is not valid UTF-8. *)
Definition undecodable (reply : outcome value) : bool :=
  match reply with
  | Raised (HTTPError _ _ None) => true
  | _ => false
  end.

(** A source of random bytes that gives the same byte for ever, and the
    launcher after a first start on a machine with that source. *)
Definition constant_bytes (i : nat) : Byte.byte := Byte.x2a.

Definition constant_state : State :=
  snd (__init__ (Raised (OtherError "URLError")) (blank_state constant_bytes)).

(** The value of a lower-case hexadecimal digit. *)
Definition hexvalue (c : ascii) : Z :=
  let n := Z.of_N (N_of_ascii c) in
  if n <? 58 then n - 48 else n - 87.

(** The settings a first start writes, around the generated token. *)
Definition first_run_config (token : string) : ConfigParser :=
  cfg_set_section empty_parser "settings" (default_settings token).

(** What [load_config] can work with: no settings file yet in a game
    directory that exists, or a settings file that has a [settings]
    section. *)
Definition loadable (s : State) : Prop :=
  match config_on_disk (world s) with
  | None => MINECRAFT_DIR (world s) ∈ paths (world s)
  | Some doc => is_Some (sections doc !! "settings")
  end.

(** A machine whose settings file exists and is empty. *)
Definition empty_file_state : State :=
  with_world (set_config_on_disk (Some empty_parser)) (blank_state counting_bytes).

(** A machine whose settings file was edited by hand down to the mode. *)
Definition edited_file_state : State :=
  with_world
    (set_config_on_disk
       (Some (cfg_set_section empty_parser "settings" {[ "mode" := "Offline Mode" ]})))
    (blank_state counting_bytes).

(** Loading a settings file without client token generates one and writes
    it back. *)
Definition token_regenerated (s : State) : Prop :=
  let s' := snd (load_config s) in
  exists token,
    fst (load_config s) = Returned tt
    /\ cfg_get (config (app s')) "settings" "client_token" = Returned token
    /\ config_on_disk (world s') = Some (config (app s')).

(** What a returning run of [install_java_if_needed] logs and the state it
    leaves, [c'] being the settings with the new [java_path]. *)
Definition install_events (c' : ConfigParser) (s : State) : list event :=
  (if bool_decide (JAVA_DIR (world s) ∈ paths (world s)) then []
   else [EvMakeDirs (JAVA_DIR (world s));
         EvShowInfo "Java" (Text "Installing Zulu OpenJDK (placeholder)...")])
  ++ [EvWriteFile (config_file (world s)) c'].

Definition installed (c' : ConfigParser) (s : State) : State :=
  if bool_decide (JAVA_DIR (world s) ∈ paths (world s)) then
    with_world (set_config_on_disk (Some c')) (with_app (set_config c') s)
  else
    with_world (fun w => set_config_on_disk (Some c')
                           (set_paths (made w (JAVA_DIR w) ∪ paths w) w))
      (with_app (set_config c') s).

(** The dialog that follows the attempt to create the game process. *)
Definition spawn_report (s : State) : event :=
  match spawn_error (world s) with
  | None => EvShowInfo "Success" (Text "Minecraft is launching...")
  | Some e => EvShowError "Error" (TextExn "Failed to launch: " e)
  end.

(** The argument vector of a launch that is not signed in. *)
Definition offline_cmd (s : State) (asset_index id : string) : list value :=
  launch_cmd (world s) (java_executable (world s)) (JStr "Player")
    (version_combo (ui s)) asset_index (JStr id) (JStr "0").

(** The argument that follows [flag] in an argument vector. *)
Fixpoint arg_after (flag : string) (argv : list value) : option value :=
  match argv with
  | JStr f :: rest =>
      if String.eqb f flag then head rest else arg_after flag rest
  | _ :: rest => arg_after flag rest
  | [] => None
  end.

(** The [--uuid] a launch from [s] passes to the one process it creates. *)
Definition passed_uuid (s : State) : option value :=
  match spawns (new_events s (snd (prepare_and_launch s))) with
  | [(argv, _)] => arg_after "--uuid" argv
  | _ => None
  end.

(** Two launches in a row from [s] pass different ids. *)
Definition offline_ids_distinct (s : State) : Prop :=
  passed_uuid s <> passed_uuid (snd (prepare_and_launch s)).

(** ** The remaining handlers and the window as a transition system *)

Definition install_modpack (modpack_name : string) : Py unit :=
  showinfo "Modpack Installer" (Text ("Installing " ++ modpack_name ++ "...")).

(** What the user can do once the window is up.  Tk runs the bound handler;
    an exception in a handler is reported by Tk and the window lives on with
    the state the handler had reached.  Both comboboxes are read-only over
    their value lists; letting [PickMode] and [PickVersion] choose any text
    only adds behaviours.  Switching pages changes nothing the methods read
    and is left out. *)
Inductive action : Type :=
| PickMode (mode : string)
| PickVersion (version : string)
| TypeCredentials (user password : string)
| PressLogin (reply : outcome value)
| PressPlay
| PressInstallModpack (modpack_name : string).

Definition handle (a : action) : Py unit :=
  match a with
  | PickMode mode => modify (with_ui (set_mode_combo mode));; update_mode
  | PickVersion version => modify (with_ui (set_version_combo version))
  | TypeCredentials user password =>
      modify (with_ui (fun w => set_auth_entry user (set_password_entry password w)))
  | PressLogin reply => login reply
  | PressPlay => prepare_and_launch
  | PressInstallModpack modpack_name => install_modpack modpack_name
  end.

Definition step (s : State) (a : action) : State := snd (handle a s).

Definition run (actions : list action) (s : State) : State := fold_left step actions s.

(** A manifest entry that the dict comprehension of [fetch_versions]
    accepts: it has an ["id"] that can be a dict key and a ["url"]. *)
Definition entry_ok (v : value) : bool :=
  match getitem v "id", getitem v "url" with
  | Returned k, Returned _ => hashable k
  | _, _ => false
  end.

(** [v] is an entry with the string id [fst p] and the url [snd p]. *)
Definition entry_of (v : value) (p : string * value) : Prop :=
  getitem v "id" = Returned (JStr (fst p)) /\ getitem v "url" = Returned (snd p).

(** The settings and the catalog a running window keeps: a client token and
    a mode can be read, the file holds the settings in memory, and the
    catalog is [d]. *)
Definition settled (token : string) (d : dict) (s : State) : Prop :=
  cfg_get (config (app s)) "settings" "client_token" = Returned token
  /\ (exists mode, cfg_get (config (app s)) "settings" "mode" = Returned mode)
  /\ config_on_disk (world s) = Some (config (app s))
  /\ versions (app s) = d.

Definition is_dialog (e : event) : bool :=
  match e with EvShowInfo _ _ | EvShowError _ _ => true | _ => false end.

(** No reply among [actions] carries a complete authentication response. *)
Definition no_complete_reply (actions : list action) : Prop :=
  Forall (fun a => match a with
                   | PressLogin (Returned data) => complete_auth_response data = false
                   | _ => True
                   end) actions.

(** The number of message boxes among [evs]. *)
Definition dialogs (evs : list event) : nat := length (List.filter is_dialog evs).

(** Two worlds that differ at most in their logs. *)
Definition same_but_log (w w' : World) : Prop := set_log [] w = set_log [] w'.

(** The request [login] sends from [s] with the client token [token]. *)
Definition auth_request (s : State) (token : string) : event :=
  EvUrlOpen TLAUNCHER_AUTH_URL auth_headers
    (Some (auth_payload (auth_entry (ui s)) (password_entry (ui s)) token)).

(** The identity in [a] is the one the decoded response [data] carries. *)
Definition identity_from (data : value) (a : App) : Prop :=
  getitem data "accessToken" = Returned (access_token a)
  /\ exists profile,
       getitem data "selectedProfile" = Returned profile
       /\ getitem profile "id" = Returned (uuid a)
       /\ getitem profile "name" = Returned (username a).

(** The state [init_ui] leaves when the settings give [mode] and [c'] is
    the settings with that mode written back. *)
Definition opened (mode : string) (c' : ConfigParser) (s : State) : State :=
  {| app := set_config c' (app s);
     ui := {| version_combo := "1.20.1"; mode_combo := mode; auth_entry := "";
              password_entry := "";
              auth_fields_packed := String.eqb mode "TLauncher Mode" |};
     world := set_log (log (world s) ++ [EvWriteFile (config_file (world s)) c'])
                (set_config_on_disk (Some c') (world s)) |}.

(** The state [update_mode] leaves when [c'] is the settings with the
    selected mode written. *)
Definition mode_updated (c' : ConfigParser) (s : State) : State :=
  {| app := set_config c' (app s);
     ui := set_auth_fields_packed
             (if String.eqb (mode_combo (ui s)) "Offline Mode" then false
              else if String.eqb (mode_combo (ui s)) "TLauncher Mode" then true
              else auth_fields_packed (ui s)) (ui s);
     world := set_log (log (world s) ++ [EvWriteFile (config_file (world s)) c'])
                (set_config_on_disk (Some c') (world s)) |}.

(** What the [try] block of [fetch_versions] makes of a reply. *)
Definition indexed (reply : outcome value) : outcome dict :=
  match reply with
  | Returned data => manifest_versions data
  | Raised e => Raised e
  end.

(** The catalog a refresh with [reply] leaves and the dialog it shows. *)
Definition refreshed (reply : outcome value) : dict :=
  match indexed reply with Returned d => d | Raised _ => [] end.
Definition refresh_report (reply : outcome value) : list event :=
  match indexed reply with
  | Returned _ => []
  | Raised e => [EvShowError "Error" (TextExn "Failed to fetch versions: " e)]
  end.

(** A machine whose settings file has a [settings] section without mode. *)
Definition modeless_file_state : State :=
  with_world
    (set_config_on_disk
       (Some (cfg_set_section empty_parser "settings" {[ "java_path" := "" ]})))
    (blank_state counting_bytes).

(** The argument vector of a launch that is signed in. *)
Definition signed_in_cmd (s : State) (asset_index : string) : list value :=
  launch_cmd (world s) (java_executable (world s)) (username (app s))
    (version_combo (ui s)) asset_index (uuid (app s)) (access_token (app s)).

(** The dialog after [Popen] was called with [argv]: an argument that is
    not a string makes [Popen] raise [TypeError] before any process is
    made. *)
Definition launch_report (s : State) (argv : list value) : event :=
  if forallb is_str argv then spawn_report s
  else EvShowError "Error" (TextExn "Failed to launch: " TypeError).

(** From [w] to [w'] the outside world has only grown: the machine and its
    stream of random bytes are the same, no random byte was handed back, no
    path went away, every path that came into being is the runtime
    directory or a directory above it (its name starts the name of the
    runtime directory), and the log was only added to. *)
Definition grows (w w' : World) : Prop :=
  home w' = home w /\ system w' = system w /\ entropy w' = entropy w
  /\ spawn_error w' = spawn_error w
  /\ (entropy_pos w <= entropy_pos w')%nat
  /\ paths w ⊆ paths w'
  /\ (forall q, q ∈ paths w' -> q ∈ paths w \/ exists rest, JAVA_DIR w = q ++ rest)
  /\ exists evs, log w' = (log w ++ evs)%list.

(** The in-memory identity of [a'] is that of [a]. *)
Definition same_identity (a a' : App) : Prop :=
  logged_in a' = logged_in a /\ access_token a' = access_token a
  /\ uuid a' = uuid a /\ username a' = username a.

(** How a handler can end in a running window: normally, or, for PLAY with
    a version id without dot, in [IndexError], or, for a login answered by
    an HTTP error with an undecodable body, in [UnicodeDecodeError]. *)
Definition ends_well (a : action) (s : State) : Prop :=
  fst (handle a s) = Returned tt
  \/ (a = PressPlay /\ fst (handle a s) = Raised IndexError
      /\ contains "." (version_combo (ui s)) = false)
  \/ (exists code reason, a = PressLogin (Raised (HTTPError code reason None))
      /\ fst (handle a s) = Raised UnicodeDecodeError).

(** * Properties *)

(** ** Proof support *)

Ltac py_unfold :=
  unfold bind, ret, raise, lift, gets, modify, try_except, emit, showinfo,
    showerror, print in *.

Lemma logged_nil (s : State) : logged [] s = s.
Proof.
  destruct s as [a u w]; destruct w; unfold logged, with_world, set_log; simpl.
  by rewrite app_nil_r.
Qed.

Lemma logged_app (evs evs' : list event) (s : State) :
  logged evs' (logged evs s) = logged (evs ++ evs') s.
Proof.
  unfold logged, with_world, set_log; simpl. by rewrite <- app_assoc.
Qed.

Lemma logged_cons (e e' : event) (evs : list event) (s : State) :
  logged (e :: e' :: evs) s = logged (e' :: evs) (logged [e] s).
Proof. by rewrite logged_app. Qed.

Lemma path_present (p : string) (X : gset string) :
  bool_decide (p ∈ X) = true -> p ∈ X.
Proof. apply bool_decide_eq_true_1. Qed.

Lemma path_missing (p : string) (X : gset string) :
  bool_decide (p ∈ X) = false -> p ∉ X.
Proof. apply bool_decide_eq_false_1. Qed.

Lemma emit_logged (e : event) (s : State) : emit e s = (Returned tt, logged [e] s).
Proof. reflexivity. Qed.

Lemma new_events_logged (evs : list event) (s s' : State) :
  log (world s') = log (world s) -> new_events s (logged evs s') = evs.
Proof.
  intros Hlog. unfold new_events, logged. simpl. rewrite Hlog. apply drop_app_length.
Qed.

(** ** Launch gates *)

(** C2. In "TLauncher Mode" with [logged_in] false, [prepare_and_launch]
    returns after showing the log-in-first error, whatever version is
    selected: the final state is the initial one with that single dialog
    appended to the log, so nothing was provisioned and nothing spawned. *)
Theorem launch_requires_login (s : State) :
  cfg_get (config (app s)) "settings" "mode" = Returned "TLauncher Mode" ->
  logged_in (app s) = false ->
  prepare_and_launch s =
    (Returned tt,
     logged [EvShowError "Error" (Text "Please log in with TLauncher first.")] s)
  /\ forallb (fun e => negb (is_provisioning e || is_spawn e || is_network e))
       (drop (length (log (world s))) (log (world (snd (prepare_and_launch s))))) = true.
Proof.
  intros Hmode Hlog.
  assert (Hrun : prepare_and_launch s =
    (Returned tt,
     logged [EvShowError "Error" (Text "Please log in with TLauncher first.")] s)).
  { unfold prepare_and_launch. py_unfold. rewrite Hmode, Hlog. reflexivity. }
  split; [exact Hrun |].
  rewrite Hrun. simpl. rewrite drop_app_length. reflexivity.
Qed.

Lemma launch_requires_login_witness :
  prepare_and_launch tlauncher_state =
    (Returned tt,
     logged [EvShowError "Error" (Text "Please log in with TLauncher first.")]
       tlauncher_state)
  /\ forallb (fun e => negb (is_provisioning e || is_spawn e || is_network e))
       (drop (length (log (world tlauncher_state)))
          (log (world (snd (prepare_and_launch tlauncher_state))))) = true.
Proof. apply (launch_requires_login tlauncher_state); vm_compute; reflexivity. Defined.

(** C4, as stated, fails: after a start with an unreachable manifest the
    catalog is empty, the version combobox holds its default "1.20.1", and
    launch provisions the runtime directory and spawns the process. *)
Lemma unknown_version_not_rejected : ~ unknown_version_rejected started_state.
Proof.
  intros H. unfold unknown_version_rejected in H.
  assert (Hq : quiet (new_events started_state (snd (prepare_and_launch started_state))) = false)
    by (vm_compute; reflexivity).
  rewrite H in Hq; [discriminate |].
  right. vm_compute. reflexivity.
Qed.

(** C4, amended.  With an empty version selection [prepare_and_launch] only
    shows one error dialog (the select-a-version error once the log-in gate
    is passed, the log-in-first error otherwise): nothing else of the state
    changes, so nothing is provisioned or spawned. *)
Theorem launch_requires_version (s : State) (mode : string) :
  cfg_get (config (app s)) "settings" "mode" = Returned mode ->
  version_combo (ui s) = "" ->
  prepare_and_launch s =
    (Returned tt,
     logged [EvShowError "Error"
               (Text (if String.eqb mode "TLauncher Mode" && negb (logged_in (app s))
                      then "Please log in with TLauncher first."
                      else "Please select a version."))] s)
  /\ quiet (new_events s (snd (prepare_and_launch s))) = true.
Proof.
  intros Hmode Hver.
  assert (Hrun : prepare_and_launch s =
    (Returned tt,
     logged [EvShowError "Error"
               (Text (if String.eqb mode "TLauncher Mode" && negb (logged_in (app s))
                      then "Please log in with TLauncher first."
                      else "Please select a version."))] s)).
  { unfold prepare_and_launch. py_unfold. rewrite Hmode.
    destruct (String.eqb mode "TLauncher Mode" && negb (logged_in (app s))); [reflexivity |].
    rewrite Hver. reflexivity. }
  split; [exact Hrun |].
  rewrite Hrun. unfold new_events. simpl. rewrite drop_app_length. reflexivity.
Qed.

Lemma launch_requires_version_witness :
  let s := with_ui (set_version_combo "") started_state in
  prepare_and_launch s =
    (Returned tt, logged [EvShowError "Error" (Text "Please select a version.")] s)
  /\ quiet (new_events s (snd (prepare_and_launch s))) = true.
Proof.
  apply (launch_requires_version (with_ui (set_version_combo "") started_state) "offline");
    vm_compute; reflexivity.
Defined.

(** ** The version catalog *)

(** C1, as stated, fails: a refresh that cannot reach the manifest wipes a
    populated catalog. *)
Lemma failed_refresh_loses_catalog :
  ~ failed_refresh_keeps_catalog catalog_state (OtherError "URLError").
Proof. unfold failed_refresh_keeps_catalog. vm_compute. discriminate. Qed.

(** C1, amended.  Whenever the [try] block of [fetch_versions] raises,
    because the request or the decoding failed or because the decoded
    manifest is malformed, the handler shows the error and assigns the empty
    dict: the previous catalog is discarded. *)
Theorem failed_refresh_empties_catalog (s : State) (reply : outcome value) (e : exn) :
  reply = Raised e
  \/ (exists data, reply = Returned data /\ manifest_versions data = Raised e) ->
  fetch_versions reply s =
    (Returned tt,
     with_app (set_versions [])
       (logged [EvUrlOpen VERSION_MANIFEST_URL [] None;
                EvShowError "Error" (TextExn "Failed to fetch versions: " e)] s)).
Proof.
  intros [-> | (data & -> & Hbad)]; rewrite logged_cons;
    unfold fetch_versions; py_unfold; simpl.
  - reflexivity.
  - rewrite Hbad. reflexivity.
Qed.

Lemma failed_refresh_empties_catalog_witness :
  versions (app (snd (fetch_versions (Raised (OtherError "URLError")) catalog_state))) = []
  /\ versions (app catalog_state) <> [].
Proof.
  split.
  - rewrite (failed_refresh_empties_catalog catalog_state _ (OtherError "URLError"));
      [reflexivity | left; reflexivity].
  - vm_compute. discriminate.
Defined.

(** ** The authentication session *)

Lemma login_complete (s : State) (data : value) (tok : string) :
  cfg_get (config (app s)) "settings" "client_token" = Returned tok ->
  complete_auth_response data = true ->
  let s' := snd (login (Returned data) s) in
  logged_in (app s') = true
  /\ last (log (world s')) =
       Some (EvShowInfo "Success" (TextValue "Logged in as " (username (app s'))))
  /\ getitem data "accessToken" = Returned (access_token (app s'))
  /\ (exists profile, getitem data "selectedProfile" = Returned profile
        /\ getitem profile "id" = Returned (uuid (app s'))
        /\ getitem profile "name" = Returned (username (app s'))).
Proof.
  intros Htok Hdata. unfold login. py_unfold. rewrite Htok.
  destruct data as [| | | | |fields]; try discriminate. simpl in *.
  destruct (assoc "accessToken" fields) as [t|]; [|discriminate].
  destruct (assoc "selectedProfile" fields) as [[| | | | |profile]|]; try discriminate.
  simpl. destruct (assoc "id" profile) as [i|] eqn:Hi; [|discriminate].
  destruct (assoc "name" profile) as [n|] eqn:Hn; [|discriminate].
  simpl. repeat split.
  - apply last_snoc.
  - exists (JObj profile). simpl. rewrite Hi, Hn. auto.
Qed.

Lemma login_incomplete (s : State) (reply : outcome value) (tok : string) :
  cfg_get (config (app s)) "settings" "client_token" = Returned tok ->
  (forall data, reply = Returned data -> complete_auth_response data = false) ->
  undecodable reply = false ->
  let s' := snd (login reply s) in
  fst (login reply s) = Returned tt
  /\ logged_in (app s') = false
  /\ exists m, last (log (world s')) = Some (EvShowError "Error" m).
Proof.
  intros Htok Hreply Hdec. unfold login. py_unfold. rewrite Htok.
  destruct reply as [data|e]; simpl.
  - specialize (Hreply data eq_refl).
    destruct data as [| | | | |fields]; simpl;
      try (repeat split; eexists; apply last_snoc).
    simpl in Hreply.
    destruct (assoc "accessToken" fields) as [t|]; simpl;
      [|repeat split; eexists; apply last_snoc].
    destruct (assoc "selectedProfile" fields) as [[| | | | |profile]|]; simpl;
      try (repeat split; eexists; apply last_snoc).
    destruct (assoc "id" profile) as [i|]; simpl;
      [|repeat split; eexists; apply last_snoc].
    destruct (assoc "name" profile) as [n|]; simpl; [discriminate|].
    repeat split; eexists; apply last_snoc.
  - destruct e as [k| | |code reason [text|]| |path|what]; simpl;
      try discriminate Hdec; repeat split; eexists; apply last_snoc.
Qed.

Lemma login_undecodable (s : State) (code : Z) (reason tok : string) :
  cfg_get (config (app s)) "settings" "client_token" = Returned tok ->
  login (Raised (HTTPError code reason None)) s =
    (Raised UnicodeDecodeError,
     logged [EvUrlOpen TLAUNCHER_AUTH_URL auth_headers
               (Some (auth_payload (auth_entry (ui s)) (password_entry (ui s)) tok))] s).
Proof. intros Htok. unfold login. py_unfold. rewrite Htok. reflexivity. Qed.

(** C3.  The claim fails for one kind of response.  When the authentication
    endpoint answers with an HTTP error whose body is not valid UTF-8,
    [e.read().decode()] on line 222 raises inside the [HTTPError] handler,
    before the dialog and before [self.logged_in = False] on line 225:
    [login] ends in [UnicodeDecodeError] having sent the request, and the
    state is the one before with that request logged, so a signed-in flag
    that was true is still true. *)
Theorem login_undecodable_error_escapes (s : State) (code : Z) (reason tok : string) :
  cfg_get (config (app s)) "settings" "client_token" = Returned tok ->
  login (Raised (HTTPError code reason None)) s =
    (Raised UnicodeDecodeError,
     logged [EvUrlOpen TLAUNCHER_AUTH_URL auth_headers
               (Some (auth_payload (auth_entry (ui s)) (password_entry (ui s)) tok))] s)
  /\ logged_in (app (snd (login (Raised (HTTPError code reason None)) s)))
     = logged_in (app s)
  /\ dialogs (new_events s (snd (login (Raised (HTTPError code reason None)) s))) = 0%nat.
Proof.
  intros Htok. rewrite (login_undecodable s code reason tok Htok). simpl.
  repeat split. by rewrite new_events_logged.
Qed.

Lemma login_undecodable_error_escapes_witness :
  let reply := Raised (HTTPError 403 "Forbidden" None) in
  logged_in (app signed_in_state) = true
  /\ fst (login reply signed_in_state) = Raised UnicodeDecodeError
  /\ logged_in (app (snd (login reply signed_in_state))) = true
  /\ dialogs (new_events signed_in_state (snd (login reply signed_in_state))) = 0%nat.
Proof.
  intros reply.
  destruct (login_undecodable_error_escapes signed_in_state 403 "Forbidden"
              "00010203-0405-4607-8809-0a0b0c0d0e0f") as (Hrun & Hflag & Hquiet).
  - vm_compute. reflexivity.
  - split; [vm_compute; reflexivity|].
    split; [subst reply; rewrite Hrun; reflexivity|].
    split; [subst reply; rewrite Hflag; vm_compute; reflexivity | exact Hquiet].
Defined.

Lemma update_mode_identity (s : State) :
  let a' := app (snd (update_mode s)) in
  logged_in a' = logged_in (app s) /\ access_token a' = access_token (app s)
  /\ uuid a' = uuid (app s) /\ username a' = username (app s).
Proof.
  unfold update_mode. py_unfold.
  destruct (cfg_set (config (app s)) "settings" "mode" (mode_combo (ui s))) as [c'|e];
    simpl; [|auto].
  destruct (String.eqb (mode_combo (ui s)) "Offline Mode"); simpl; [auto|].
  destruct (String.eqb (mode_combo (ui s)) "TLauncher Mode"); simpl; auto.
Qed.

(** C8, as stated, fails: after a successful login, selecting "Offline Mode"
    leaves the signed-in flag, the token and the profile in memory. *)
Lemma mode_switch_keeps_identity :
  ~ identity_cleared (app (select_mode "Offline Mode" signed_in_state))
  /\ logged_in (app (select_mode "Offline Mode" signed_in_state)) = true
  /\ access_token (app (select_mode "Offline Mode" signed_in_state)) = JStr "t0k3n".
Proof.
  split; [|split; vm_compute; reflexivity].
  intros (Hout & _). vm_compute in Hout. discriminate.
Qed.

(** C8, amended.  A mode switch, to whatever mode, leaves [logged_in],
    the access token, the profile id and the profile name as they were.  A
    failed authentication exchange that [login] reports (every failure but
    an HTTP error with an undecodable body) sets [logged_in] to false and
    resets nothing else: after such a transport or HTTP error the token, id
    and name keep their previous values. *)
Theorem identity_after_switch_or_failure
    (s : State) (mode : string) (reply : outcome value) (tok : string) :
  cfg_get (config (app s)) "settings" "client_token" = Returned tok ->
  (forall data, reply = Returned data -> complete_auth_response data = false) ->
  (let a' := app (select_mode mode s) in
   logged_in a' = logged_in (app s) /\ access_token a' = access_token (app s)
   /\ uuid a' = uuid (app s) /\ username a' = username (app s))
  /\ (undecodable reply = false ->
      logged_in (app (snd (login reply s))) = false
      /\ (forall e, reply = Raised e ->
            let a' := app (snd (login reply s)) in
            access_token a' = access_token (app s)
            /\ uuid a' = uuid (app s) /\ username a' = username (app s))).
Proof.
  intros Htok Hbad. split; [|intros Hdec; split].
  - unfold select_mode. apply (update_mode_identity (with_ui (set_mode_combo mode) s)).
  - apply (login_incomplete s reply tok Htok Hbad Hdec).
  - intros e ->. unfold login. py_unfold. rewrite Htok.
    destruct e as [k| | |code reason [text|]| |path|what]; simpl; auto.
Qed.

Lemma identity_after_switch_or_failure_witness :
  let reply := Raised (HTTPError 403 "Forbidden" (Some "Invalid credentials")) in
  logged_in (app (select_mode "Offline Mode" signed_in_state)) = true
  /\ logged_in (app (snd (login reply signed_in_state))) = false
  /\ access_token (app (snd (login reply signed_in_state))) = JStr "t0k3n".
Proof.
  intros reply.
  destruct (identity_after_switch_or_failure signed_in_state "Offline Mode" reply
              "00010203-0405-4607-8809-0a0b0c0d0e0f") as ((Hin & _) & Hfail).
  - vm_compute. reflexivity.
  - intros data Hdata. discriminate Hdata.
  - destruct (Hfail eq_refl) as (Hout & Hkeep).
    split; [rewrite Hin; vm_compute; reflexivity|].
    split; [exact Hout|].
    destruct (Hkeep _ eq_refl) as (Htoken & _). rewrite Htoken. vm_compute. reflexivity.
Defined.

(** ** The runtime provisioner *)

Lemma cfg_set_again (c c' : ConfigParser) (sec opt v : string) :
  cfg_set c sec opt v = Returned c' -> cfg_set c' sec opt v = Returned c'.
Proof.
  unfold cfg_set. destruct (sections c !! sec) as [m|] eqn:Hsec; [|discriminate].
  intros [= <-]. simpl. rewrite lookup_insert_eq.
  by rewrite !insert_insert_eq.
Qed.

Lemma string_app_assoc (a b c : string) : (a ++ b) ++ c = a ++ (b ++ c).
Proof. induction a as [|x a IH]; [reflexivity | exact (f_equal (String x) IH)]. Qed.

Lemma string_app_nil_r (a : string) : a ++ "" = a.
Proof. induction a as [|x a IH]; [reflexivity | exact (f_equal (String x) IH)]. Qed.

(** Every directory above a path starts the path's name. *)
Lemma ancestors_from_prefix (w : World) (rest seen q : string) :
  q ∈ ancestors_from w seen rest -> exists r, seen ++ rest = q ++ r.
Proof.
  revert seen. induction rest as [|c rest IH]; intros seen; simpl.
  - intros H. by apply elem_of_nil in H.
  - intros H. apply elem_of_app in H as [H|H].
    + destruct (is_sep w c); [|by apply elem_of_nil in H].
      apply list_elem_of_singleton in H as ->.
      destruct (String.eqb seen "") eqn:Hseen.
      * apply String.eqb_eq in Hseen as ->. by exists rest.
      * by exists (String c rest).
    + destruct (IH _ H) as [r Hr]. exists r. rewrite <- Hr.
      by rewrite string_app_assoc.
Qed.


Lemma missing_dirs_subset (present : gset string) (l : list string) (q : string) :
  q ∈ missing_dirs present l -> q ∈ l.
Proof.
  induction l as [|x l IH]; simpl; [done|].
  case_bool_decide as Hx; [intros Hq; by apply elem_of_nil in Hq|].
  intros Hq. apply elem_of_cons in Hq as [->|Hq]; [left | right; auto].
Qed.

Lemma made_leaf (w : World) (p : string) : p ∈ made w p.
Proof. unfold made. set_solver. Qed.

Lemma made_prefix (w : World) (p q : string) :
  q ∈ made w p -> exists rest, p = q ++ rest.
Proof.
  unfold made. intros H. apply elem_of_union in H as [H|H].
  - apply elem_of_singleton in H as ->. exists "". by rewrite string_app_nil_r.
  - apply elem_of_list_to_set in H. apply missing_dirs_subset in H.
    apply list_elem_of_In, in_rev, list_elem_of_In in H.
    by apply ancestors_from_prefix in H.
Qed.



Lemma install_present (s : State) (c' : ConfigParser) :
  JAVA_DIR (world s) ∈ paths (world s) ->
  cfg_set (config (app s)) "settings" "java_path" (java_executable (world s)) = Returned c' ->
  install_java_if_needed s =
    (Returned (java_executable (world s)),
     logged [EvWriteFile (config_file (world s)) c']
       (with_world (set_config_on_disk (Some c')) (with_app (set_config c') s))).
Proof.
  intros Hdir Hset. unfold install_java_if_needed, path_exists, write_config. py_unfold.
  case_bool_decide; [|contradiction]. simpl. rewrite Hset. reflexivity.
Qed.

Lemma install_absent (s : State) (c' : ConfigParser) :
  JAVA_DIR (world s) ∉ paths (world s) ->
  cfg_set (config (app s)) "settings" "java_path" (java_executable (world s)) = Returned c' ->
  install_java_if_needed s =
    (Returned (java_executable (world s)),
     logged [EvMakeDirs (JAVA_DIR (world s));
             EvShowInfo "Java" (Text "Installing Zulu OpenJDK (placeholder)...");
             EvWriteFile (config_file (world s)) c']
       (with_world (fun w => set_config_on_disk (Some c')
                               (set_paths (made w (JAVA_DIR w) ∪ paths w) w))
          (with_app (set_config c') s))).
Proof.
  intros Hdir Hset.
  unfold install_java_if_needed, path_exists, makedirs, write_config. py_unfold.
  case_bool_decide; [contradiction|]. simpl. rewrite Hset. simpl.
  unfold logged, with_world, with_app. simpl. rewrite <- !app_assoc. reflexivity.
Qed.


(** No run of [install_java_if_needed] opens a URL. *)
Lemma install_never_networks (s : State) :
  existsb is_network (new_events s (snd (install_java_if_needed s))) = false.
Proof.
  destruct (cfg_set (config (app s)) "settings" "java_path" (java_executable (world s)))
    as [c'|e] eqn:Hset;
    destruct (decide (JAVA_DIR (world s) ∈ paths (world s))) as [Hdir|Hdir].
  - rewrite (install_present s c' Hdir Hset). simpl. by rewrite new_events_logged.
  - rewrite (install_absent s c' Hdir Hset). simpl. by rewrite new_events_logged.
  - unfold install_java_if_needed, path_exists. py_unfold.
    case_bool_decide; [|contradiction]. simpl. rewrite Hset. simpl.
    unfold new_events. by rewrite drop_all.
  - unfold install_java_if_needed, path_exists, makedirs. py_unfold.
    case_bool_decide; [contradiction|]. simpl. rewrite Hset. simpl.
    unfold new_events. simpl. rewrite <- app_assoc. by rewrite drop_app_length.
Qed.

(** C6, as stated, fails: with the runtime in place, the call still rewrites
    [java_path] in the settings, in memory and on disk. *)
Lemma ensure_not_pure : ~ ensure_is_pure provisioned_state.
Proof.
  intros H. destruct H as (_ & _ & Hdisk).
  - apply path_present. vm_compute. reflexivity.
  - apply (f_equal (fun d => match d with
                             | Some c => cfg_get c "settings" "java_path"
                             | None => Raised IndexError
                             end)) in Hdisk.
    vm_compute in Hdisk. discriminate.
Qed.

(** C6, amended.  When the install directory exists,
    [install_java_if_needed] opens no URL and creates nothing; it returns the
    executable path under that directory, stores it as [java_path] in the
    settings and rewrites the settings file, and changes nothing else.  A
    second call in a row returns the same path and only rewrites the same
    settings once more. *)
Theorem ensure_when_present (s : State) (c' : ConfigParser) :
  JAVA_DIR (world s) ∈ paths (world s) ->
  cfg_set (config (app s)) "settings" "java_path" (java_executable (world s)) = Returned c' ->
  let wrote := EvWriteFile (config_file (world s)) c' in
  let s1 := with_world (set_config_on_disk (Some c')) (with_app (set_config c') s) in
  install_java_if_needed s = (Returned (java_executable (world s)), logged [wrote] s1)
  /\ install_java_if_needed (logged [wrote] s1) =
       (Returned (java_executable (world s)), logged [wrote; wrote] s1)
  /\ existsb is_network (new_events s (snd (install_java_if_needed s))) = false
  /\ existsb is_network
       (new_events (logged [wrote] s1) (snd (install_java_if_needed (logged [wrote] s1))))
     = false.
Proof.
  intros Hdir Hset wrote s1. split; [|split; [|split]].
  - apply (install_present s c' Hdir Hset).
  - rewrite (install_present (logged [wrote] s1) c').
    + rewrite logged_cons. reflexivity.
    + exact Hdir.
    + simpl. apply (cfg_set_again _ _ _ _ _ Hset).
  - apply install_never_networks.
  - apply install_never_networks.
Qed.

Lemma ensure_when_present_witness :
  fst (install_java_if_needed provisioned_state) =
    Returned "/home/cat/.catclient/java/bin/java"
  /\ existsb is_network
       (new_events provisioned_state (snd (install_java_if_needed provisioned_state))) = false.
Proof.
  destruct (ensure_when_present provisioned_state
              (config (app (snd (install_java_if_needed provisioned_state)))))
    as (Hrun & _ & Hnet & _).
  - apply path_present. vm_compute. reflexivity.
  - vm_compute. reflexivity.
  - split; [rewrite Hrun; vm_compute; reflexivity | exact Hnet].
Defined.





(** ** UUIDs *)

Lemma string_length_of_list (l : list ascii) :
  String.length (string_of_list_ascii l) = length l.
Proof. induction l as [|c l IH]; simpl; [reflexivity | by rewrite IH]. Qed.

Lemma hex_width_length (k : nat) (n : Z) : length (hex_width k n) = k.
Proof.
  revert n. induction k as [|k IH]; intros n; simpl; [reflexivity|].
  rewrite length_app, IH. simpl. lia.
Qed.

Lemma uuid_str_length (i : Z) : String.length (uuid_str i) = 36%nat.
Proof.
  unfold uuid_str, hyphenate. rewrite string_length_of_list.
  rewrite !length_app, !length_take, !length_drop, !hex_width_length. reflexivity.
Qed.

Lemma hexvalue_hexdigit (d : Z) : 0 <= d < 16 -> hexvalue (hexdigit d) = d.
Proof.
  intros Hd.
  assert (Hcases : d = 0 \/ d = 1 \/ d = 2 \/ d = 3 \/ d = 4 \/ d = 5 \/ d = 6 \/ d = 7
                   \/ d = 8 \/ d = 9 \/ d = 10 \/ d = 11 \/ d = 12 \/ d = 13 \/ d = 14
                   \/ d = 15) by lia.
  repeat (destruct Hcases as [-> | Hcases]; [reflexivity|]). subst d. reflexivity.
Qed.

Lemma hex_width_inj (k : nat) (a b : Z) :
  0 <= a < 16 ^ Z.of_nat k -> 0 <= b < 16 ^ Z.of_nat k ->
  hex_width k a = hex_width k b -> a = b.
Proof.
  revert a b. induction k as [|k IH]; intros a b Ha Hb Heq.
  - simpl in Ha, Hb. lia.
  - simpl in Heq. apply app_inj_tail in Heq as [Hhigh Hlow].
    rewrite Nat2Z.inj_succ, Z.pow_succ_r in Ha, Hb by lia.
    assert (Hq : a / 16 = b / 16).
    { apply IH; [| |exact Hhigh].
      - split; [apply Z.div_pos; lia | apply Z.div_lt_upper_bound; lia].
      - split; [apply Z.div_pos; lia | apply Z.div_lt_upper_bound; lia]. }
    assert (Hr : a mod 16 = b mod 16).
    { rewrite <- (hexvalue_hexdigit (a mod 16)), <- (hexvalue_hexdigit (b mod 16)).
      - by rewrite Hlow.
      - apply Z.mod_pos_bound. lia.
      - apply Z.mod_pos_bound. lia. }
    rewrite (Z.div_mod a 16), (Z.div_mod b 16), Hq, Hr by lia. reflexivity.
Qed.

Lemma hyphenate_inj (h h' : list ascii) :
  length h = 32%nat -> length h' = 32%nat -> hyphenate h = hyphenate h' -> h = h'.
Proof.
  intros Hl Hl' Heq. unfold hyphenate in Heq.
  apply app_inj_1 in Heq as [H1 Heq];
    [|rewrite !length_take, Hl, Hl'; reflexivity].
  injection Heq as Heq.
  apply app_inj_1 in Heq as [H2 Heq];
    [|rewrite !length_take, !length_drop, Hl, Hl'; reflexivity].
  injection Heq as Heq.
  apply app_inj_1 in Heq as [H3 Heq];
    [|rewrite !length_take, !length_drop, Hl, Hl'; reflexivity].
  injection Heq as Heq.
  apply app_inj_1 in Heq as [H4 Heq];
    [|rewrite !length_take, !length_drop, Hl, Hl'; reflexivity].
  injection Heq as H5.
  rewrite <- (take_drop 8 h), <- (take_drop 8 h'), H1. f_equal.
  rewrite <- (take_drop 4 (drop 8 h)), <- (take_drop 4 (drop 8 h')), H2. f_equal.
  rewrite !drop_drop. simpl.
  rewrite <- (take_drop 4 (drop 12 h)), <- (take_drop 4 (drop 12 h')), H3. f_equal.
  rewrite !drop_drop. simpl.
  rewrite <- (take_drop 4 (drop 16 h)), <- (take_drop 4 (drop 16 h')), H4. f_equal.
  rewrite !drop_drop. simpl. exact H5.
Qed.

Lemma uuid_str_inj (a b : Z) :
  0 <= a < 2 ^ 128 -> 0 <= b < 2 ^ 128 -> uuid_str a = uuid_str b -> a = b.
Proof.
  intros Ha Hb Heq. unfold uuid_str in Heq.
  apply (f_equal list_ascii_of_string) in Heq.
  rewrite !list_ascii_of_string_of_list_ascii in Heq.
  apply hyphenate_inj in Heq; [|apply hex_width_length..].
  apply (hex_width_inj 32); [| |exact Heq].
  - change (16 ^ Z.of_nat 32) with (2 ^ 128). exact Ha.
  - change (16 ^ Z.of_nat 32) with (2 ^ 128). exact Hb.
Qed.

Lemma from_bytes_range (bs : list Byte.byte) :
  0 <= from_bytes bs < 256 ^ Z.of_nat (length bs).
Proof.
  unfold from_bytes.
  assert (Hgen : forall acc k, 0 <= acc < 256 ^ k -> 0 <= k ->
            0 <= fold_left (fun acc b => acc * 256 + Z.of_N (Byte.to_N b)) bs acc
              < 256 ^ (k + Z.of_nat (length bs))).
  { induction bs as [|b bs IH]; intros acc k Hacc Hk.
    - simpl. rewrite Z.add_0_r. exact Hacc.
    - simpl fold_left. simpl length. rewrite Nat2Z.inj_succ.
      replace (k + Z.succ (Z.of_nat (length bs))) with ((k + 1) + Z.of_nat (length bs)) by lia.
      apply IH; [|lia].
      rewrite Z.pow_add_r by lia. change (256 ^ 1) with 256.
      pose proof (Byte.to_N_bounded b) as Hb. lia. }
  apply (Hgen 0 0); [simpl; lia | lia].
Qed.

Lemma below_pow2 (x n : Z) :
  0 <= x -> 0 <= n -> (forall i, n <= i -> Z.testbit x i = false) -> x < 2 ^ n.
Proof.
  intros Hx Hn Hbits. destruct (Z.eq_dec x 0) as [-> | Hnz].
  - apply Z.pow_pos_nonneg; lia.
  - apply Z.log2_lt_pow2; [lia|].
    destruct (Z_lt_le_dec (Z.log2 x) n) as [Hlt | Hge]; [exact Hlt|].
    specialize (Hbits (Z.log2 x) Hge). rewrite Z.bit_log2 in Hbits by lia. discriminate.
Qed.

Lemma uuid4_int_range (r : Z) : 0 <= r < 2 ^ 128 -> 0 <= uuid4_int r < 2 ^ 128.
Proof.
  intros [Hr0 Hr1]. unfold uuid4_int.
  assert (Hnn : 0 <= Z.lor (Z.land (Z.lor (Z.land r (Z.lnot (Z.shiftl 49152 48)))
                       (Z.shiftl 32768 48)) (Z.lnot (Z.shiftl 61440 64))) (Z.shiftl 4 76)).
  { apply Z.lor_nonneg. split; [|vm_compute; discriminate].
    apply Z.land_nonneg. left. apply Z.lor_nonneg. split; [|vm_compute; discriminate].
    apply Z.land_nonneg. left. exact Hr0. }
  split; [exact Hnn|].
  apply below_pow2; [exact Hnn | lia |].
  intros i Hi.
  rewrite Z.lor_spec, Z.land_spec, Z.lor_spec, Z.land_spec.
  assert (Hrbit : Z.testbit r i = false).
  { destruct (Z.eq_dec r 0) as [-> | Hnz]; [apply Z.bits_0|].
    apply Z.bits_above_log2; [exact Hr0|].
    assert (Z.log2 r < 128) by (apply Z.log2_lt_pow2; lia). lia. }
  rewrite Hrbit. simpl.
  rewrite (Z.bits_above_log2 (Z.shiftl 32768 48)), (Z.bits_above_log2 (Z.shiftl 4 76));
    [reflexivity | vm_compute; discriminate | | vm_compute; discriminate |].
  - change (Z.log2 (Z.shiftl 4 76)) with 78. lia.
  - change (Z.log2 (Z.shiftl 32768 48)) with 63. lia.
Qed.

Lemma uuid_after_range (skip : nat) (s : State) : 0 <= uuid_after skip s < 2 ^ 128.
Proof.
  unfold uuid_after. apply uuid4_int_range.
  pose proof (from_bytes_range
                (map (entropy (world s)) (seq (entropy_pos (world s) + skip) 16))) as Hb.
  rewrite length_map, length_seq in Hb.
  change (256 ^ Z.of_nat 16) with (2 ^ 128) in Hb. exact Hb.
Qed.

Lemma uuid4_next (s : State) :
  uuid4 s = (Returned (next_uuid s),
             with_world (fun w => set_entropy_pos (entropy_pos w + 16)%nat w) s).
Proof.
  unfold uuid4, urandom, next_uuid, uuid_after. py_unfold.
  rewrite Nat.add_0_r. reflexivity.
Qed.

(** ** The settings store *)

Lemma uuid_after_with_app (skip : nat) (f : App -> App) (s : State) :
  uuid_after skip (with_app f s) = uuid_after skip s.
Proof. unfold uuid_after, with_app. cbn [world]. reflexivity. Qed.

Lemma next_uuid_with_app (f : App -> App) (s : State) :
  next_uuid (with_app f s) = next_uuid s.
Proof. apply uuid_after_with_app. Qed.

Arguments uuid4 : simpl never.
Arguments uuid_str : simpl never.
Arguments uuid_after : simpl never.
Arguments next_uuid : simpl never.
Opaque uuid4_int from_bytes uuid_str.

Lemma cfg_read_empty (doc : ConfigParser) : cfg_read empty_parser doc = doc.
Proof.
  destruct doc as [d secs]. unfold cfg_read, empty_parser. simpl. f_equal.
  - apply (right_id_L ∅ (∪)).
  - apply (right_id_L ∅ (union_with _)).
Qed.

Lemma cfg_get_has_option (c : ConfigParser) (sec opt v : string) :
  cfg_get c sec opt = Returned v -> cfg_contains c sec opt = Returned true.
Proof.
  unfold cfg_get, cfg_contains, has_option.
  destruct (sections c !! sec) as [m|]; [|discriminate].
  destruct (m !! opt) as [x|] eqn:Hm; [reflexivity|].
  destruct (defaults c !! opt) as [x|] eqn:Hd; [|discriminate].
  intros _. reflexivity.
Qed.

Lemma has_option_cfg_get (c : ConfigParser) (sec opt : string) :
  has_option c sec opt = true -> exists v, cfg_get c sec opt = Returned v.
Proof.
  unfold cfg_get, has_option.
  destruct (sections c !! sec) as [m|]; [|discriminate].
  destruct (m !! opt) as [x|] eqn:Hm; [eauto|].
  destruct (defaults c !! opt) as [x|] eqn:Hd; [eauto|].
  intros H. apply orb_true_iff in H as [H | H];
    apply bool_decide_eq_true_1 in H; destruct H; discriminate.
Qed.

Lemma cfg_get_set_eq (c c' : ConfigParser) (sec opt v : string) :
  cfg_set c sec opt v = Returned c' -> cfg_get c' sec opt = Returned v.
Proof.
  unfold cfg_set, cfg_get. destruct (sections c !! sec) as [m|]; [|discriminate].
  intros [= <-]. simpl. by rewrite !lookup_insert_eq.
Qed.

Lemma first_run_token (token : string) :
  cfg_get (first_run_config token) "settings" "client_token" = Returned token.
Proof.
  unfold first_run_config, cfg_get, cfg_set_section, default_settings. simpl.
  rewrite lookup_insert_eq. by simplify_map_eq.
Qed.

(** No settings file, in a game directory that exists: defaults with a
    fresh token are written. *)
Lemma load_config_absent (s : State) :
  config_on_disk (world s) = None ->
  MINECRAFT_DIR (world s) ∈ paths (world s) ->
  let c := first_run_config (uuid_str (next_uuid s)) in
  load_config s =
    (Returned tt,
     logged [EvWriteFile (config_file (world s)) c]
       (with_world (fun w => set_config_on_disk (Some c)
                               (set_entropy_pos (entropy_pos w + 16)%nat w))
          (with_app (set_config c) s))).
Proof.
  intros Hdisk Hdir c. subst c. unfold load_config, create_config, write_config.
  py_unfold. cbn.
  rewrite Hdisk, uuid4_next. cbn. rewrite next_uuid_with_app.
  fold (first_run_config (uuid_str (next_uuid s))).
  change (MINECRAFT_DIR (set_entropy_pos (entropy_pos (world s) + 16) (world s)))
    with (MINECRAFT_DIR (world s)).
  rewrite (bool_decide_eq_true_2 _ Hdir). cbn.
  fold (first_run_config (uuid_str (next_uuid s))).
  rewrite (cfg_get_has_option _ "settings" "client_token" _ (first_run_token _)).
  reflexivity.
Qed.

(** No settings file and no game directory: the file cannot be created.
    The token was drawn and the defaults are in memory, and nothing was
    written. *)
Lemma load_config_no_directory (s : State) :
  config_on_disk (world s) = None ->
  MINECRAFT_DIR (world s) ∉ paths (world s) ->
  load_config s =
    (Raised (FileNotFoundError (config_file (world s))),
     with_world (fun w => set_entropy_pos (entropy_pos w + 16)%nat w)
       (with_app (set_config (first_run_config (uuid_str (next_uuid s)))) s)).
Proof.
  intros Hdisk Hdir. unfold load_config, create_config. py_unfold. cbn.
  rewrite Hdisk, uuid4_next. cbn. rewrite next_uuid_with_app.
  fold (first_run_config (uuid_str (next_uuid s))).
  change (MINECRAFT_DIR (set_entropy_pos (entropy_pos (world s) + 16) (world s)))
    with (MINECRAFT_DIR (world s)).
  rewrite (bool_decide_eq_false_2 _ Hdir). reflexivity.
Qed.

(** A settings file that has a client token is read and nothing else
    happens. *)
Lemma load_config_present (s : State) (doc : ConfigParser) :
  config_on_disk (world s) = Some doc ->
  cfg_contains doc "settings" "client_token" = Returned true ->
  load_config s = (Returned tt, with_app (set_config doc) s).
Proof.
  intros Hdisk Hhas. unfold load_config. py_unfold. cbn.
  rewrite Hdisk. cbn. rewrite cfg_read_empty, Hhas. cbn.
  unfold with_app. cbn. rewrite cfg_read_empty. reflexivity.
Qed.

(** A settings file with a [settings] section but no client token gets a
    fresh one, written back at once. *)
Lemma load_config_regenerates (s : State) (doc c : ConfigParser) :
  config_on_disk (world s) = Some doc ->
  cfg_contains doc "settings" "client_token" = Returned false ->
  cfg_set doc "settings" "client_token" (uuid_str (next_uuid s)) = Returned c ->
  load_config s =
    (Returned tt,
     logged [EvWriteFile (config_file (world s)) c]
       (with_world (fun w => set_config_on_disk (Some c)
                               (set_entropy_pos (entropy_pos w + 16)%nat w))
          (with_app (set_config c) s))).
Proof.
  intros Hdisk Hhas Hset. unfold load_config, write_config. py_unfold. cbn.
  rewrite Hdisk. cbn. rewrite cfg_read_empty, Hhas. cbn.
  rewrite uuid4_next. cbn. rewrite cfg_read_empty, !next_uuid_with_app, Hset.
  reflexivity.
Qed.

(** C5.  The claim fails where a settings file exists without a
    [settings] section, an empty file for one.  Such a file lacks a client
    token, yet under the comment "Ensure client_token exists" line 56 reads
    [self.config['settings']] and raises [KeyError]: no token is generated
    and the file stays as it was. *)
Theorem load_of_empty_file_raises :
  ~ token_regenerated empty_file_state
  /\ fst (load_config empty_file_state) = Raised (KeyError "settings")
  /\ config_on_disk (world (snd (load_config empty_file_state))) = Some empty_parser.
Proof.
  split; [|split; vm_compute; reflexivity].
  intros (token & Hret & _). vm_compute in Hret. discriminate.
Qed.

(** X24.  When there is no settings file in a game directory that
    exists, or a settings file that has a [settings] section, loading
    yields a client token and leaves the file holding exactly the loaded
    settings; loading again, from any launcher state over the same world,
    yields the same settings without writing or drawing randomness.  With
    no file the settings are created as mode [offline], empty [java_path]
    and a fresh 36-character token; with a file whose [settings] section
    lacks the token, a fresh 36-character token is added and written back
    at once. *)
Theorem load_config_stable_token (s : State) :
  loadable s ->
  exists (token : string) (s1 : State),
    load_config s = (Returned tt, s1)
    /\ cfg_get (config (app s1)) "settings" "client_token" = Returned token
    /\ config_on_disk (world s1) = Some (config (app s1))
    /\ (forall s2, world s2 = world s1 ->
          load_config s2 = (Returned tt, with_app (set_config (config (app s1))) s2))
    /\ (config_on_disk (world s) = None ->
          config (app s1) = first_run_config token
          /\ token = uuid_str (next_uuid s) /\ String.length token = 36%nat)
    /\ (forall doc, config_on_disk (world s) = Some doc ->
          has_option doc "settings" "client_token" = false ->
          cfg_set doc "settings" "client_token" token = Returned (config (app s1))
          /\ token = uuid_str (next_uuid s) /\ String.length token = 36%nat).
Proof.
  unfold loadable. intros Hload.
  destruct (config_on_disk (world s)) as [doc|] eqn:Hdisk.
  - destruct Hload as [m Hsec].
    assert (Hcontains : cfg_contains doc "settings" "client_token"
                        = Returned (has_option doc "settings" "client_token"))
      by (unfold cfg_contains; rewrite Hsec; reflexivity).
    destruct (has_option doc "settings" "client_token") eqn:Hhas.
    + destruct (has_option_cfg_get _ _ _ Hhas) as [token Htoken].
      exists token, (with_app (set_config doc) s).
      split; [apply (load_config_present s doc Hdisk Hcontains)|].
      split; [exact Htoken|]. split; [exact Hdisk|].
      split; [|split; [intros Hnone; discriminate Hnone|]].
      * intros s2 Hworld. apply load_config_present; [|exact Hcontains].
        rewrite Hworld. exact Hdisk.
      * intros doc' [= <-] Hnone. rewrite Hhas in Hnone. discriminate Hnone.
    + destruct (cfg_set doc "settings" "client_token" (uuid_str (next_uuid s)))
        as [c|e] eqn:Hset; [|unfold cfg_set in Hset; rewrite Hsec in Hset; discriminate].
      exists (uuid_str (next_uuid s)).
      eexists. split; [apply (load_config_regenerates s doc c Hdisk Hcontains Hset)|].
      simpl. split; [apply (cfg_get_set_eq _ _ _ _ _ Hset)|]. split; [reflexivity|].
      split; [|split; [intros Hnone; discriminate Hnone|]].
      * intros s2 Hworld. apply load_config_present; [rewrite Hworld; reflexivity|].
        apply (cfg_get_has_option _ _ _ _ (cfg_get_set_eq _ _ _ _ _ Hset)).
      * intros doc' [= <-] _. split; [exact Hset|]. split; [reflexivity|].
        apply uuid_str_length.
  - exists (uuid_str (next_uuid s)).
    eexists. split; [apply (load_config_absent s Hdisk Hload)|].
    simpl. split; [apply first_run_token|]. split; [reflexivity|].
    split; [|split; [|intros doc' Hsome; discriminate Hsome]].
    + intros s2 Hworld. apply load_config_present; [rewrite Hworld; reflexivity|].
      apply (cfg_get_has_option _ _ _ _ (first_run_token _)).
    + intros _. split; [reflexivity|]. split; [reflexivity|]. apply uuid_str_length.
Qed.

Lemma load_config_stable_token_witness :
  loadable edited_file_state
  /\ exists (token : string) (s1 : State),
       load_config edited_file_state = (Returned tt, s1)
       /\ cfg_get (config (app s1)) "settings" "client_token" = Returned token
       /\ config_on_disk (world s1) = Some (config (app s1))
       /\ forall s2, world s2 = world s1 ->
            load_config s2 = (Returned tt, with_app (set_config (config (app s1))) s2).
Proof.
  assert (Hload : loadable edited_file_state).
  { unfold loadable, edited_file_state, cfg_set_section. simpl.
    rewrite lookup_insert_eq. eauto. }
  split; [exact Hload|].
  destruct (load_config_stable_token edited_file_state Hload)
    as (token & s1 & Hrun & Htoken & Hdisk & Hagain & _).
  exists token, s1. auto.
Defined.

(** ** Building the launch command *)

Arguments install_java_if_needed : simpl never.

Lemma split_on_without (c : ascii) (v : string) :
  contains c v = false -> split_on c v = [v].
Proof.
  induction v as [|a v IH]; simpl; [reflexivity|].
  destruct (Ascii.eqb a c); simpl; [discriminate|].
  intros Hv. rewrite (IH Hv). reflexivity.
Qed.

Lemma split_on_with (c : ascii) (v : string) :
  contains c v = true -> exists first second rest, split_on c v = first :: second :: rest.
Proof.
  induction v as [|a v IH]; simpl; [discriminate|].
  destruct (Ascii.eqb a c); simpl.
  - intros _. destruct v as [|b v]; simpl; [eauto|].
    destruct (Ascii.eqb b c); [eauto|].
    destruct (split_on c v); eauto.
  - intros Hv. destruct (IH Hv) as (first & second & rest & ->). eauto.
Qed.

(** [v.split(c)[1]] exists exactly when [c] occurs in [v]. *)
Lemma split_index_1 (c : ascii) (v : string) :
  (contains c v = false -> index (split_on c v) 1 = Raised IndexError)
  /\ (contains c v = true -> exists piece, index (split_on c v) 1 = Returned piece).
Proof.
  split; intros Hv.
  - rewrite (split_on_without c v Hv). reflexivity.
  - destruct (split_on_with c v Hv) as (first & second & rest & ->). eauto.
Qed.

Lemma new_events_same (s : State) : new_events s s = [].
Proof. unfold new_events. apply drop_all. Qed.

Lemma cfg_get_set_section (c : ConfigParser) (sec opt opt' v v' : string) :
  cfg_get c sec opt = Returned v -> exists c', cfg_set c sec opt' v' = Returned c'.
Proof.
  unfold cfg_get, cfg_set. destruct (sections c !! sec); [eauto|discriminate].
Qed.

Lemma cfg_get_set_ne (c c' : ConfigParser) (sec opt opt' v : string) :
  opt <> opt' -> cfg_set c sec opt' v = Returned c' ->
  cfg_get c' sec opt = cfg_get c sec opt.
Proof.
  unfold cfg_set, cfg_get. intros Hne.
  destruct (sections c !! sec) as [m|] eqn:Hsec; [|discriminate].
  intros [= <-]. simpl. rewrite lookup_insert_eq, lookup_insert_ne by congruence.
  reflexivity.
Qed.

Lemma install_run (s : State) (c' : ConfigParser) :
  cfg_set (config (app s)) "settings" "java_path" (java_executable (world s)) = Returned c' ->
  install_java_if_needed s =
    (Returned (java_executable (world s)), logged (install_events c' s) (installed c' s)).
Proof.
  intros Hset. unfold install_events, installed. case_bool_decide as Hdir.
  - apply (install_present s c' Hdir Hset).
  - apply (install_absent s c' Hdir Hset).
Qed.

Lemma installed_frame (s : State) (c' : ConfigParser) :
  app (installed c' s) = set_config c' (app s)
  /\ ui (installed c' s) = ui s
  /\ log (world (installed c' s)) = log (world s)
  /\ home (world (installed c' s)) = home (world s)
  /\ system (world (installed c' s)) = system (world s)
  /\ entropy (world (installed c' s)) = entropy (world s)
  /\ entropy_pos (world (installed c' s)) = entropy_pos (world s)
  /\ spawn_error (world (installed c' s)) = spawn_error (world s).
Proof. unfold installed. case_bool_decide; simpl; auto 10. Qed.

Lemma spawns_install_events (c' : ConfigParser) (s : State) :
  spawns (install_events c' s) = [].
Proof. unfold install_events. case_bool_decide; reflexivity. Qed.

Lemma spawns_app (evs evs' : list event) :
  spawns (evs ++ evs') = (spawns evs ++ spawns evs')%list.
Proof. unfold spawns. apply omap_app. Qed.

(** A launch that reaches the command but finds no dot in the version id. *)
Lemma launch_dotless (s : State) (mode : string) (c' : ConfigParser) :
  cfg_get (config (app s)) "settings" "mode" = Returned mode ->
  String.eqb mode "TLauncher Mode" && negb (logged_in (app s)) = false ->
  version_combo (ui s) <> "" ->
  cfg_set (config (app s)) "settings" "java_path" (java_executable (world s)) = Returned c' ->
  index (split_on "."%char (version_combo (ui s))) 1 = Raised IndexError ->
  prepare_and_launch s = (Raised IndexError, logged (install_events c' s) (installed c' s)).
Proof.
  intros Hmode Hgate Hver Hset Hidx. unfold prepare_and_launch. py_unfold.
  rewrite Hmode. cbn. rewrite Hgate.
  destruct (String.eqb_spec (version_combo (ui s)) "") as [Hempty|_]; [contradiction|].
  rewrite (install_run s c' Hset).
  destruct (installed_frame s c') as (_ & Hui & _). cbn. rewrite ?Hui, Hidx. reflexivity.
Qed.

(** C10.  For a version id without a dot, [version.split('.')[1]] raises
    [IndexError]; no run of [prepare_and_launch] with such a selection
    creates a process, and every run that passes the log-in gate and the
    empty-selection check ends in that [IndexError]. *)
Theorem dotless_version_raises_index_error (s : State) :
  contains "." (version_combo (ui s)) = false ->
  index (split_on "." (version_combo (ui s))) 1 = Raised IndexError
  /\ spawns (new_events s (snd (prepare_and_launch s))) = []
  /\ (forall mode,
        cfg_get (config (app s)) "settings" "mode" = Returned mode ->
        String.eqb mode "TLauncher Mode" && negb (logged_in (app s)) = false ->
        version_combo (ui s) <> "" ->
        fst (prepare_and_launch s) = Raised IndexError).
Proof.
  intros Hdot.
  assert (Hidx : index (split_on "." (version_combo (ui s))) 1 = Raised IndexError)
    by (apply split_index_1; exact Hdot).
  split; [exact Hidx|]. split.
  - destruct (cfg_get (config (app s)) "settings" "mode") as [mode|e] eqn:Hmode.
    + destruct (String.eqb mode "TLauncher Mode" && negb (logged_in (app s))) eqn:Hgate.
      * unfold prepare_and_launch. py_unfold. rewrite Hmode. cbn. rewrite Hgate. cbn.
        unfold new_events. cbn. by rewrite drop_app_length.
      * destruct (String.eqb_spec (version_combo (ui s)) "") as [Hempty|Hver].
        -- unfold prepare_and_launch. py_unfold. rewrite Hmode. cbn. rewrite Hgate.
           rewrite Hempty. cbn. unfold new_events. cbn. by rewrite drop_app_length.
        -- destruct (cfg_get_set_section _ _ _ "java_path" _ (java_executable (world s)) Hmode)
             as [c' Hset].
           rewrite (launch_dotless s mode c' Hmode Hgate Hver Hset Hidx). cbn.
           rewrite new_events_logged by apply (installed_frame s c').
           apply spawns_install_events.
    + unfold prepare_and_launch. py_unfold. rewrite Hmode. cbn.
      by rewrite new_events_same.
  - intros mode Hmode Hgate Hver.
    destruct (cfg_get_set_section _ _ _ "java_path" _ (java_executable (world s)) Hmode)
      as [c' Hset].
    by rewrite (launch_dotless s mode c' Hmode Hgate Hver Hset Hidx).
Qed.

Lemma dotless_version_raises_index_error_witness :
  let s := with_ui (set_version_combo "23w13a") started_state in
  index (split_on "." "23w13a") 1 = Raised IndexError
  /\ spawns (new_events s (snd (prepare_and_launch s))) = []
  /\ fst (prepare_and_launch s) = Raised IndexError.
Proof.
  intros s.
  destruct (dotless_version_raises_index_error s) as (Hidx & Hquiet & Hraise).
  - vm_compute. reflexivity.
  - split; [exact Hidx|]. split; [exact Hquiet|].
    apply (Hraise "offline"); [vm_compute; reflexivity | reflexivity | discriminate].
Defined.

(** A launch that is not signed in and reaches the command. *)
Lemma launch_offline (s : State) (mode asset_index : string) (c' : ConfigParser) :
  cfg_get (config (app s)) "settings" "mode" = Returned mode ->
  mode <> "TLauncher Mode" ->
  logged_in (app s) = false ->
  version_combo (ui s) <> "" ->
  cfg_set (config (app s)) "settings" "java_path" (java_executable (world s)) = Returned c' ->
  index (split_on "."%char (version_combo (ui s))) 1 = Returned asset_index ->
  prepare_and_launch s =
    (Returned tt,
     logged (install_events c' s
               ++ [EvPopen (offline_cmd s asset_index (uuid_str (next_uuid s)))
                     (MINECRAFT_DIR (world s));
                   spawn_report s])
       (with_world (fun w => set_entropy_pos (entropy_pos w + 16)%nat w) (installed c' s))).
Proof.
  intros Hmode Hoff Hout Hver Hset Hidx. unfold prepare_and_launch. py_unfold.
  rewrite Hmode. cbn.
  destruct (String.eqb_spec mode "TLauncher Mode") as [Hon|_]; [contradiction|]. cbn.
  destruct (String.eqb_spec (version_combo (ui s)) "") as [Hempty|_]; [contradiction|].
  rewrite (install_run s c' Hset).
  destruct (installed_frame s c') as (Happ & Hui & Hlog & Hhome & Hsys & Hent & Hpos & Herr).
  assert (Hout' : logged_in (app (installed c' s)) = false) by (rewrite Happ; exact Hout).
  cbn. rewrite ?Hui, Hidx, Hout'. rewrite uuid4_next. cbn. rewrite ?Hout'. cbn.
  unfold Popen. py_unfold. cbn.
  assert (Hnext : next_uuid (logged (install_events c' s) (installed c' s)) = next_uuid s).
  { unfold next_uuid, uuid_after. cbn. rewrite Hent, Hpos. reflexivity. }
  rewrite Hnext. unfold spawn_report. rewrite ?Herr.
  unfold offline_cmd, launch_cmd, MINECRAFT_DIR, VERSIONS_DIR, path_join, sep. cbn.
  rewrite ?Hhome, ?Hsys, ?Hlog.
  destruct (spawn_error (world s)) as [e|]; cbn;
    unfold logged, installed, with_world, with_app; case_bool_decide; py_unfold;
    unfold with_world; cbn; rewrite <- ?app_assoc; reflexivity.
Qed.

Lemma launched_frame (s : State) (c' : ConfigParser) (evs : list event) :
  let s1 := logged evs
              (with_world (fun w => set_entropy_pos (entropy_pos w + 16)%nat w)
                 (installed c' s)) in
  app s1 = set_config c' (app s)
  /\ ui s1 = ui s
  /\ home (world s1) = home (world s)
  /\ system (world s1) = system (world s)
  /\ entropy (world s1) = entropy (world s)
  /\ entropy_pos (world s1) = (entropy_pos (world s) + 16)%nat
  /\ spawn_error (world s1) = spawn_error (world s).
Proof. unfold installed. case_bool_decide; simpl; auto 10. Qed.

Lemma spawns_launch (c' : ConfigParser) (s : State) (argv : list value) (cwd : string) :
  spawns (install_events c' s ++ [EvPopen argv cwd; spawn_report s]) = [(argv, cwd)].
Proof.
  rewrite spawns_app, spawns_install_events. unfold spawn_report.
  destruct (spawn_error (world s)); reflexivity.
Qed.

(** C9, as stated, fails on the distinctness of the ids: nothing but the
    random bytes tells two launches apart, and on a machine whose source of
    random bytes repeats itself two offline launches in a row pass the same
    [--uuid]. *)
Lemma offline_ids_can_repeat :
  ~ offline_ids_distinct constant_state
  /\ passed_uuid constant_state = Some (JStr "2a2a2a2a-2a2a-4a2a-aa2a-2a2a2a2a2a2a").
Proof.
  split; [|vm_compute; reflexivity].
  intros H. apply H. vm_compute. reflexivity.
Qed.

(** C9, amended.  A launch that is not signed in, outside "TLauncher Mode",
    with a version id that has an asset index, is not held back: it spawns
    exactly one process, whose argument vector is the one below, with
    [--username Player], [--accessToken 0] and as [--uuid] the 36-character
    text of a version-4 UUID made from the next 16 bytes of [os.urandom].
    The launch after it draws the following 16 bytes, and the two ids are
    different exactly when the two generated UUIDs are. *)
Theorem offline_launch_identity (s : State) (mode asset_index : string) :
  cfg_get (config (app s)) "settings" "mode" = Returned mode ->
  mode <> "TLauncher Mode" ->
  logged_in (app s) = false ->
  version_combo (ui s) <> "" ->
  index (split_on "." (version_combo (ui s))) 1 = Returned asset_index ->
  let s1 := snd (prepare_and_launch s) in
  let s2 := snd (prepare_and_launch s1) in
  let w := world s in
  let argv := fun id : string =>
    [JStr (java_executable w);
     JStr ("-Djava.library.path=" ++ VERSIONS_DIR w);
     JStr "-cp"; JStr (MINECRAFT_DIR w);
     JStr "net.minecraft.client.main.Main";
     JStr "--username"; JStr "Player";
     JStr "--version"; JStr (version_combo (ui s));
     JStr "--gameDir"; JStr (MINECRAFT_DIR w);
     JStr "--assetsDir"; JStr (path_join w (MINECRAFT_DIR w) "assets");
     JStr "--assetIndex"; JStr asset_index;
     JStr "--uuid"; JStr id;
     JStr "--accessToken"; JStr "0"] in
  let id1 := uuid_str (uuid_after 0 s) in
  let id2 := uuid_str (uuid_after 16 s) in
  fst (prepare_and_launch s) = Returned tt
  /\ fst (prepare_and_launch s1) = Returned tt
  /\ spawns (new_events s s1) = [(argv id1, MINECRAFT_DIR w)]
  /\ spawns (new_events s1 s2) = [(argv id2, MINECRAFT_DIR w)]
  /\ entropy_pos (world s1) = (entropy_pos w + 16)%nat
  /\ entropy_pos (world s2) = (entropy_pos w + 32)%nat
  /\ String.length id1 = 36%nat
  /\ String.length id2 = 36%nat
  /\ (id1 = id2 <-> uuid_after 0 s = uuid_after 16 s).
Proof.
  intros Hmode Hoff Hout Hver Hidx s1 s2 w argv id1 id2.
  destruct (cfg_get_set_section _ _ _ "java_path" _ (java_executable (world s)) Hmode)
    as [c' Hset].
  pose proof (launch_offline s mode asset_index c' Hmode Hoff Hout Hver Hset Hidx) as Hrun.
  fold (next_uuid s) in id1.
  set (evs := (install_events c' s
                 ++ [EvPopen (offline_cmd s asset_index (uuid_str (next_uuid s)))
                       (MINECRAFT_DIR (world s)); spawn_report s])%list) in Hrun.
  assert (Hs1 : s1 = logged evs
                       (with_world (fun w => set_entropy_pos (entropy_pos w + 16)%nat w)
                          (installed c' s)))
    by (subst s1; rewrite Hrun; reflexivity).
  destruct (launched_frame s c' evs) as (Happ & Hui & Hhome & Hsys & Hent & Hpos & Herr).
  rewrite <- Hs1 in Happ, Hui, Hhome, Hsys, Hent, Hpos, Herr.
  assert (Hexe : java_executable (world s1) = java_executable (world s))
    by (unfold java_executable, JAVA_DIR, path_join, sep; rewrite Hhome, Hsys; reflexivity).
  assert (Hdir : MINECRAFT_DIR (world s1) = MINECRAFT_DIR (world s))
    by (unfold MINECRAFT_DIR; rewrite Hhome; reflexivity).
  assert (Hcmd : forall id, offline_cmd s1 asset_index id = offline_cmd s asset_index id).
  { intros id. unfold offline_cmd, launch_cmd, VERSIONS_DIR, path_join, sep.
    rewrite Hexe, Hdir, Hui, Hsys. reflexivity. }
  assert (Hnext : next_uuid s1 = uuid_after 16 s).
  { unfold next_uuid, uuid_after. rewrite Hent, Hpos, Nat.add_0_r. reflexivity. }
  assert (Hmode1 : cfg_get (config (app s1)) "settings" "mode" = Returned mode).
  { rewrite Happ. simpl. rewrite (cfg_get_set_ne _ _ _ "mode" "java_path" _ ltac:(discriminate) Hset).
    exact Hmode. }
  assert (Hset1 : cfg_set (config (app s1)) "settings" "java_path"
                    (java_executable (world s1)) = Returned c').
  { rewrite Happ, Hexe. simpl. apply (cfg_set_again _ _ _ _ _ Hset). }
  assert (Hout1 : logged_in (app s1) = false) by (rewrite Happ; exact Hout).
  assert (Hver1 : version_combo (ui s1) <> "") by (rewrite Hui; exact Hver).
  assert (Hidx1 : index (split_on "." (version_combo (ui s1))) 1 = Returned asset_index)
    by (rewrite Hui; exact Hidx).
  pose proof (launch_offline s1 mode asset_index c' Hmode1 Hoff Hout1 Hver1 Hset1 Hidx1)
    as Hrun1.
  rewrite Hcmd, Hnext, Hdir in Hrun1.
  destruct (launched_frame s1 c'
              (install_events c' s1
                 ++ [EvPopen (offline_cmd s asset_index (uuid_str (uuid_after 16 s)))
                       (MINECRAFT_DIR (world s)); spawn_report s1])%list)
    as (_ & _ & _ & _ & _ & Hpos2 & _).
  split; [by rewrite Hrun|]. split; [by rewrite Hrun1|].
  split; [|split; [|split; [|split; [|split; [|split]]]]].
  - rewrite Hs1. rewrite new_events_logged.
    + subst evs. apply (spawns_launch c' s (offline_cmd s asset_index id1)).
    + simpl. apply (installed_frame s c').
  - subst s2. rewrite Hrun1. simpl. rewrite new_events_logged.
    + apply (spawns_launch c' s1 (offline_cmd s asset_index id2)).
    + simpl. apply (installed_frame s1 c').
  - exact Hpos.
  - subst s2. rewrite Hrun1. cbn [snd]. rewrite Hpos2, Hpos. subst w. lia.
  - apply uuid_str_length.
  - apply uuid_str_length.
  - split; [|intros Heq; subst id1 id2; unfold next_uuid; by rewrite Heq].
    intros Heq. apply uuid_str_inj; [apply uuid_after_range | apply uuid_after_range | exact Heq].
Qed.

Lemma offline_launch_identity_witness :
  let s1 := snd (prepare_and_launch started_state) in
  spawns (new_events started_state s1) =
    [([JStr "/home/cat/.catclient/java/bin/java";
       JStr "-Djava.library.path=/home/cat/.minecraft/versions";
       JStr "-cp"; JStr "/home/cat/.minecraft";
       JStr "net.minecraft.client.main.Main";
       JStr "--username"; JStr "Player";
       JStr "--version"; JStr "1.20.1";
       JStr "--gameDir"; JStr "/home/cat/.minecraft";
       JStr "--assetsDir"; JStr "/home/cat/.minecraft/assets";
       JStr "--assetIndex"; JStr "20";
       JStr "--uuid"; JStr "10111213-1415-4617-9819-1a1b1c1d1e1f";
       JStr "--accessToken"; JStr "0"],
      "/home/cat/.minecraft")]
  /\ entropy_pos (world s1) = 32%nat.
Proof.
  intros s1.
  destruct (offline_launch_identity started_state "offline" "20")
    as (_ & _ & Hfirst & _ & Hpos & _).
  - vm_compute. reflexivity.
  - discriminate.
  - vm_compute. reflexivity.
  - discriminate.
  - vm_compute. reflexivity.
  - split.
    + fold s1 in Hfirst. rewrite Hfirst. vm_compute. reflexivity.
    + fold s1 in Hpos. rewrite Hpos. vm_compute. reflexivity.
Defined.

(** * Further properties of the code *)

(** ** Indexing the manifest *)

Lemma key_eqb_str (k : string) (x : value) : key_eqb (JStr k) x = true <-> x = JStr k.
Proof.
  destruct x; simpl; try (split; [discriminate | intros H; discriminate H]).
  rewrite String.eqb_eq. split; [intros ->; reflexivity | intros [= ->]; reflexivity].
Qed.

Lemma key_eqb_str_str (k k' : string) : key_eqb (JStr k) (JStr k') = String.eqb k k'.
Proof. reflexivity. Qed.

Arguments key_eqb : simpl never.

Lemma dict_get_set_eq (k : string) (u : value) (d : dict) :
  dict_get (JStr k) (dict_set (JStr k) u d) = Some u.
Proof.
  induction d as [|[k' u'] d IH]; simpl.
  - by rewrite key_eqb_str_str, String.eqb_refl.
  - destruct (key_eqb (JStr k) k') eqn:Hk; simpl; rewrite Hk; [reflexivity | exact IH].
Qed.

Lemma dict_get_set_ne (k k' : string) (u : value) (d : dict) :
  k' <> k -> dict_get (JStr k') (dict_set (JStr k) u d) = dict_get (JStr k') d.
Proof.
  intros Hne. induction d as [|[k0 u0] d IH]; simpl.
  - rewrite key_eqb_str_str.
    destruct (String.eqb_spec k' k); [contradiction | reflexivity].
  - destruct (key_eqb (JStr k) k0) eqn:Hk; simpl.
    + apply key_eqb_str in Hk as ->. rewrite key_eqb_str_str.
      destruct (String.eqb_spec k' k); [contradiction | reflexivity].
    + destruct (key_eqb (JStr k') k0); [reflexivity | exact IH].
Qed.

Lemma dict_set_fresh (k : string) (u : value) (d : dict) :
  dict_get (JStr k) d = None -> dict_set (JStr k) u d = (d ++ [(JStr k, u)])%list.
Proof.
  induction d as [|[k0 u0] d IH]; simpl; [reflexivity|].
  destruct (key_eqb (JStr k) k0); [discriminate|].
  intros Hd. by rewrite (IH Hd).
Qed.

Lemma assoc_app {A : Type} (k : string) (l l' : list (string * A)) :
  assoc k (l ++ l') = match assoc k l with Some x => Some x | None => assoc k l' end.
Proof.
  induction l as [|[k0 x0] l IH]; simpl; [reflexivity|].
  destruct (String.eqb k k0); [reflexivity | exact IH].
Qed.

Lemma index_versions_lookup (items : list value) (l : list (string * value)) :
  Forall2 entry_of items l ->
  forall acc, exists d,
    index_versions items acc = Returned d
    /\ forall k, dict_get (JStr k) d =
                 match assoc k (rev l) with
                 | Some u => Some u
                 | None => dict_get (JStr k) acc
                 end.
Proof.
  induction 1 as [|v [k0 u0] items l [Hid Hurl] _ IH]; intros acc.
  - exists acc. split; reflexivity.
  - simpl in Hid, Hurl. simpl index_versions. rewrite Hid, Hurl. simpl.
    destruct (IH (dict_set (JStr k0) u0 acc)) as (d & Hd & Hget).
    exists d. split; [exact Hd|]. intros k. rewrite Hget. simpl rev.
    rewrite assoc_app. destruct (assoc k (rev l)); [reflexivity|]. simpl.
    destruct (String.eqb_spec k k0) as [->|Hne].
    + apply dict_get_set_eq.
    + by apply dict_get_set_ne.
Qed.

(** X1.  For a manifest whose ["versions"] is a list of entries with string
    ids, the refresh succeeds and the catalog resolves an id to the url of
    the last entry carrying it, and resolves no other id; what the catalog
    held before plays no part. *)
Theorem catalog_resolves_manifest_ids
    (s : State) (data : value) (items : list value) (l : list (string * value)) :
  getitem data "versions" = Returned (JArr items) ->
  Forall2 entry_of items l ->
  let s' := snd (fetch_versions (Returned data) s) in
  forall k, dict_get (JStr k) (versions (app s')) = assoc k (rev l).
Proof.
  intros Hdata Hitems s' k.
  destruct (index_versions_lookup items l Hitems []) as (d & Hd & Hget).
  subst s'. unfold fetch_versions, manifest_versions. py_unfold. simpl.
  rewrite Hdata. simpl. rewrite Hd. simpl. rewrite Hget.
  destruct (assoc k (rev l)); reflexivity.
Qed.

Lemma catalog_resolves_manifest_ids_witness :
  dict_get (JStr "1.19.4") (versions (app catalog_state)) = Some (JStr "http://y")
  /\ dict_get (JStr "1.8.9") (versions (app catalog_state)) = None.
Proof.
  pose proof (catalog_resolves_manifest_ids started_state sample_manifest
                [JObj [("id", JStr "1.20.1"); ("url", JStr "http://x")];
                 JObj [("id", JStr "1.19.4"); ("url", JStr "http://y")]]
                [("1.20.1", JStr "http://x"); ("1.19.4", JStr "http://y")]
                eq_refl) as Hget.
  assert (Hentries : Forall2 entry_of
            [JObj [("id", JStr "1.20.1"); ("url", JStr "http://x")];
             JObj [("id", JStr "1.19.4"); ("url", JStr "http://y")]]
            [("1.20.1", JStr "http://x"); ("1.19.4", JStr "http://y")])
    by (repeat constructor).
  split.
  - apply (Hget Hentries "1.19.4").
  - apply (Hget Hentries "1.8.9").
Defined.

Lemma index_versions_order (items : list value) (l : list (string * value)) :
  Forall2 entry_of items l ->
  NoDup (map fst l) ->
  forall acc, (forall k, k ∈ map fst l -> dict_get (JStr k) acc = None) ->
  index_versions items acc
  = Returned (acc ++ map (fun p => (JStr (fst p), snd p)) l)%list.
Proof.
  induction 1 as [|v [k0 u0] items l [Hid Hurl] _ IH]; intros Hnodup acc Hfresh.
  - simpl. by rewrite app_nil_r.
  - simpl in Hid, Hurl. simpl index_versions. rewrite Hid, Hurl. simpl.
    simpl in Hnodup. apply NoDup_cons in Hnodup as [Hnotin Hnodup].
    rewrite (dict_set_fresh k0 u0 acc) by (apply Hfresh; simpl; left).
    rewrite (IH Hnodup).
    + by rewrite <- app_assoc.
    + intros k Hk.
      assert (Hne : k <> k0) by (intros ->; contradiction).
      rewrite <- (dict_set_fresh k0 u0 acc) by (apply Hfresh; simpl; left).
      rewrite (dict_get_set_ne k0 k u0 acc Hne). apply Hfresh. simpl. by right.
Qed.

(** X2.  For a manifest whose entries have pairwise distinct string ids, the
    catalog after the refresh lists exactly those entries, in the order of
    the manifest. *)
Theorem catalog_keeps_manifest_order
    (s : State) (data : value) (items : list value) (l : list (string * value)) :
  getitem data "versions" = Returned (JArr items) ->
  Forall2 entry_of items l ->
  NoDup (map fst l) ->
  versions (app (snd (fetch_versions (Returned data) s)))
  = map (fun p => (JStr (fst p), snd p)) l.
Proof.
  intros Hdata Hitems Hnodup.
  unfold fetch_versions, manifest_versions. py_unfold. simpl.
  rewrite Hdata. simpl.
  rewrite (index_versions_order items l Hitems Hnodup []); [reflexivity|].
  intros k _. reflexivity.
Qed.

Lemma catalog_keeps_manifest_order_witness :
  versions (app catalog_state)
  = [(JStr "1.20.1", JStr "http://x"); (JStr "1.19.4", JStr "http://y")].
Proof.
  apply (catalog_keeps_manifest_order started_state sample_manifest
           [JObj [("id", JStr "1.20.1"); ("url", JStr "http://x")];
            JObj [("id", JStr "1.19.4"); ("url", JStr "http://y")]]
           [("1.20.1", JStr "http://x"); ("1.19.4", JStr "http://y")]).
  - reflexivity.
  - repeat constructor.
  - simpl. apply (bool_decide_unpack (NoDup ["1.20.1"; "1.19.4"])). vm_compute. exact I.
Defined.

Lemma index_versions_ok (items : list value) (acc : dict) :
  (exists d, index_versions items acc = Returned d) <-> forallb entry_ok items = true.
Proof.
  revert acc. induction items as [|v items IH]; intros acc; simpl.
  - split; eauto.
  - unfold entry_ok at 1.
    destruct (getitem v "id") as [k|e]; [|split; [intros [d Hd]; discriminate Hd | discriminate]].
    destruct (getitem v "url") as [u|e]; [|split; [intros [d Hd]; discriminate Hd | discriminate]].
    destruct (hashable k); simpl; [apply IH|].
    split; [intros [d Hd]; discriminate Hd | discriminate].
Qed.

(** X3.  A refresh is all or nothing.  When every entry of the manifest list
    has an ["id"] that can be a key and a ["url"], the catalog becomes the
    index of the whole list and no dialog is shown; when a single entry
    lacks one of them, wherever it stands in the list, the catalog ends
    empty and the error dialog is shown. *)
Theorem refresh_is_all_or_nothing (s : State) (data : value) (items : list value) :
  getitem data "versions" = Returned (JArr items) ->
  let s' := snd (fetch_versions (Returned data) s) in
  (forallb entry_ok items = true ->
     manifest_versions data = Returned (versions (app s'))
     /\ new_events s s' = [EvUrlOpen VERSION_MANIFEST_URL [] None])
  /\ (forallb entry_ok items = false ->
        versions (app s') = []
        /\ exists e, new_events s s' =
                       [EvUrlOpen VERSION_MANIFEST_URL [] None;
                        EvShowError "Error" (TextExn "Failed to fetch versions: " e)]).
Proof.
  intros Hdata s'.
  assert (Hman : manifest_versions data = index_versions items [])
    by (unfold manifest_versions; rewrite Hdata; reflexivity).
  destruct (index_versions items []) as [d|e] eqn:Hidx.
  - assert (Hok : forallb entry_ok items = true) by (apply (index_versions_ok items []); eauto).
    split; [|intros Hbad; rewrite Hok in Hbad; discriminate Hbad].
    intros _. subst s'. unfold fetch_versions. py_unfold. simpl. rewrite Hman. simpl.
    split; [reflexivity|]. unfold new_events. simpl. by rewrite drop_app_length.
  - split.
    + intros Hok. apply (index_versions_ok items []) in Hok as [d Hd].
      rewrite Hd in Hidx. discriminate Hidx.
    + intros _. subst s'. unfold fetch_versions. py_unfold. simpl. rewrite Hman. simpl.
      split; [reflexivity|]. exists e. unfold new_events. simpl.
      rewrite <- app_assoc. by rewrite drop_app_length.
Qed.

Lemma refresh_is_all_or_nothing_witness :
  let data := JObj [("versions",
                     JArr [JObj [("id", JStr "1.20.1"); ("url", JStr "http://x")];
                           JObj [("id", JStr "1.19.4")]])] in
  versions (app (snd (fetch_versions (Returned data) catalog_state))) = [].
Proof.
  intros data.
  destruct (refresh_is_all_or_nothing catalog_state data
              [JObj [("id", JStr "1.20.1"); ("url", JStr "http://x")];
               JObj [("id", JStr "1.19.4")]] eq_refl) as (_ & Hbad).
  apply Hbad. reflexivity.
Defined.

Lemma fetch_versions_run (s : State) (reply : outcome value) :
  fetch_versions reply s =
    (Returned tt,
     with_app (set_versions (refreshed reply))
       (logged (EvUrlOpen VERSION_MANIFEST_URL [] None :: refresh_report reply) s)).
Proof.
  unfold refreshed, refresh_report, fetch_versions. py_unfold. simpl.
  destruct reply as [data|e]; simpl.
  - destruct (manifest_versions data) as [d|e]; simpl; [reflexivity|].
    rewrite logged_cons. reflexivity.
  - rewrite logged_cons. reflexivity.
Qed.

(** X4.  Whatever the reply, [fetch_versions] returns normally, opens the
    manifest URL exactly once and nothing else on the network, and changes
    nothing but the catalog and the log: settings, identity, widgets, files
    and randomness are as before. *)
Theorem refresh_touches_only_catalog (s : State) (reply : outcome value) :
  exists (d : dict) (evs : list event),
    fetch_versions reply s =
      (Returned tt,
       with_app (set_versions d)
         (logged (EvUrlOpen VERSION_MANIFEST_URL [] None :: evs) s))
    /\ existsb is_network evs = false.
Proof.
  exists (refreshed reply), (refresh_report reply).
  split; [apply fetch_versions_run|].
  unfold refresh_report. destruct (indexed reply); reflexivity.
Qed.

(** ** The authentication exchange, further *)

Ltac login_events :=
  unfold new_events; simpl; rewrite <- ?app_assoc, drop_app_length; simpl; reflexivity.

Lemma login_run (s : State) (reply : outcome value) (token : string) :
  cfg_get (config (app s)) "settings" "client_token" = Returned token ->
  let s' := snd (login reply s) in
  fst (login reply s)
  = (if undecodable reply then Raised UnicodeDecodeError else Returned tt)
  /\ (exists evs, new_events s s' = auth_request s token :: evs
        /\ existsb is_network evs = false
        /\ dialogs evs = if undecodable reply then 0%nat else 1%nat)
  /\ config (app s') = config (app s)
  /\ versions (app s') = versions (app s)
  /\ ui s' = ui s
  /\ same_but_log (world s) (world s').
Proof.
  intros Htoken. unfold login, auth_request, same_but_log. py_unfold. rewrite Htoken.
  destruct reply as [data|e]; simpl.
  - destruct data as [| | | | |fields]; simpl;
      try (repeat split; eexists; (split; [login_events | split; reflexivity])).
    destruct (assoc "accessToken" fields) as [t|]; simpl;
      [|repeat split; eexists; (split; [login_events | split; reflexivity])].
    destruct (assoc "selectedProfile" fields) as [[| | | | |profile]|]; simpl;
      try (repeat split; eexists; (split; [login_events | split; reflexivity])).
    destruct (assoc "id" profile) as [i|]; simpl;
      [|repeat split; eexists; (split; [login_events | split; reflexivity])].
    destruct (assoc "name" profile) as [n|]; simpl;
      repeat split; eexists; (split; [login_events | split; reflexivity]).
  - destruct e as [k| | |code reason [text|]| |path|what]; simpl;
      repeat split; eexists; (split; [login_events | split; reflexivity]).
Qed.

(** X5.  Once the settings hold a client token, [login] sends one request
    and no other: a POST to the authentication URL with the two headers
    below, whose JSON body carries the typed credentials, the client token
    exactly as stored and [requestUser] true.  It then returns normally
    having shown exactly one dialog; unless the reply is an HTTP error with
    an undecodable body, when it ends in [UnicodeDecodeError] having shown
    none.  Either way it leaves the settings, the catalog, the widgets and
    everything outside but the log untouched, so that every exchange
    presents the same token. *)
Theorem login_presents_stored_token (s : State) (reply : outcome value) (token : string) :
  cfg_get (config (app s)) "settings" "client_token" = Returned token ->
  let s' := snd (login reply s) in
  let request :=
    EvUrlOpen "https://auth.tlauncher.org/authenticate"
      [("Content-Type", "application/json");
       ("User-Agent", "TLauncher/2.0 (Java; Windows 10)")]
      (Some (JObj [("username", JStr (auth_entry (ui s)));
                   ("password", JStr (password_entry (ui s)));
                   ("clientToken", JStr token);
                   ("requestUser", JBool true)])) in
  fst (login reply s)
  = (if undecodable reply then Raised UnicodeDecodeError else Returned tt)
  /\ (exists evs, new_events s s' = request :: evs
        /\ existsb is_network evs = false
        /\ dialogs evs = if undecodable reply then 0%nat else 1%nat)
  /\ config (app s') = config (app s)
  /\ versions (app s') = versions (app s)
  /\ ui s' = ui s
  /\ same_but_log (world s) (world s').
Proof. intros Htoken. apply (login_run s reply token Htoken). Qed.

Lemma login_presents_stored_token_witness :
  exists evs,
    new_events tlauncher_state (snd (login (Returned sample_auth_reply) tlauncher_state))
    = EvUrlOpen "https://auth.tlauncher.org/authenticate"
        [("Content-Type", "application/json");
         ("User-Agent", "TLauncher/2.0 (Java; Windows 10)")]
        (Some (JObj [("username", JStr ""); ("password", JStr "");
                     ("clientToken", JStr "00010203-0405-4607-8809-0a0b0c0d0e0f");
                     ("requestUser", JBool true)])) :: evs
    /\ existsb is_network evs = false /\ dialogs evs = 1%nat.
Proof.
  destruct (login_presents_stored_token tlauncher_state (Returned sample_auth_reply)
              "00010203-0405-4607-8809-0a0b0c0d0e0f") as (_ & Hevs & _).
  - vm_compute. reflexivity.
  - exact Hevs.
Defined.

(** X6.  When the settings hold no client token, [login] raises [KeyError]
    for the missing section or option before anything is sent: no request,
    no dialog, no change of state. *)
Theorem login_without_token_raises (s : State) (reply : outcome value) :
  has_option (config (app s)) "settings" "client_token" = false ->
  exists key,
    login reply s = (Raised (KeyError key), s)
    /\ (key = "settings" \/ key = "client_token").
Proof.
  unfold has_option, login, cfg_get. py_unfold.
  destruct (sections (config (app s)) !! "settings") as [m|]; simpl.
  - destruct (m !! "client_token") as [t|]; [discriminate|].
    destruct (defaults (config (app s)) !! "client_token") as [t|].
    + rewrite orb_true_r. discriminate.
    + intros _. exists "client_token". split; [reflexivity | by right].
  - intros _. exists "settings". split; [reflexivity | by left].
Qed.

Lemma login_without_token_raises_witness :
  exists key,
    login (Returned sample_auth_reply) (blank_state counting_bytes)
    = (Raised (KeyError key), blank_state counting_bytes)
    /\ (key = "settings" \/ key = "client_token").
Proof. apply (login_without_token_raises (blank_state counting_bytes)). reflexivity. Defined.

(** X7.  A complete response signs the user in with exactly what it
    carries: afterwards the stored access token, profile id and profile name
    are the response's ["accessToken"], ["selectedProfile"]["id"] and
    ["selectedProfile"]["name"], whatever was stored before. *)
Theorem login_stores_reply_identity (s : State) (data : value) (token : string) :
  cfg_get (config (app s)) "settings" "client_token" = Returned token ->
  complete_auth_response data = true ->
  let s' := snd (login (Returned data) s) in
  logged_in (app s') = true /\ identity_from data (app s').
Proof.
  intros Htoken Hdata s'.
  destruct (login_complete s data token Htoken Hdata) as (Hin & _ & Htok & Hprofile).
  split; [exact Hin|]. split; [exact Htok | exact Hprofile].
Qed.

Lemma login_stores_reply_identity_witness :
  access_token (app signed_in_state) = JStr "t0k3n"
  /\ username (app signed_in_state) = JStr "Cat"
  /\ identity_from sample_auth_reply (app signed_in_state).
Proof.
  destruct (login_stores_reply_identity tlauncher_state sample_auth_reply
              "00010203-0405-4607-8809-0a0b0c0d0e0f") as (_ & Hid).
  - vm_compute. reflexivity.
  - reflexivity.
  - split; [vm_compute; reflexivity|]. split; [vm_compute; reflexivity | exact Hid].
Defined.

(** X23.  Every reply but an HTTP error with an undecodable body is
    reported, and [login] returns normally: [logged_in] ends true exactly
    when the reply decoded to an object with an ["accessToken"] and a
    ["selectedProfile"] holding ["id"] and ["name"], and then the success
    dialog is the last event; for any other such reply [logged_in] ends
    false and the last event is an error dialog. *)
Theorem login_reports_by_reply (s : State) (reply : outcome value) (tok : string) :
  cfg_get (config (app s)) "settings" "client_token" = Returned tok ->
  undecodable reply = false ->
  let s' := snd (login reply s) in
  fst (login reply s) = Returned tt
  /\ (logged_in (app s') = true <->
        exists data, reply = Returned data /\ complete_auth_response data = true)
  /\ (logged_in (app s') = true ->
        last (log (world s')) =
          Some (EvShowInfo "Success" (TextValue "Logged in as " (username (app s')))))
  /\ (logged_in (app s') = false ->
        exists m, last (log (world s')) = Some (EvShowError "Error" m)).
Proof.
  intros Htok Hdec s'.
  destruct (login_run s reply tok Htok) as (Hret & _). rewrite Hdec in Hret.
  split; [exact Hret|].
  destruct (match reply with
            | Returned data => complete_auth_response data
            | Raised _ => false
            end) eqn:Hc.
  - destruct reply as [data|e]; [|discriminate].
    destruct (login_complete s data tok Htok Hc) as (Hin & Hlast & _).
    fold s' in Hin, Hlast. repeat split; eauto.
    intros Hout. rewrite Hin in Hout. discriminate.
  - assert (Hbad : forall data, reply = Returned data -> complete_auth_response data = false)
      by (intros data ->; exact Hc).
    destruct (login_incomplete s reply tok Htok Hbad Hdec) as (_ & Hout & Hlast).
    fold s' in Hout, Hlast. repeat split; auto.
    + intros Hin. rewrite Hout in Hin. discriminate.
    + intros (data & -> & Hgood). rewrite Hgood in Hc. discriminate.
    + intros Hin. rewrite Hout in Hin. discriminate.
Qed.

Lemma login_reports_by_reply_witness :
  let s' := snd (login (Returned (JObj [("accessToken", JStr "t0k3n")])) tlauncher_state) in
  logged_in (app s') = false
  /\ exists m, last (log (world s')) = Some (EvShowError "Error" m).
Proof.
  intros s'.
  destruct (login_reports_by_reply tlauncher_state
              (Returned (JObj [("accessToken", JStr "t0k3n")]))
              "00010203-0405-4607-8809-0a0b0c0d0e0f") as (_ & _ & _ & Hout).
  - vm_compute. reflexivity.
  - reflexivity.
  - split; [vm_compute; reflexivity | apply Hout; vm_compute; reflexivity].
Defined.

(** ** Mode switches and start-up *)

Lemma update_mode_run (s : State) (c' : ConfigParser) :
  cfg_set (config (app s)) "settings" "mode" (mode_combo (ui s)) = Returned c' ->
  update_mode s = (Returned tt, mode_updated c' s).
Proof.
  intros Hset. unfold update_mode, write_config, mode_updated. py_unfold. cbn.
  rewrite Hset. cbn.
  destruct (String.eqb (mode_combo (ui s)) "Offline Mode"); cbn; [reflexivity|].
  destruct (String.eqb (mode_combo (ui s)) "TLauncher Mode"); cbn; [reflexivity|].
  destruct s as [a [v m u p k] w]. reflexivity.
Qed.

Lemma cfg_get_section_some (c : ConfigParser) (sec opt v : string) :
  cfg_get c sec opt = Returned v -> is_Some (sections c !! sec).
Proof. unfold cfg_get. destruct (sections c !! sec); [eauto | discriminate]. Qed.

Lemma cfg_get_other_section (c c' : ConfigParser) (sec sec' opt opt' v : string) :
  sec <> sec' -> cfg_set c sec' opt' v = Returned c' ->
  cfg_get c' sec opt = cfg_get c sec opt.
Proof.
  unfold cfg_set, cfg_get. intros Hne.
  destruct (sections c !! sec') as [m|]; [|discriminate].
  intros [= <-]. simpl. by rewrite lookup_insert_ne by congruence.
Qed.

(** X8.  Picking a mode, when the settings have a [settings] section,
    stores it: afterwards the mode read from the settings is the picked one,
    every other option of every section reads as before, the settings file
    holds exactly the settings in memory, and besides that one file write
    nothing happens.  The login fields are shown for "TLauncher Mode",
    hidden for "Offline Mode" and left alone for any other text. *)
Theorem picked_mode_is_stored (s : State) (mode : string) :
  is_Some (sections (config (app s)) !! "settings") ->
  let s' := select_mode mode s in
  cfg_get (config (app s')) "settings" "mode" = Returned mode
  /\ (forall sec opt, (sec, opt) <> ("settings", "mode") ->
        cfg_get (config (app s')) sec opt = cfg_get (config (app s)) sec opt)
  /\ config_on_disk (world s') = Some (config (app s'))
  /\ new_events s s' = [EvWriteFile (config_file (world s)) (config (app s'))]
  /\ auth_fields_packed (ui s') =
       (if String.eqb mode "Offline Mode" then false
        else if String.eqb mode "TLauncher Mode" then true
        else auth_fields_packed (ui s)).
Proof.
  intros [m Hsec] s'.
  destruct (cfg_set (config (app s)) "settings" "mode" mode) as [c'|e] eqn:Hset;
    [|unfold cfg_set in Hset; rewrite Hsec in Hset; discriminate Hset].
  assert (Hs' : s' = mode_updated c' (with_ui (set_mode_combo mode) s)).
  { subst s'. unfold select_mode.
    by rewrite (update_mode_run (with_ui (set_mode_combo mode) s) c' Hset). }
  rewrite Hs'. simpl. split; [apply (cfg_get_set_eq _ _ _ _ _ Hset)|].
  split; [|split; [reflexivity|split; [|reflexivity]]].
  - intros sec opt Hne. destruct (String.eqb_spec sec "settings") as [->|Hsec'].
    + assert (Hopt : opt <> "mode") by congruence.
      apply (cfg_get_set_ne _ _ _ _ _ _ Hopt Hset).
    + apply (cfg_get_other_section _ _ _ _ _ _ _ Hsec' Hset).
  - unfold new_events. simpl. by rewrite drop_app_length.
Qed.

Lemma picked_mode_is_stored_witness :
  cfg_get (config (app tlauncher_state)) "settings" "mode" = Returned "TLauncher Mode"
  /\ auth_fields_packed (ui tlauncher_state) = true.
Proof.
  assert (Hsec : is_Some (sections (config (app started_state)) !! "settings"))
    by (apply (cfg_get_section_some _ _ "mode" "offline"); vm_compute; reflexivity).
  destruct (picked_mode_is_stored started_state "TLauncher Mode" Hsec)
    as (Hmode & _ & _ & _ & Hpacked).
  split; [exact Hmode | exact Hpacked].
Defined.

Lemma init_ui_run (s : State) (mode : string) (c' : ConfigParser) :
  cfg_get (config (app s)) "settings" "mode" = Returned mode ->
  cfg_set (config (app s)) "settings" "mode" mode = Returned c' ->
  init_ui s = (Returned tt, opened mode c' s).
Proof.
  intros Hget Hset.
  unfold init_ui, create_home_page, create_settings_page, update_mode, write_config, opened.
  py_unfold. cbn. rewrite Hget. cbn. rewrite Hset. cbn.
  destruct (String.eqb_spec mode "Offline Mode") as [->|_]; cbn; [reflexivity|].
  destruct (String.eqb mode "TLauncher Mode"); reflexivity.
Qed.

Lemma first_run_mode (token : string) :
  cfg_get (first_run_config token) "settings" "mode" = Returned "offline".
Proof.
  unfold first_run_config, cfg_get, cfg_set_section, default_settings. simpl.
  rewrite lookup_insert_eq. by simplify_map_eq.
Qed.

Lemma first_run_set_mode (token : string) :
  cfg_set (first_run_config token) "settings" "mode" "offline"
  = Returned (first_run_config token).
Proof.
  unfold first_run_config, cfg_set, cfg_set_section, empty_parser.
  cbn [sections defaults]. rewrite lookup_insert_eq, insert_insert_eq.
  unfold default_settings. rewrite insert_insert_eq. reflexivity.
Qed.

Arguments load_config : simpl never.
Arguments fetch_versions : simpl never.
Arguments init_ui : simpl never.

Lemma first_start_run (s : State) (reply : outcome value) :
  config_on_disk (world s) = None ->
  MINECRAFT_DIR (world s) ∈ paths (world s) ->
  let c := first_run_config (uuid_str (next_uuid s)) in
  __init__ reply s =
    (Returned tt,
     opened "offline" c
       (with_app (set_versions (refreshed reply))
          (logged ([EvWriteFile (config_file (world s)) c;
                    EvUrlOpen VERSION_MANIFEST_URL [] None] ++ refresh_report reply)
             (with_world (fun w => set_config_on_disk (Some c)
                                     (set_entropy_pos (entropy_pos w + 16)%nat w))
                (with_app (set_config c) (with_app (fun _ => fresh_app) s)))))).
Proof.
  intros Hdisk Hdir c. unfold __init__. py_unfold. cbn.
  rewrite (load_config_absent (with_app (fun _ => fresh_app) s) Hdisk Hdir).
  rewrite next_uuid_with_app. fold c. cbn.
  rewrite fetch_versions_run. cbn.
  rewrite (init_ui_run _ "offline" c).
  - f_equal. unfold opened, logged, with_app, with_world. cbn. rewrite <- !app_assoc.
    reflexivity.
  - cbn. apply first_run_mode.
  - cbn. apply first_run_set_mode.
Qed.

Lemma first_start_fails (s : State) (reply : outcome value) :
  config_on_disk (world s) = None ->
  MINECRAFT_DIR (world s) ∉ paths (world s) ->
  __init__ reply s =
    (Raised (FileNotFoundError (config_file (world s))),
     with_world (fun w => set_entropy_pos (entropy_pos w + 16)%nat w)
       (with_app (set_config (first_run_config (uuid_str (next_uuid s))))
          (with_app (fun _ => fresh_app) s))).
Proof.
  intros Hdisk Hdir. unfold __init__. py_unfold. cbn.
  rewrite (load_config_no_directory (with_app (fun _ => fresh_app) s) Hdisk Hdir).
  by rewrite next_uuid_with_app.
Qed.

(** X9.  The first start on a machine without settings file, in a game
    directory that exists, succeeds whatever the manifest request does.  It
    leaves the settings [mode = offline], [java_path] empty and a fresh
    36-character client token, in memory and on disk; the session is signed
    out; the version box holds "1.20.1" whether or not the catalog has it
    and the mode box holds "offline".  It draws 16 bytes of randomness,
    creates no directory, opens one URL and writes the settings file twice.
    Where the game directory does not exist the start fails instead: the
    settings file cannot be created, [FileNotFoundError] ends the
    constructor before any request, and no file and no directory is
    made. *)
Theorem first_start_writes_defaults (s : State) (reply : outcome value) :
  config_on_disk (world s) = None ->
  let token := uuid_str (next_uuid s) in
  let s' := snd (__init__ reply s) in
  (MINECRAFT_DIR (world s) ∈ paths (world s) ->
   fst (__init__ reply s) = Returned tt
   /\ settled token (refreshed reply) s'
   /\ config (app s') = first_run_config token
   /\ String.length token = 36%nat
   /\ logged_in (app s') = false
   /\ version_combo (ui s') = "1.20.1"
   /\ mode_combo (ui s') = "offline"
   /\ auth_fields_packed (ui s') = false
   /\ entropy_pos (world s') = (entropy_pos (world s) + 16)%nat
   /\ paths (world s') = paths (world s)
   /\ new_events s s' =
        ([EvWriteFile (config_file (world s)) (first_run_config token);
          EvUrlOpen VERSION_MANIFEST_URL [] None]
         ++ refresh_report reply
         ++ [EvWriteFile (config_file (world s)) (first_run_config token)])%list)
  /\ (MINECRAFT_DIR (world s) ∉ paths (world s) ->
      fst (__init__ reply s) = Raised (FileNotFoundError (config_file (world s)))
      /\ config_on_disk (world s') = None
      /\ paths (world s') = paths (world s)
      /\ new_events s s' = []).
Proof.
  intros Hdisk token s'. split; intros Hdir; subst s'.
  - rewrite (first_start_run s reply Hdisk Hdir). fold token.
    cbn. split; [reflexivity|]. split.
    + unfold settled. cbn. split; [apply first_run_token|].
      split; [exists "offline"; apply first_run_mode|]. split; reflexivity.
    + split; [reflexivity|]. split; [apply uuid_str_length|].
      repeat (split; [reflexivity|]).
      unfold new_events. cbn. rewrite <- !app_assoc. by rewrite drop_app_length.
  - rewrite (first_start_fails s reply Hdisk Hdir). cbn.
    split; [reflexivity|]. split; [exact Hdisk|]. split; [reflexivity|].
    unfold new_events. cbn. by rewrite drop_all.
Qed.

Lemma first_start_writes_defaults_witness :
  cfg_get (config (app started_state)) "settings" "client_token"
  = Returned "00010203-0405-4607-8809-0a0b0c0d0e0f"
  /\ mode_combo (ui started_state) = "offline"
  /\ fst (__init__ (Raised (OtherError "URLError"))
            (with_world (set_paths ∅) (blank_state counting_bytes)))
     = Raised (FileNotFoundError "/home/cat/.minecraft/catclient_config.ini").
Proof.
  destruct (first_start_writes_defaults (blank_state counting_bytes)
              (Raised (OtherError "URLError")) eq_refl)
    as [Hstart _].
  destruct Hstart as (_ & (Htoken & _) & _ & _ & _ & _ & Hmode & _);
    [apply path_present; vm_compute; reflexivity|].
  destruct (first_start_writes_defaults
              (with_world (set_paths ∅) (blank_state counting_bytes))
              (Raised (OtherError "URLError")) eq_refl)
    as [_ Hfail].
  destruct Hfail as (Hraise & _); [apply path_missing; vm_compute; reflexivity|].
  split; [|split; [exact Hmode | rewrite Hraise; vm_compute; reflexivity]].
  unfold started_state. rewrite Htoken. vm_compute. reflexivity.
Defined.

Lemma init_after_load (s s1 : State) (reply : outcome value) (mode : string)
    (c' : ConfigParser) :
  load_config (with_app (fun _ => fresh_app) s) = (Returned tt, s1) ->
  cfg_get (config (app s1)) "settings" "mode" = Returned mode ->
  cfg_set (config (app s1)) "settings" "mode" mode = Returned c' ->
  __init__ reply s =
    (Returned tt,
     opened mode c'
       (with_app (set_versions (refreshed reply))
          (logged (EvUrlOpen VERSION_MANIFEST_URL [] None :: refresh_report reply) s1))).
Proof.
  intros Hload Hget Hset. unfold __init__. py_unfold. cbn.
  rewrite Hload, fetch_versions_run. cbn.
  by rewrite (init_ui_run
                (with_app (set_versions (refreshed reply))
                   (logged (EvUrlOpen VERSION_MANIFEST_URL [] None :: refresh_report reply)
                      s1)) mode c' Hget Hset).
Qed.

Lemma init_without_mode (s s1 : State) (reply : outcome value) (e : exn) :
  load_config (with_app (fun _ => fresh_app) s) = (Returned tt, s1) ->
  cfg_get (config (app s1)) "settings" "mode" = Raised e ->
  __init__ reply s =
    (Raised e,
     with_ui (set_version_combo "1.20.1")
       (with_app (set_versions (refreshed reply))
          (logged (EvUrlOpen VERSION_MANIFEST_URL [] None :: refresh_report reply) s1))).
Proof.
  intros Hload Hget. unfold __init__. py_unfold. cbn.
  rewrite Hload, fetch_versions_run. cbn.
  unfold init_ui, create_home_page, create_settings_page. py_unfold. cbn.
  rewrite Hget. reflexivity.
Qed.

(** What loading leaves of an existing settings file with a [settings]
    section: the document itself, or the document with a fresh token. *)
Lemma load_existing (s : State) (doc : ConfigParser) :
  config_on_disk (world s) = Some doc ->
  is_Some (sections doc !! "settings") ->
  exists (s1 : State) (token : string),
    load_config s = (Returned tt, s1)
    /\ cfg_get (config (app s1)) "settings" "client_token" = Returned token
    /\ config_on_disk (world s1) = Some (config (app s1))
    /\ (forall opt, opt <> "client_token" ->
          cfg_get (config (app s1)) "settings" opt = cfg_get doc "settings" opt)
    /\ app s1 = set_config (config (app s1)) (app s)
    /\ paths (world s1) = paths (world s)
    /\ (has_option doc "settings" "client_token" = true -> s1 = with_app (set_config doc) s).
Proof.
  intros Hdisk [m Hsec].
  assert (Hcontains : cfg_contains doc "settings" "client_token"
                      = Returned (has_option doc "settings" "client_token"))
    by (unfold cfg_contains; rewrite Hsec; reflexivity).
  destruct (has_option doc "settings" "client_token") eqn:Hhas.
  - destruct (has_option_cfg_get _ _ _ Hhas) as [token Htoken].
    exists (with_app (set_config doc) s), token.
    split; [apply (load_config_present s doc Hdisk Hcontains)|].
    simpl. repeat split; auto.
  - destruct (cfg_set doc "settings" "client_token" (uuid_str (next_uuid s)))
      as [c|e] eqn:Hset; [|unfold cfg_set in Hset; rewrite Hsec in Hset; discriminate].
    eexists. exists (uuid_str (next_uuid s)).
    split; [apply (load_config_regenerates s doc c Hdisk Hcontains Hset)|].
    simpl. split; [apply (cfg_get_set_eq _ _ _ _ _ Hset)|]. split; [reflexivity|].
    split; [|split; [reflexivity | split; [reflexivity | discriminate]]].
    intros opt Hopt. apply (cfg_get_set_ne _ _ _ _ _ _ Hopt Hset).
Qed.

(** X10.  A start over an existing settings file that gives a mode
    succeeds whatever the manifest request does and restores that mode: the
    mode box holds it and the login fields are shown exactly for "TLauncher
    Mode".  The session nevertheless starts signed out, with no token and no
    profile in memory; the client token of the file is the one in memory
    and on disk afterwards. *)
Theorem start_restores_mode_not_identity
    (s : State) (reply : outcome value) (doc : ConfigParser) (mode : string) :
  config_on_disk (world s) = Some doc ->
  cfg_get doc "settings" "mode" = Returned mode ->
  let s' := snd (__init__ reply s) in
  fst (__init__ reply s) = Returned tt
  /\ (exists token, settled token (refreshed reply) s'
        /\ (has_option doc "settings" "client_token" = true ->
              cfg_get doc "settings" "client_token" = Returned token))
  /\ cfg_get (config (app s')) "settings" "mode" = Returned mode
  /\ mode_combo (ui s') = mode
  /\ auth_fields_packed (ui s') = String.eqb mode "TLauncher Mode"
  /\ version_combo (ui s') = "1.20.1"
  /\ logged_in (app s') = false
  /\ access_token (app s') = JNull /\ uuid (app s') = JNull /\ username (app s') = JNull.
Proof.
  intros Hdisk Hmode s'.
  destruct (load_existing (with_app (fun _ => fresh_app) s) doc Hdisk
              (cfg_get_section_some _ _ _ _ Hmode))
    as (s1 & token & Hload & Htoken & Hsync & Hother & Happ & _ & Hkept).
  assert (Hmode1 : cfg_get (config (app s1)) "settings" "mode" = Returned mode)
    by (rewrite Hother by discriminate; exact Hmode).
  destruct (cfg_get_set_section _ _ _ "mode" _ mode Hmode1) as [c' Hset].
  subst s'. rewrite (init_after_load s s1 reply mode c' Hload Hmode1 Hset). cbn.
  split; [reflexivity|]. split.
  - exists token. split.
    + unfold settled. cbn.
      assert (Hne : "client_token" <> "mode") by discriminate.
      split; [rewrite (cfg_get_set_ne _ _ _ _ _ _ Hne Hset); exact Htoken|].
      split; [exists mode; apply (cfg_get_set_eq _ _ _ _ _ Hset)|]. split; reflexivity.
    + intros Hhas. rewrite (Hkept Hhas) in Htoken. exact Htoken.
  - split; [apply (cfg_get_set_eq _ _ _ _ _ Hset)|].
    repeat (split; [reflexivity|]).
    rewrite Happ. simpl. auto.
Qed.

Lemma start_restores_mode_not_identity_witness :
  let s' := snd (__init__ (Returned sample_manifest) signed_in_state) in
  logged_in (app signed_in_state) = true
  /\ logged_in (app s') = false
  /\ mode_combo (ui s') = "TLauncher Mode"
  /\ auth_fields_packed (ui s') = true.
Proof.
  intros s'.
  destruct (start_restores_mode_not_identity signed_in_state (Returned sample_manifest)
              (config (app signed_in_state)) "TLauncher Mode")
    as (_ & _ & _ & Hmode & Hpacked & _ & Hout & _).
  - vm_compute. reflexivity.
  - vm_compute. reflexivity.
  - split; [vm_compute; reflexivity|]. split; [exact Hout|].
    split; [exact Hmode | exact Hpacked].
Defined.

(** X11.  A start over a settings file whose [settings] section gives no
    mode fails with [KeyError] for ["mode"], raised while the settings page
    is built.  By then the manifest has been requested and the client token
    is in the file: the one that was there, or a fresh one written back. *)
Theorem start_without_mode_fails
    (s : State) (reply : outcome value) (doc : ConfigParser) :
  config_on_disk (world s) = Some doc ->
  is_Some (sections doc !! "settings") ->
  has_option doc "settings" "mode" = false ->
  let s' := snd (__init__ reply s) in
  fst (__init__ reply s) = Raised (KeyError "mode")
  /\ (exists token doc',
        config_on_disk (world s') = Some doc'
        /\ cfg_get doc' "settings" "client_token" = Returned token)
  /\ existsb is_network (new_events s s') = true.
Proof.
  intros Hdisk Hsec Hnomode s'.
  destruct (load_existing (with_app (fun _ => fresh_app) s) doc Hdisk Hsec)
    as (s1 & token & Hload & Htoken & Hsync & Hother & _ & _ & _).
  assert (Hmode1 : cfg_get (config (app s1)) "settings" "mode" = Raised (KeyError "mode")).
  { rewrite Hother by discriminate. destruct Hsec as [m Hm].
    revert Hnomode. unfold has_option, cfg_get. rewrite Hm.
    destruct (m !! "mode"); [discriminate|].
    destruct (defaults doc !! "mode"); [rewrite orb_true_r; discriminate | reflexivity]. }
  assert (Hlog : exists evs, log (world s1) = (log (world s) ++ evs)%list).
  { revert Hload. unfold load_config, write_config. py_unfold. cbn. rewrite Hdisk. cbn.
    destruct (cfg_contains (cfg_read empty_parser doc) "settings" "client_token")
      as [[|]|]; cbn.
    - intros [= <-]. exists []. cbn. by rewrite app_nil_r.
    - rewrite uuid4_next. cbn.
      destruct (cfg_set _ "settings" "client_token" _); cbn; intros H; [|discriminate H].
      injection H as <-. eexists. reflexivity.
    - intros H. discriminate H. }
  destruct Hlog as [evs Hlog].
  subst s'. rewrite (init_without_mode s s1 reply _ Hload Hmode1). cbn.
  split; [reflexivity|]. split; [exists token, (config (app s1)); auto|].
  unfold new_events. cbn. rewrite Hlog, <- app_assoc, drop_app_length.
  rewrite existsb_app. cbn. apply orb_true_r.
Qed.

Lemma start_without_mode_fails_witness :
  fst (__init__ (Returned sample_manifest) modeless_file_state) = Raised (KeyError "mode").
Proof.
  apply (start_without_mode_fails modeless_file_state (Returned sample_manifest)
           (cfg_set_section empty_parser "settings" {[ "java_path" := "" ]})).
  - reflexivity.
  - apply (cfg_get_section_some _ _ "java_path" ""). vm_compute. reflexivity.
  - vm_compute. reflexivity.
Defined.

(** ** Launching, further *)

Arguments index : simpl never.

Lemma launch_signed_in (s : State) (mode asset_index : string) (c' : ConfigParser) :
  cfg_get (config (app s)) "settings" "mode" = Returned mode ->
  logged_in (app s) = true ->
  version_combo (ui s) <> "" ->
  cfg_set (config (app s)) "settings" "java_path" (java_executable (world s)) = Returned c' ->
  index (split_on "."%char (version_combo (ui s))) 1 = Returned asset_index ->
  prepare_and_launch s =
    (Returned tt,
     logged (install_events c' s
               ++ [EvPopen (signed_in_cmd s asset_index) (MINECRAFT_DIR (world s));
                   launch_report s (signed_in_cmd s asset_index)])
       (installed c' s)).
Proof.
  intros Hmode Hin Hver Hset Hidx. unfold prepare_and_launch. py_unfold.
  rewrite Hmode. cbn. rewrite Hin, andb_false_r.
  destruct (String.eqb_spec (version_combo (ui s)) "") as [Hempty|_]; [contradiction|].
  rewrite (install_run s c' Hset).
  destruct (installed_frame s c') as (Happ & Hui & Hlog & Hhome & Hsys & Hent & Hpos & Herr).
  assert (Hin' : logged_in (app (installed c' s)) = true) by (rewrite Happ; exact Hin).
  cbn. rewrite ?Hui, Hidx, Hin'. cbn. rewrite ?Hin'. cbn.
  unfold Popen. py_unfold. cbn.
  unfold launch_report, signed_in_cmd, spawn_report. cbn.
  rewrite ?Happ. cbn.
  unfold launch_cmd, MINECRAFT_DIR, VERSIONS_DIR, path_join, sep. cbn.
  rewrite ?Hhome, ?Hsys, ?Hlog, ?Herr.
  unfold logged, installed, with_world, with_app. case_bool_decide; py_unfold;
    unfold with_world; cbn;
    (destruct (is_str (username (app s)) && (is_str (uuid (app s))
                 && (is_str (access_token (app s)) && true))); cbn;
     [destruct (spawn_error (world s)) as [e|]; cbn|];
     rewrite <- ?app_assoc; reflexivity).
Qed.

Lemma last_two {A : Type} (l : list A) (a b : A) : last (l ++ [a; b]) = Some b.
Proof.
  change [a; b] with ([a] ++ [b])%list. rewrite app_assoc. apply last_snoc.
Qed.

Lemma spawns_signed_in (c' : ConfigParser) (s : State) (argv : list value) (cwd : string) :
  spawns (install_events c' s ++ [EvPopen argv cwd; launch_report s argv]) = [(argv, cwd)].
Proof.
  rewrite spawns_app, spawns_install_events. unfold launch_report, spawn_report.
  destruct (forallb is_str argv); [destruct (spawn_error (world s))|]; reflexivity.
Qed.

(** X12.  While [logged_in] is true, whatever the mode, a launch with a
    version id that has an asset index calls [Popen] once, with the argument
    vector below: the stored profile name after [--username], the stored
    profile id after [--uuid] and the stored access token after
    [--accessToken]; it draws no randomness.  When one of the three is not
    a string the call fails with [TypeError] and the launch ends in the
    failed-to-launch dialog. *)
Theorem signed_in_launch_uses_identity (s : State) (mode asset_index : string) :
  cfg_get (config (app s)) "settings" "mode" = Returned mode ->
  logged_in (app s) = true ->
  version_combo (ui s) <> "" ->
  index (split_on "." (version_combo (ui s))) 1 = Returned asset_index ->
  let s' := snd (prepare_and_launch s) in
  let w := world s in
  let argv :=
    [JStr (java_executable w);
     JStr ("-Djava.library.path=" ++ VERSIONS_DIR w);
     JStr "-cp"; JStr (MINECRAFT_DIR w);
     JStr "net.minecraft.client.main.Main";
     JStr "--username"; username (app s);
     JStr "--version"; JStr (version_combo (ui s));
     JStr "--gameDir"; JStr (MINECRAFT_DIR w);
     JStr "--assetsDir"; JStr (path_join w (MINECRAFT_DIR w) "assets");
     JStr "--assetIndex"; JStr asset_index;
     JStr "--uuid"; uuid (app s);
     JStr "--accessToken"; access_token (app s)] in
  fst (prepare_and_launch s) = Returned tt
  /\ spawns (new_events s s') = [(argv, MINECRAFT_DIR w)]
  /\ last (log (world s')) = Some (launch_report s argv)
  /\ entropy_pos (world s') = entropy_pos w
  /\ (is_str (username (app s)) && is_str (uuid (app s))
        && is_str (access_token (app s)) = false ->
      launch_report s argv = EvShowError "Error" (TextExn "Failed to launch: " TypeError)).
Proof.
  intros Hmode Hin Hver Hidx s' w argv.
  destruct (cfg_get_set_section _ _ _ "java_path" _ (java_executable (world s)) Hmode)
    as [c' Hset].
  subst s'. rewrite (launch_signed_in s mode asset_index c' Hmode Hin Hver Hset Hidx).
  destruct (installed_frame s c') as (_ & _ & Hlog & _ & _ & _ & Hpos & _).
  cbn [fst snd]. split; [reflexivity|]. split; [|split; [|split]].
  - rewrite new_events_logged by exact Hlog.
    apply (spawns_signed_in c' s (signed_in_cmd s asset_index)).
  - unfold logged, with_world. cbn [world log set_log].
    rewrite app_assoc. apply (last_two _ _ (launch_report s (signed_in_cmd s asset_index))).
  - exact Hpos.
  - intros Hbad. unfold launch_report, argv. cbn.
    rewrite andb_true_r, andb_assoc, Hbad. reflexivity.
Qed.

Lemma signed_in_launch_uses_identity_witness :
  spawns (new_events signed_in_state (snd (prepare_and_launch signed_in_state)))
  = [([JStr "/home/cat/.catclient/java/bin/java";
       JStr "-Djava.library.path=/home/cat/.minecraft/versions";
       JStr "-cp"; JStr "/home/cat/.minecraft";
       JStr "net.minecraft.client.main.Main";
       JStr "--username"; JStr "Cat";
       JStr "--version"; JStr "1.20.1";
       JStr "--gameDir"; JStr "/home/cat/.minecraft";
       JStr "--assetsDir"; JStr "/home/cat/.minecraft/assets";
       JStr "--assetIndex"; JStr "20";
       JStr "--uuid"; JStr "0123456789abcdef0123456789abcdef";
       JStr "--accessToken"; JStr "t0k3n"],
      "/home/cat/.minecraft")].
Proof.
  destruct (signed_in_launch_uses_identity signed_in_state "TLauncher Mode" "20")
    as (_ & Hspawn & _).
  - vm_compute. reflexivity.
  - vm_compute. reflexivity.
  - vm_compute. discriminate.
  - vm_compute. reflexivity.
  - rewrite Hspawn. vm_compute. reflexivity.
Defined.

Lemma same_but_log_fields (w w' : World) :
  same_but_log w w' ->
  home w' = home w /\ system w' = system w /\ config_on_disk w' = config_on_disk w
  /\ paths w' = paths w /\ entropy w' = entropy w /\ entropy_pos w' = entropy_pos w
  /\ spawn_error w' = spawn_error w.
Proof.
  unfold same_but_log. intros H.
  repeat split;
    [apply (f_equal home) in H | apply (f_equal system) in H
     | apply (f_equal config_on_disk) in H | apply (f_equal paths) in H
     | apply (f_equal entropy) in H | apply (f_equal entropy_pos) in H
     | apply (f_equal spawn_error) in H]; simpl in H; auto.
Qed.

(** X13.  Logging in and then pressing PLAY hands the response over to the
    game: after a complete response, a launch with a version id that has an
    asset index calls [Popen] with the argument vector below, which has the
    ["name"] of the response's profile after [--username], its ["id"] after
    [--uuid] and the response's ["accessToken"] after [--accessToken]. *)
Theorem login_then_play_passes_response
    (s : State) (data : value) (token mode asset_index : string) :
  cfg_get (config (app s)) "settings" "client_token" = Returned token ->
  cfg_get (config (app s)) "settings" "mode" = Returned mode ->
  complete_auth_response data = true ->
  version_combo (ui s) <> "" ->
  index (split_on "." (version_combo (ui s))) 1 = Returned asset_index ->
  let s1 := step s (PressLogin (Returned data)) in
  let s2 := step s1 PressPlay in
  let w := world s in
  exists name id access profile,
    getitem data "accessToken" = Returned access
    /\ getitem data "selectedProfile" = Returned profile
    /\ getitem profile "id" = Returned id
    /\ getitem profile "name" = Returned name
    /\ spawns (new_events s1 s2) =
         [([JStr (java_executable w);
            JStr ("-Djava.library.path=" ++ VERSIONS_DIR w);
            JStr "-cp"; JStr (MINECRAFT_DIR w);
            JStr "net.minecraft.client.main.Main";
            JStr "--username"; name;
            JStr "--version"; JStr (version_combo (ui s));
            JStr "--gameDir"; JStr (MINECRAFT_DIR w);
            JStr "--assetsDir"; JStr (path_join w (MINECRAFT_DIR w) "assets");
            JStr "--assetIndex"; JStr asset_index;
            JStr "--uuid"; id;
            JStr "--accessToken"; access],
           MINECRAFT_DIR w)].
Proof.
  intros Htoken Hmode Hdata Hver Hidx s1 s2 w. subst s2 s1 w. unfold step. cbn [handle].
  destruct (login_complete s data token Htoken Hdata) as (Hin & _ & Haccess & Hprofile).
  destruct (login_run s (Returned data) token Htoken)
    as (_ & _ & Hconfig & _ & Hui & Hworld).
  set (s1 := snd (login (Returned data) s)) in *.
  destruct Hprofile as (profile & Hprof & Hid & Hname).
  destruct (same_but_log_fields _ _ Hworld) as (Hhome & Hsys & _).
  exists (username (app s1)), (uuid (app s1)), (access_token (app s1)), profile.
  repeat (split; [assumption|]).
  assert (Hmode1 : cfg_get (config (app s1)) "settings" "mode" = Returned mode)
    by (rewrite Hconfig; exact Hmode).
  destruct (cfg_get_set_section _ _ _ "java_path" _ (java_executable (world s1)) Hmode1)
    as [c' Hset].
  assert (Hver1 : version_combo (ui s1) <> "") by (rewrite Hui; exact Hver).
  assert (Hidx1 : index (split_on "." (version_combo (ui s1))) 1 = Returned asset_index)
    by (rewrite Hui; exact Hidx).
  rewrite (launch_signed_in s1 mode asset_index c' Hmode1 Hin Hver1 Hset Hidx1).
  cbn [snd]. rewrite new_events_logged by apply (installed_frame s1 c').
  rewrite spawns_signed_in.
  unfold signed_in_cmd, launch_cmd, java_executable, JAVA_DIR, VERSIONS_DIR,
    path_join, sep, MINECRAFT_DIR.
  rewrite Hhome, Hsys, Hui. reflexivity.
Qed.

Lemma login_then_play_passes_response_witness :
  spawns (new_events (step tlauncher_state (PressLogin (Returned sample_auth_reply)))
            (step (step tlauncher_state (PressLogin (Returned sample_auth_reply)))
               PressPlay)) =
    [([JStr "/home/cat/.catclient/java/bin/java";
       JStr "-Djava.library.path=/home/cat/.minecraft/versions";
       JStr "-cp"; JStr "/home/cat/.minecraft";
       JStr "net.minecraft.client.main.Main";
       JStr "--username"; JStr "Cat";
       JStr "--version"; JStr "1.20.1";
       JStr "--gameDir"; JStr "/home/cat/.minecraft";
       JStr "--assetsDir"; JStr "/home/cat/.minecraft/assets";
       JStr "--assetIndex"; JStr "20";
       JStr "--uuid"; JStr "0123456789abcdef0123456789abcdef";
       JStr "--accessToken"; JStr "t0k3n"],
      "/home/cat/.minecraft")].
Proof.
  destruct (login_then_play_passes_response tlauncher_state sample_auth_reply
              "00010203-0405-4607-8809-0a0b0c0d0e0f" "TLauncher Mode" "20")
    as (name & id & access & profile & Haccess & Hprofile & Hid & Hname & Hspawn).
  - vm_compute. reflexivity.
  - vm_compute. reflexivity.
  - reflexivity.
  - vm_compute. discriminate.
  - vm_compute. reflexivity.
  - rewrite Hspawn. vm_compute in Haccess, Hprofile.
    injection Haccess as <-. injection Hprofile as <-.
    vm_compute in Hid, Hname. injection Hid as <-. injection Hname as <-.
    vm_compute. reflexivity.
Defined.

(** ** The running window *)

#[local] Set Warnings "-clear-no-such-hyp".

Ltac grows_leaf :=
  match goal with
  | |- exists _, _ = _ => fail 1
  | |- forall _, _ ∈ _ -> _ => by (intros ? ?; left)
  | |- _ ⊆ _ => set_solver
  | |- (_ <= _)%nat => lia
  | |- _ = _ => congruence
  end.

Lemma grows_refl (w : World) : grows w w.
Proof.
  unfold grows. repeat split; try grows_leaf. exists []. by rewrite app_nil_r.
Qed.

Lemma grows_trans (w1 w2 w3 : World) : grows w1 w2 -> grows w2 w3 -> grows w1 w3.
Proof.
  unfold grows, JAVA_DIR.
  intros (Hh & Hs & He & Hp & Hpos & Hsub & Hsup & evs & Hlog)
         (Hh' & Hs' & He' & Hp' & Hpos' & Hsub' & Hsup' & evs' & Hlog').
  rewrite Hh in Hsup'.
  repeat split; try grows_leaf.
  - intros q Hq. destruct (Hsup' q Hq) as [Hq2|Hpre]; [exact (Hsup q Hq2) | by right].
  - exists (evs ++ evs')%list. rewrite Hlog', Hlog. by rewrite app_assoc.
Qed.

Lemma grows_log (w : World) (l : list event) : grows w (set_log (log w ++ l) w).
Proof.
  unfold grows. simpl. repeat split; try grows_leaf. by exists l.
Qed.

Lemma grows_logged (evs : list event) (s s0 : State) :
  grows (world s) (world s0) -> grows (world s) (world (logged evs s0)).
Proof. intros H. apply (grows_trans _ _ _ H). apply grows_log. Qed.

Lemma grows_installed (c' : ConfigParser) (s : State) :
  grows (world s) (world (installed c' s)).
Proof.
  unfold installed, grows. case_bool_decide; simpl; repeat split; try grows_leaf;
    try (exists []; by rewrite app_nil_r).
  intros q Hq. apply elem_of_union in Hq as [Hq|Hq]; [right | by left].
  by apply (made_prefix (world s)).
Qed.

Lemma grows_drawn (s s0 : State) :
  grows (world s) (world s0) ->
  grows (world s)
    (world (with_world (fun w => set_entropy_pos (entropy_pos w + 16)%nat w) s0)).
Proof.
  intros H. apply (grows_trans _ _ _ H). unfold grows. simpl.
  repeat split; try grows_leaf. exists []. by rewrite app_nil_r.
Qed.

Lemma set_config_same (a : App) : set_config (config a) a = a.
Proof. by destruct a. Qed.

Lemma index_raises {A : Type} (l : list A) (i : nat) (e : exn) :
  index l i = Raised e -> e = IndexError.
Proof. unfold index. destruct (l !! i); [discriminate | by intros [= <-]]. Qed.

Ltac installed_disk :=
  unfold logged, with_world, installed; case_bool_decide; reflexivity.

(** What a launch does to a state whose settings give a mode. *)
Lemma launch_frame (s : State) (mode : string) :
  cfg_get (config (app s)) "settings" "mode" = Returned mode ->
  let s' := snd (prepare_and_launch s) in
  ends_well PressPlay s
  /\ (exists c',
        (c' = config (app s)
         \/ cfg_set (config (app s)) "settings" "java_path" (java_executable (world s))
            = Returned c')
        /\ app s' = set_config c' (app s)
        /\ (config_on_disk (world s') = Some c'
            \/ (c' = config (app s)
                /\ config_on_disk (world s') = config_on_disk (world s))))
  /\ ui s' = ui s
  /\ grows (world s) (world s').
Proof.
  intros Hmode s'. subst s'. unfold ends_well. cbn [handle].
  destruct (String.eqb mode "TLauncher Mode" && negb (logged_in (app s))) eqn:Hgate.
  { assert (Hrun : prepare_and_launch s =
              (Returned tt,
               logged [EvShowError "Error" (Text "Please log in with TLauncher first.")] s))
      by (unfold prepare_and_launch; py_unfold; rewrite Hmode; cbn; rewrite Hgate;
          reflexivity).
    rewrite Hrun. cbn [fst snd]. split; [by left|].
    split; [exists (config (app s)); split; [by left|]; split;
            [symmetry; apply set_config_same | right; split; reflexivity]|].
    split; [reflexivity | apply grows_logged, grows_refl]. }
  destruct (String.eqb_spec (version_combo (ui s)) "") as [Hempty|Hver].
  { assert (Hrun : prepare_and_launch s =
              (Returned tt, logged [EvShowError "Error" (Text "Please select a version.")] s))
      by (unfold prepare_and_launch; py_unfold; rewrite Hmode; cbn; rewrite Hgate, Hempty;
          reflexivity).
    rewrite Hrun. cbn [fst snd]. split; [by left|].
    split; [exists (config (app s)); split; [by left|]; split;
            [symmetry; apply set_config_same | right; split; reflexivity]|].
    split; [reflexivity | apply grows_logged, grows_refl]. }
  destruct (cfg_get_set_section _ _ _ "java_path" _ (java_executable (world s)) Hmode)
    as [c' Hset].
  destruct (installed_frame s c') as (Happ & Hui & _).
  destruct (index (split_on "." (version_combo (ui s))) 1) as [asset_index|e] eqn:Hidx.
  - destruct (logged_in (app s)) eqn:Hin.
    + rewrite (launch_signed_in s mode asset_index c' Hmode Hin Hver Hset Hidx).
      cbn [fst snd]. split; [by left|].
      split; [exists c'; split; [by right|]; split; [exact Happ | left; installed_disk]|].
      split; [exact Hui | apply grows_logged, grows_installed].
    + assert (Hoff : mode <> "TLauncher Mode").
      { intros ->. rewrite String.eqb_refl in Hgate. discriminate Hgate. }
      rewrite (launch_offline s mode asset_index c' Hmode Hoff Hin Hver Hset Hidx).
      cbn [fst snd]. split; [by left|].
      split; [exists c'; split; [by right|]; split; [exact Happ | left; installed_disk]|].
      split; [exact Hui | apply grows_logged, grows_drawn, grows_installed].
  - pose proof (index_raises _ _ _ Hidx) as ->.
    rewrite (launch_dotless s mode c' Hmode Hgate Hver Hset Hidx).
    cbn [fst snd]. split.
    + right; left. split; [reflexivity|]. split; [reflexivity|].
      destruct (contains "." (version_combo (ui s))) eqn:Hdot; [|reflexivity].
      destruct (proj2 (split_index_1 "." _) Hdot) as [piece Hpiece].
      rewrite Hpiece in Hidx. discriminate Hidx.
    + split; [exists c'; split; [by right|]; split; [exact Happ | left; installed_disk]|].
      split; [exact Hui | apply grows_logged, grows_installed].
Qed.

Lemma login_log (s : State) (reply : outcome value) (token : string) :
  cfg_get (config (app s)) "settings" "client_token" = Returned token ->
  exists evs, log (world (snd (login reply s))) = (log (world s) ++ evs)%list.
Proof.
  intros Htoken. unfold login. py_unfold. rewrite Htoken.
  destruct reply as [data|e]; simpl.
  - destruct data as [| | | | |fields]; simpl;
      try (rewrite <- ?app_assoc; eexists; reflexivity).
    destruct (assoc "accessToken" fields) as [t|]; simpl;
      [|rewrite <- ?app_assoc; eexists; reflexivity].
    destruct (assoc "selectedProfile" fields) as [[| | | | |profile]|]; simpl;
      try (rewrite <- ?app_assoc; eexists; reflexivity).
    destruct (assoc "id" profile) as [i|]; simpl;
      [|rewrite <- ?app_assoc; eexists; reflexivity].
    destruct (assoc "name" profile) as [n|]; simpl;
      rewrite <- ?app_assoc; eexists; reflexivity.
  - destruct e as [k| | |code reason [text|]| |path|what]; simpl;
      rewrite <- ?app_assoc; eexists; reflexivity.
Qed.

Lemma login_grows (s : State) (reply : outcome value) (token : string) :
  cfg_get (config (app s)) "settings" "client_token" = Returned token ->
  grows (world s) (world (snd (login reply s))).
Proof.
  intros Htoken.
  destruct (login_run s reply token Htoken) as (_ & _ & _ & _ & _ & Hworld).
  destruct (same_but_log_fields _ _ Hworld) as (Hh & Hs & _ & Hp & He & Hpos & Herr).
  unfold grows. repeat split; try grows_leaf.
  - intros q Hq. left. by rewrite <- Hp.
  - apply (login_log s reply token Htoken).
Qed.

Lemma undecodable_inv (reply : outcome value) :
  undecodable reply = true -> exists code reason, reply = Raised (HTTPError code reason None).
Proof.
  destruct reply as [data|[k| | |code reason [text|]| |path|what]]; try discriminate.
  eauto.
Qed.

Lemma settled_config (token : string) (d : dict) (s s' : State) :
  settled token d s ->
  config (app s') = config (app s) ->
  config_on_disk (world s') = config_on_disk (world s) ->
  versions (app s') = versions (app s) ->
  settled token d s'.
Proof.
  unfold settled. intros (Htoken & Hmode & Hdisk & Hver) Hc Hd Hv.
  rewrite Hc, Hd, Hv. auto.
Qed.

Lemma settled_written (token : string) (d : dict) (s s' : State)
    (opt v : string) (c' : ConfigParser) :
  settled token d s ->
  opt <> "client_token" ->
  cfg_set (config (app s)) "settings" opt v = Returned c' ->
  app s' = set_config c' (app s) ->
  config_on_disk (world s') = Some c' ->
  settled token d s'.
Proof.
  unfold settled. intros (Htoken & [mode Hmode] & Hdisk & Hver) Hopt Hset Happ Hd.
  rewrite Happ, Hd. simpl.
  split; [rewrite (cfg_get_set_ne _ _ _ "client_token" opt v (not_eq_sym Hopt) Hset);
          exact Htoken|].
  split; [|split; [reflexivity | exact Hver]].
  destruct (String.eqb_spec opt "mode") as [->|Hne].
  - exists v. apply (cfg_get_set_eq _ _ _ _ _ Hset).
  - exists mode. rewrite (cfg_get_set_ne _ _ _ "mode" opt v (not_eq_sym Hne) Hset).
    exact Hmode.
Qed.

Lemma step_settled (token : string) (d : dict) (s : State) (a : action) :
  settled token d s ->
  settled token d (step s a) /\ ends_well a s /\ grows (world s) (world (step s a)).
Proof.
  intros Hs. pose proof Hs as (Htoken & [mode Hmode] & Hdisk & Hver).
  unfold step, ends_well. destruct a as [m|v|u p|reply| |name]; cbn [handle].
  - destruct (cfg_get_set_section _ _ _ "mode" _ m Htoken) as [c' Hset].
    assert (Hrun : (modify (with_ui (set_mode_combo m));; update_mode) s
                   = (Returned tt, mode_updated c' (with_ui (set_mode_combo m) s)))
      by (py_unfold; apply (update_mode_run (with_ui (set_mode_combo m) s) c' Hset)).
    rewrite Hrun. cbn [fst snd]. split; [|split; [by left|]].
    + apply (settled_written token d s _ "mode" m c' Hs); [discriminate | exact Hset | |];
        reflexivity.
    + unfold mode_updated. cbn [world with_ui].
      apply (grows_trans _ (set_config_on_disk (Some c') (world s)));
        [|apply (grows_log (set_config_on_disk (Some c') (world s))
                   [EvWriteFile (config_file (world s)) c'])].
      unfold grows. simpl. repeat split; try grows_leaf. exists []. by rewrite app_nil_r.
  - py_unfold. cbn [fst snd]. split; [|split; [by left | apply grows_refl]].
    apply (settled_config token d s _ Hs); reflexivity.
  - py_unfold. cbn [fst snd]. split; [|split; [by left | apply grows_refl]].
    apply (settled_config token d s _ Hs); reflexivity.
  - destruct (login_run s reply token Htoken) as (Hret & _ & Hc & Hv & _ & Hworld).
    destruct (same_but_log_fields _ _ Hworld) as (_ & _ & Hd & _).
    split; [apply (settled_config token d s _ Hs Hc Hd Hv)|].
    split; [|apply (login_grows s reply token Htoken)].
    destruct (undecodable reply) eqn:Hdec; [|by left].
    destruct (undecodable_inv reply Hdec) as (code & reason & ->).
    right; right. exists code, reason. split; [reflexivity | exact Hret].
  - destruct (launch_frame s mode Hmode) as (Hend & (c' & Hc' & Happ & Hd) & _ & Hgrow).
    split; [|split; [exact Hend | exact Hgrow]].
    destruct Hc' as [-> | Hset].
    + apply (settled_config token d s _ Hs).
      * by rewrite Happ.
      * destruct Hd as [Hd | [_ Hd]]; [by rewrite Hd, Hdisk | exact Hd].
      * by rewrite Happ.
    + destruct Hd as [Hd | [-> Hd]].
      * apply (settled_written token d s _ "java_path" (java_executable (world s)) c' Hs);
          [discriminate | exact Hset | exact Happ | exact Hd].
      * apply (settled_config token d s _ Hs); [by rewrite Happ | exact Hd | by rewrite Happ].
  - unfold install_modpack. py_unfold. cbn [fst snd].
    split; [|split; [by left | apply grows_log]].
    apply (settled_config token d s _ Hs); reflexivity.
Qed.

Lemma run_settled (token : string) (d : dict) (actions : list action) (s : State) :
  settled token d s ->
  settled token d (run actions s) /\ grows (world s) (world (run actions s)).
Proof.
  revert s. induction actions as [|a actions IH]; intros s Hs; simpl.
  - split; [exact Hs | apply grows_refl].
  - destruct (step_settled token d s a Hs) as (Hs' & _ & Hgrow).
    destruct (IH _ Hs') as (Hend & Hgrow').
    split; [exact Hend | apply (grows_trans _ _ _ Hgrow Hgrow')].
Qed.

(** X14.  In a running window the settings are stable.  From a state in
    which a client token and a mode can be read and the settings file holds
    the settings in memory, every sequence of user actions (mode picks,
    version picks, typing, log-ins with any reply, launches, modpack
    installs), leaves the client token as it was, a mode readable, the file
    equal to the settings in memory, and the catalog as it was: nothing
    refreshes the catalog after start-up. *)
Theorem window_keeps_token_and_catalog
    (token : string) (d : dict) (actions : list action) (s : State) :
  settled token d s ->
  let s' := run actions s in
  cfg_get (config (app s')) "settings" "client_token" = Returned token
  /\ (exists mode, cfg_get (config (app s')) "settings" "mode" = Returned mode)
  /\ config_on_disk (world s') = Some (config (app s'))
  /\ versions (app s') = d.
Proof. intros Hs. apply (run_settled token d actions s Hs). Qed.



Lemma started_settled :
  settled "00010203-0405-4607-8809-0a0b0c0d0e0f" [] started_state.
Proof.
  unfold settled. split; [vm_compute; reflexivity|].
  split; [exists "offline"; vm_compute; reflexivity|].
  split; vm_compute; reflexivity.
Defined.

Lemma window_keeps_token_and_catalog_witness :
  let s' := run [PickMode "TLauncher Mode"; PressLogin (Returned sample_auth_reply);
                 PickVersion "1.19.4"; PressPlay] started_state in
  cfg_get (config (app s')) "settings" "client_token"
  = Returned "00010203-0405-4607-8809-0a0b0c0d0e0f"
  /\ versions (app s') = [].
Proof.
  intros s'.
  destruct (window_keeps_token_and_catalog "00010203-0405-4607-8809-0a0b0c0d0e0f" []
              [PickMode "TLauncher Mode"; PressLogin (Returned sample_auth_reply);
               PickVersion "1.19.4"; PressPlay] started_state started_settled)
    as (Htoken & _ & _ & Hcatalog).
  split; [exact Htoken | exact Hcatalog].
Defined.



Lemma identity_from_same (data : value) (a a' : App) :
  same_identity a a' -> identity_from data a -> identity_from data a'.
Proof.
  unfold same_identity, identity_from. intros (_ & Ht & Hu & Hn). by rewrite Ht, Hu, Hn.
Qed.

Lemma step_identity (token : string) (d : dict) (s : State) (a : action) :
  settled token d s ->
  match a with
  | PressLogin (Returned data) =>
      if complete_auth_response data
      then logged_in (app (step s a)) = true /\ identity_from data (app (step s a))
      else logged_in (app (step s a)) = false
  | PressLogin (Raised e) =>
      if undecodable (Raised e) then same_identity (app s) (app (step s a))
      else logged_in (app (step s a)) = false
  | _ => same_identity (app s) (app (step s a))
  end.
Proof.
  intros (Htoken & [mode Hmode] & _). unfold step.
  destruct a as [m|v|u p|reply| |name]; cbn [handle].
  - apply (update_mode_identity (with_ui (set_mode_combo m) s)).
  - py_unfold. repeat split.
  - py_unfold. repeat split.
  - destruct reply as [data|e].
    + destruct (complete_auth_response data) eqn:Hdata.
      * destruct (login_complete s data token Htoken Hdata) as (Hin & _ & Ht & Hp).
        split; [exact Hin | split; [exact Ht | exact Hp]].
      * apply (login_incomplete s (Returned data) token Htoken); [|reflexivity].
        intros data' [= <-]. exact Hdata.
    + destruct (undecodable (Raised e)) eqn:Hdec.
      * destruct (undecodable_inv _ Hdec) as (code & reason & [= ->]).
        rewrite (login_undecodable s code reason token Htoken). repeat split.
      * apply (login_incomplete s (Raised e) token Htoken); [|exact Hdec].
        intros data' Hd. discriminate Hd.
  - destruct (launch_frame s mode Hmode) as (_ & (c' & _ & Happ & _) & _).
    rewrite Happ. repeat split.
  - unfold install_modpack. py_unfold. repeat split.
Qed.

Lemma run_identity (token : string) (d : dict) (actions : list action) (s : State)
    (known : value -> Prop) :
  settled token d s ->
  (logged_in (app s) = true -> exists data, known data /\ identity_from data (app s)) ->
  logged_in (app (run actions s)) = true ->
  exists data,
    (known data
     \/ (In (PressLogin (Returned data)) actions /\ complete_auth_response data = true))
    /\ identity_from data (app (run actions s)).
Proof.
  revert s known. induction actions as [|a actions IH]; intros s known Hs Hknown Hin; simpl.
  - destruct (Hknown Hin) as (data & Hk & Hid). eauto.
  - destruct (step_settled token d s a Hs) as (Hs' & _).
    pose proof (step_identity token d s a Hs) as Hstep.
    simpl in Hin.
    destruct (IH (step s a)
                (fun data => known data
                             \/ (a = PressLogin (Returned data)
                                 /\ complete_auth_response data = true)) Hs')
      as (data & Hfrom & Hid); [|exact Hin|].
    + intros Hin'.
      destruct a as [m|v|u p|[data|e]| |name];
        try (destruct Hstep as (Hl & Ht & Hu & Hn);
             destruct Hknown as (data & Hk & Hid); [congruence|];
             exists data; split; [by left|];
             apply (identity_from_same data (app s)); [repeat split; assumption | exact Hid]).
      * destruct (complete_auth_response data) eqn:Hdata.
        -- destruct Hstep as (_ & Hid). exists data. split; [right; auto | exact Hid].
        -- rewrite Hstep in Hin'. discriminate Hin'.
      * destruct (undecodable (Raised e)); [|rewrite Hstep in Hin'; discriminate Hin'].
        destruct Hstep as (Hl & Ht & Hu & Hn).
        destruct Hknown as (data & Hk & Hid); [congruence|].
        exists data. split; [by left|].
        apply (identity_from_same data (app s)); [repeat split; assumption | exact Hid].
    + exists data. split; [|exact Hid].
      destruct Hfrom as [[Hk | (-> & Hdata)] | (Hmem & Hdata)]; auto.
Qed.

(** X17.  A session is signed in only through a complete response, and
    then as that response says.  From a signed-out running window, if after
    some sequence of user actions [logged_in] is true, then one of the
    log-ins in the sequence received a complete response, and the access
    token, profile id and profile name in memory are the ones of that
    response. *)
Theorem signed_in_only_by_complete_reply
    (token : string) (d : dict) (actions : list action) (s : State) :
  settled token d s ->
  logged_in (app s) = false ->
  logged_in (app (run actions s)) = true ->
  exists data,
    In (PressLogin (Returned data)) actions
    /\ complete_auth_response data = true
    /\ identity_from data (app (run actions s)).
Proof.
  intros Hs Hout Hin.
  destruct (run_identity token d actions s (fun _ => False) Hs) as (data & Hfrom & Hid).
  - intros Hin'. rewrite Hout in Hin'. discriminate Hin'.
  - exact Hin.
  - destruct Hfrom as [[] | (Hmem & Hdata)]. eauto.
Qed.

Lemma signed_in_only_by_complete_reply_witness :
  exists data,
    In (PressLogin (Returned data))
      [PickMode "TLauncher Mode"; PressLogin (Raised (OtherError "URLError"));
       PressLogin (Returned sample_auth_reply); PressPlay]
    /\ complete_auth_response data = true.
Proof.
  destruct (signed_in_only_by_complete_reply "00010203-0405-4607-8809-0a0b0c0d0e0f" []
              [PickMode "TLauncher Mode"; PressLogin (Raised (OtherError "URLError"));
               PressLogin (Returned sample_auth_reply); PressPlay]
              started_state started_settled) as (data & Hmem & Hdata & _).
  - vm_compute. reflexivity.
  - vm_compute. reflexivity.
  - exists data. split; [exact Hmem | exact Hdata].
Defined.

Lemma network_install_events (c' : ConfigParser) (s : State) :
  existsb is_network (install_events c' s) = false.
Proof. unfold install_events. case_bool_decide; reflexivity. Qed.

Lemma network_reports (s : State) (argv : list value) :
  is_network (spawn_report s) = false /\ is_network (launch_report s argv) = false.
Proof.
  unfold launch_report, spawn_report.
  destruct (forallb is_str argv); destruct (spawn_error (world s)); split; reflexivity.
Qed.

(** X18.  PLAY stays off the network and starts at most one process: for
    every state whose settings give a mode, a run of [prepare_and_launch]
    opens no URL and calls [Popen] at most once, and it calls it only after
    the log-in gate and the empty-selection check were passed. *)
Theorem launch_is_offline_and_single (s : State) (mode : string) :
  cfg_get (config (app s)) "settings" "mode" = Returned mode ->
  let evs := new_events s (snd (prepare_and_launch s)) in
  existsb is_network evs = false
  /\ (length (spawns evs) <= 1)%nat
  /\ (spawns evs <> [] ->
        String.eqb mode "TLauncher Mode" && negb (logged_in (app s)) = false
        /\ version_combo (ui s) <> "").
Proof.
  intros Hmode evs. subst evs.
  destruct (String.eqb mode "TLauncher Mode" && negb (logged_in (app s))) eqn:Hgate.
  { assert (Hrun : prepare_and_launch s =
              (Returned tt,
               logged [EvShowError "Error" (Text "Please log in with TLauncher first.")] s))
      by (unfold prepare_and_launch; py_unfold; rewrite Hmode; cbn; rewrite Hgate;
          reflexivity).
    rewrite Hrun. cbn [snd]. rewrite new_events_logged by reflexivity.
    split; [reflexivity|]. split; [simpl; lia | intros H; by destruct H]. }
  destruct (String.eqb_spec (version_combo (ui s)) "") as [Hempty|Hver].
  { assert (Hrun : prepare_and_launch s =
              (Returned tt, logged [EvShowError "Error" (Text "Please select a version.")] s))
      by (unfold prepare_and_launch; py_unfold; rewrite Hmode; cbn; rewrite Hgate, Hempty;
          reflexivity).
    rewrite Hrun. cbn [snd]. rewrite new_events_logged by reflexivity.
    split; [reflexivity|]. split; [simpl; lia | intros H; by destruct H]. }
  destruct (cfg_get_set_section _ _ _ "java_path" _ (java_executable (world s)) Hmode)
    as [c' Hset].
  destruct (installed_frame s c') as (_ & _ & Hlog & _).
  destruct (index (split_on "." (version_combo (ui s))) 1) as [asset_index|e] eqn:Hidx.
  - destruct (logged_in (app s)) eqn:Hin.
    + rewrite (launch_signed_in s mode asset_index c' Hmode Hin Hver Hset Hidx).
      cbn [snd]. rewrite new_events_logged by exact Hlog.
      rewrite spawns_signed_in, existsb_app, network_install_events. cbn [existsb is_network].
      rewrite (proj2 (network_reports s _)). split; [reflexivity|].
      split; [simpl; lia | auto].
    + assert (Hoff : mode <> "TLauncher Mode").
      { intros ->. rewrite String.eqb_refl in Hgate. discriminate Hgate. }
      rewrite (launch_offline s mode asset_index c' Hmode Hoff Hin Hver Hset Hidx).
      cbn [snd]. rewrite new_events_logged by exact Hlog.
      rewrite spawns_launch, existsb_app, network_install_events. cbn [existsb is_network].
      rewrite (proj1 (network_reports s [])). split; [reflexivity|].
      split; [simpl; lia | auto].
  - pose proof (index_raises _ _ _ Hidx) as ->.
    rewrite (launch_dotless s mode c' Hmode Hgate Hver Hset Hidx).
    cbn [snd]. rewrite new_events_logged by exact Hlog.
    rewrite spawns_install_events, network_install_events.
    split; [reflexivity|]. split; [simpl; lia | intros H; by destruct H].
Qed.

Lemma launch_is_offline_and_single_witness :
  existsb is_network (new_events started_state (snd (prepare_and_launch started_state)))
  = false
  /\ (length (spawns (new_events started_state (snd (prepare_and_launch started_state))))
      <= 1)%nat.
Proof.
  destruct (launch_is_offline_and_single started_state "offline") as (Hnet & Hone & _).
  - vm_compute. reflexivity.
  - split; [exact Hnet | exact Hone].
Defined.

(** ** The asset index *)

Lemma split_on_prefix (c : ascii) (a r : string) :
  contains c a = false -> split_on c (a ++ String c r) = a :: split_on c r.
Proof.
  induction a as [|x a IH]; simpl.
  - intros _. by rewrite Ascii.eqb_refl.
  - destruct (Ascii.eqb x c); simpl; [discriminate|].
    intros Ha. by rewrite (IH Ha).
Qed.

(** X19.  The text passed after [--assetIndex] is the second component of
    the version id: for an id [major.minor] or [major.minor.rest] whose
    major and minor have no dot, [version.split('.')[1]] is [minor]. *)
Theorem asset_index_is_second_component (major minor : string) :
  contains "." major = false ->
  contains "." minor = false ->
  index (split_on "." (major ++ "." ++ minor)) 1 = Returned minor
  /\ forall rest, index (split_on "." (major ++ "." ++ minor ++ "." ++ rest)) 1
                  = Returned minor.
Proof.
  intros Hmajor Hminor. split.
  - change ("." ++ minor) with (String "."%char minor).
    rewrite (split_on_prefix _ _ _ Hmajor), (split_on_without _ _ Hminor). reflexivity.
  - intros rest. change ("." ++ minor ++ "." ++ rest) with (String "."%char (minor ++ "." ++ rest)).
    rewrite (split_on_prefix _ _ _ Hmajor).
    change ("." ++ rest) with (String "."%char rest).
    rewrite (split_on_prefix _ _ _ Hminor). reflexivity.
Qed.

Lemma asset_index_is_second_component_witness :
  index (split_on "." "1.20") 1 = Returned "20"
  /\ index (split_on "." "1.20.1") 1 = Returned "20".
Proof.
  destruct (asset_index_is_second_component "1" "20" eq_refl eq_refl) as (Htwo & Hthree).
  split; [exact Htwo | exact (Hthree "1")].
Defined.

(** ** What a launch leaves behind and what it ignores *)

(** X20.  A launch that passes the log-in gate and the empty-selection
    check records the runtime path before anything else can fail: whether
    it then returns or ends in [IndexError], the settings in memory and the
    settings file give [java_path] as the executable under the runtime
    directory, and that directory exists. *)
Theorem launch_records_runtime_path (s : State) (mode : string) :
  cfg_get (config (app s)) "settings" "mode" = Returned mode ->
  String.eqb mode "TLauncher Mode" && negb (logged_in (app s)) = false ->
  version_combo (ui s) <> "" ->
  let s' := snd (prepare_and_launch s) in
  cfg_get (config (app s')) "settings" "java_path" = Returned (java_executable (world s))
  /\ config_on_disk (world s') = Some (config (app s'))
  /\ JAVA_DIR (world s) ∈ paths (world s').
Proof.
  intros Hmode Hgate Hver s'.
  destruct (cfg_get_set_section _ _ _ "java_path" _ (java_executable (world s)) Hmode)
    as [c' Hset].
  assert (Hs' : exists evs s0,
            s' = logged evs s0
            /\ app s0 = set_config c' (app s)
            /\ config_on_disk (world s0) = Some c'
            /\ JAVA_DIR (world s) ∈ paths (world s0)).
  { assert (Hinst : app (installed c' s) = set_config c' (app s)
                    /\ config_on_disk (world (installed c' s)) = Some c'
                    /\ JAVA_DIR (world s) ∈ paths (world (installed c' s))).
    { unfold installed. case_bool_decide; simpl; repeat split;
        [assumption | apply elem_of_union_l, made_leaf]. }
    destruct Hinst as (Happ & Hdisk & Hdir). subst s'.
    destruct (index (split_on "." (version_combo (ui s))) 1) as [asset_index|e] eqn:Hidx.
    - destruct (logged_in (app s)) eqn:Hin.
      + rewrite (launch_signed_in s mode asset_index c' Hmode Hin Hver Hset Hidx).
        eexists _, _. split; [reflexivity | auto].
      + assert (Hoff : mode <> "TLauncher Mode").
        { intros ->. rewrite String.eqb_refl in Hgate. discriminate Hgate. }
        rewrite (launch_offline s mode asset_index c' Hmode Hoff Hin Hver Hset Hidx).
        eexists _, _. split; [reflexivity | auto].
    - pose proof (index_raises _ _ _ Hidx) as ->.
      rewrite (launch_dotless s mode c' Hmode Hgate Hver Hset Hidx).
      eexists _, _. split; [reflexivity | auto]. }
  destruct Hs' as (evs & s0 & -> & Happ & Hdisk & Hdir).
  cbn [logged with_world app world config_on_disk set_log paths]. rewrite Happ, Hdisk.
  split; [apply (cfg_get_set_eq _ _ _ _ _ Hset) | auto].
Qed.

Lemma launch_records_runtime_path_witness :
  let s := with_ui (set_version_combo "23w13a") started_state in
  fst (prepare_and_launch s) = Raised IndexError
  /\ cfg_get (config (app (snd (prepare_and_launch s)))) "settings" "java_path"
     = Returned "/home/cat/.catclient/java/bin/java".
Proof.
  intros s.
  destruct (launch_records_runtime_path s "offline") as (Hpath & _).
  - vm_compute. reflexivity.
  - reflexivity.
  - vm_compute. discriminate.
  - split; [vm_compute; reflexivity | exact Hpath].
Defined.

Ltac same_but_catalog :=
  f_equal;
  unfold logged, installed, install_events, signed_in_cmd, offline_cmd, launch_report,
    spawn_report, next_uuid, uuid_after, with_app, with_world;
  cbn [app ui world config logged_in access_token username uuid versions set_config
       set_versions];
  case_bool_decide; reflexivity.

(** X21.  The catalog plays no part in a launch: with any other catalog in
    its place, [prepare_and_launch] ends the same way, logs the same events
    and leaves the same state, catalog apart.  In particular a version id
    is never looked up. *)
Theorem launch_ignores_catalog (d : dict) (s : State) :
  prepare_and_launch (with_app (set_versions d) s) =
    (fst (prepare_and_launch s), with_app (set_versions d) (snd (prepare_and_launch s))).
Proof.
  set (s0 := with_app (set_versions d) s).
  destruct (cfg_get (config (app s)) "settings" "mode") as [mode|e] eqn:Hmode.
  2:{ assert (Hrun : forall st, cfg_get (config (app st)) "settings" "mode" = Raised e ->
                prepare_and_launch st = (Raised e, st))
        by (intros st Hst; unfold prepare_and_launch; py_unfold; rewrite Hst; reflexivity).
      rewrite (Hrun s0 Hmode), (Hrun s Hmode). reflexivity. }
  destruct (String.eqb mode "TLauncher Mode" && negb (logged_in (app s))) eqn:Hgate.
  { assert (Hrun : forall st, cfg_get (config (app st)) "settings" "mode" = Returned mode ->
              String.eqb mode "TLauncher Mode" && negb (logged_in (app st)) = true ->
              prepare_and_launch st =
                (Returned tt,
                 logged [EvShowError "Error" (Text "Please log in with TLauncher first.")] st))
      by (intros st Hst Hg; unfold prepare_and_launch; py_unfold; rewrite Hst; cbn;
          rewrite Hg; reflexivity).
    rewrite (Hrun s0 Hmode Hgate), (Hrun s Hmode Hgate). reflexivity. }
  destruct (String.eqb_spec (version_combo (ui s)) "") as [Hempty|Hver].
  { assert (Hrun : forall st, cfg_get (config (app st)) "settings" "mode" = Returned mode ->
              String.eqb mode "TLauncher Mode" && negb (logged_in (app st)) = false ->
              version_combo (ui st) = "" ->
              prepare_and_launch st =
                (Returned tt,
                 logged [EvShowError "Error" (Text "Please select a version.")] st))
      by (intros st Hst Hg Hv; unfold prepare_and_launch; py_unfold; rewrite Hst; cbn;
          rewrite Hg, Hv; reflexivity).
    rewrite (Hrun s0 Hmode Hgate Hempty), (Hrun s Hmode Hgate Hempty). reflexivity. }
  destruct (cfg_get_set_section _ _ _ "java_path" _ (java_executable (world s)) Hmode)
    as [c' Hset].
  destruct (index (split_on "." (version_combo (ui s))) 1) as [asset_index|e] eqn:Hidx.
  - destruct (logged_in (app s)) eqn:Hin.
    + rewrite (launch_signed_in s0 mode asset_index c' Hmode Hin Hver Hset Hidx),
        (launch_signed_in s mode asset_index c' Hmode Hin Hver Hset Hidx).
      cbn [fst snd]. subst s0. same_but_catalog.
    + assert (Hoff : mode <> "TLauncher Mode").
      { intros ->. rewrite String.eqb_refl in Hgate. discriminate Hgate. }
      rewrite (launch_offline s0 mode asset_index c' Hmode Hoff Hin Hver Hset Hidx),
        (launch_offline s mode asset_index c' Hmode Hoff Hin Hver Hset Hidx).
      cbn [fst snd]. subst s0. same_but_catalog.
  - pose proof (index_raises _ _ _ Hidx) as ->.
    assert (Hgate0 : String.eqb mode "TLauncher Mode" && negb (logged_in (app s0)) = false)
      by exact Hgate.
    rewrite (launch_dotless s0 mode c' Hmode Hgate0 Hver Hset Hidx),
      (launch_dotless s mode c' Hmode Hgate Hver Hset Hidx).
    cbn [fst snd]. subst s0. same_but_catalog.
Qed.

(** ** Closing the window and starting again *)

Lemma restart_run (s : State) (reply : outcome value) (doc : ConfigParser)
    (mode token : string) :
  config_on_disk (world s) = Some doc ->
  cfg_get doc "settings" "mode" = Returned mode ->
  cfg_get doc "settings" "client_token" = Returned token ->
  exists c',
    cfg_set doc "settings" "mode" mode = Returned c'
    /\ __init__ reply s =
         (Returned tt,
          opened mode c'
            (with_app (set_versions (refreshed reply))
               (logged (EvUrlOpen VERSION_MANIFEST_URL [] None :: refresh_report reply)
                  (with_app (set_config doc) (with_app (fun _ => fresh_app) s))))).
Proof.
  intros Hdisk Hmode Htoken.
  destruct (cfg_get_set_section _ _ _ "mode" _ mode Hmode) as [c' Hset].
  exists c'. split; [exact Hset|].
  apply (init_after_load s _ reply mode c').
  - apply (load_config_present (with_app (fun _ => fresh_app) s) doc Hdisk).
    apply (cfg_get_has_option _ _ _ _ Htoken).
  - exact Hmode.
  - exact Hset.
Qed.

(** X22.  What the window saves, the next start reads back.  After any
    sequence of user actions in a running window, starting the launcher
    again over the files left behind succeeds whatever the manifest request
    does; every option of the [settings] section then reads as it did when
    the window was closed, the client token among them, and the mode box
    shows the stored mode; but the new session is signed out. *)
Theorem restart_reads_back_settings
    (token : string) (d : dict) (actions : list action) (s : State)
    (reply : outcome value) :
  settled token d s ->
  let s1 := run actions s in
  let s2 := snd (__init__ reply s1) in
  fst (__init__ reply s1) = Returned tt
  /\ (forall opt, cfg_get (config (app s2)) "settings" opt
                  = cfg_get (config (app s1)) "settings" opt)
  /\ cfg_get (config (app s2)) "settings" "client_token" = Returned token
  /\ cfg_get (config (app s2)) "settings" "mode" = Returned (mode_combo (ui s2))
  /\ config_on_disk (world s2) = Some (config (app s2))
  /\ logged_in (app s2) = false.
Proof.
  intros Hs s1 s2.
  destruct (run_settled token d actions s Hs) as ((Htoken & [mode Hmode] & Hdisk & _) & _).
  fold s1 in Htoken, Hmode, Hdisk.
  destruct (restart_run s1 reply (config (app s1)) mode token Hdisk Hmode Htoken)
    as (c' & Hset & Hrun).
  subst s2. rewrite Hrun. cbn [fst snd opened app ui world config set_config mode_combo
                                config_on_disk set_log logged_in].
  assert (Hsame : forall opt, cfg_get c' "settings" opt
                              = cfg_get (config (app s1)) "settings" opt).
  { intros opt. destruct (String.eqb_spec opt "mode") as [->|Hne].
    - rewrite (cfg_get_set_eq _ _ _ _ _ Hset). by rewrite Hmode.
    - apply (cfg_get_set_ne _ _ _ _ _ _ Hne Hset). }
  split; [reflexivity|]. split; [exact Hsame|].
  split; [by rewrite Hsame|]. split; [apply (cfg_get_set_eq _ _ _ _ _ Hset)|].
  split; reflexivity.
Qed.

Lemma restart_reads_back_settings_witness :
  let s1 := run [PickMode "TLauncher Mode"; PressLogin (Returned sample_auth_reply)]
              started_state in
  let s2 := snd (__init__ (Returned sample_manifest) s1) in
  logged_in (app s1) = true
  /\ logged_in (app s2) = false
  /\ cfg_get (config (app s2)) "settings" "client_token"
     = Returned "00010203-0405-4607-8809-0a0b0c0d0e0f".
Proof.
  intros s1 s2.
  destruct (restart_reads_back_settings "00010203-0405-4607-8809-0a0b0c0d0e0f" []
              [PickMode "TLauncher Mode"; PressLogin (Returned sample_auth_reply)]
              started_state (Returned sample_manifest) started_settled)
    as (_ & _ & Htoken & _ & _ & Hout).
  split; [vm_compute; reflexivity|]. split; [exact Hout | exact Htoken].
Defined.
